(** * KYC Geointelligent: risk fusion engine and raster feature extraction

    A shallow embedding of [app/risk_analyzer.py], of the computer-vision
    entry points of [app/satellite_analyzer.py] and of the request handler
    of [app/kyc_api.py], followed by the properties established about them.

    Conventions of the embedding.
    - Python [float] values are rationals ([Q]) and the arithmetic on them
      is exact: the rounding of binary64 is not modelled, so a value the
      source computes may differ from the modelled one in its last digits
      (the source's [0.7 * 0.3 + 0.2 * 0.4] is [0.29000000000000004]).
    - Python [int] values read from dictionaries are integers ([Z]).
    - A dictionary with a fixed set of string keys is a record; a key that
      may be absent is an [option] field and [d.get(k, v)] is [py_get v].
    - [str] values are byte strings ([string]). *)

From Stdlib Require Import QArith Qminmax Qround Lqa Lia List String Ascii Bool ZArith.
From Stdlib Require Import DecimalString.
Import ListNotations.

Open Scope string_scope.
Open Scope Q_scope.

(** ** Python built-ins used by the source *)

Module Py.

(** [d.get(key, default)] on an optional field. *)
Definition py_get {A : Type} (default : A) (field : option A) : A :=
  match field with
  | Some v => v
  | None => default
  end.

(** [x in l] for a list of strings. *)
Definition py_in (x : string) (l : list string) : bool :=
  existsb (String.eqb x) l.

(** [any(p(x) for x in l)]. *)
Definition py_any {A : Type} (p : A -> bool) (l : list A) : bool :=
  existsb p l.

(** [a < b], [a >= b] and [a > b] on floats. *)
Definition Qlt_bool (a b : Q) : bool := negb (Qle_bool b a).
Definition Qge_bool (a b : Q) : bool := Qle_bool b a.
Definition Qgt_bool (a b : Q) : bool := negb (Qle_bool a b).

(** [min(a, b)]: Python returns [b] only when [b < a]. *)
Definition py_min (a b : Q) : Q := if Qlt_bool b a then b else a.

(** [max(a, b)]: Python returns [b] only when [b > a]. *)
Definition py_max (a b : Q) : Q := if Qgt_bool b a then b else a.

(** [len(l)] as a Python int. *)
Definition len {A : Type} (l : list A) : Z := Z.of_nat (List.length l).

(** [l[:n]]. *)
Definition slice_to {A : Type} (n : nat) (l : list A) : list A := firstn n l.

(** [c.lower()] on one character: the ASCII capitals are mapped to small
    letters.  Python also maps capitals outside ASCII; none of them maps to
    a string of ASCII letters occurring in the tables of the analyzer (the
    only two that map to ASCII at all are the Kelvin sign, to [k], and the
    dotted capital I, to [i] followed by a combining dot), so lookups by
    lowercased key agree. *)
Definition lower_ascii (c : ascii) : ascii :=
  let n := nat_of_ascii c in
  if (65 <=? n)%nat && (n <=? 90)%nat then ascii_of_nat (n + 32) else c.

(** [s.lower()]. *)
Fixpoint lower (s : string) : string :=
  match s with
  | EmptyString => EmptyString
  | String c rest => String (lower_ascii c) (lower rest)
  end.

(** [needle in hay] for strings. *)
Fixpoint str_in (needle hay : string) : bool :=
  if String.prefix needle hay then true
  else match hay with
       | EmptyString => false
       | String _ rest => str_in needle rest
       end.

(** [sep.join(l)]. *)
Fixpoint join (sep : string) (l : list string) : string :=
  match l with
  | [] => ""
  | [x] => x
  | x :: rest => x ++ sep ++ join sep rest
  end.

(** [sum(l)] on floats. *)
Definition py_sum (l : list Q) : Q := fold_left Qplus l 0.

(** [max(l, default=d)]: the first maximal element, [d] on the empty list. *)
Definition py_max_default (l : list Q) (d : Q) : Q :=
  match l with
  | [] => d
  | x :: rest => fold_left py_max rest x
  end.

(** The outcome of a call that may raise: a value, or the message of the
    exception ([str(e)]). *)
Inductive Result (A : Type) : Type :=
| Ok (value : A)
| Raise (message : string).
Arguments Ok {A} value.
Arguments Raise {A} message.

Definition bind {A B : Type} (r : Result A) (k : A -> Result B) : Result B :=
  match r with
  | Ok a => k a
  | Raise m => Raise m
  end.

Notation "x <- r ;; k" := (bind r (fun x => k))
  (at level 61, r at next level, right associativity).

End Py.
Import Py.

(** ** Data model: the dictionaries exchanged between the components *)

(** [address_data], as produced by the address validator.  Only the keys
    read by the analyzer are modelled.  [None] stands for an absent key; the
    validator stores Python [None] under [location_type] and
    [neighborhood_context] when validation failed, which compares unequal to
    every string just as the default ['unknown'] does. *)
Record AddressData := {
  is_valid : option bool;
  location_type : option string;
  neighborhood_context : option string;
  nearby_amenities : option (list string);
  address_error : option string
}.

(** [visual_features['building_detection']['buildings'][i]]. *)
Record Building := {
  b_area : Q;
  b_vertices : Z;
  b_perimeter : Q
}.

(** [visual_features['building_detection']]; the empty dictionary has every
    field absent. *)
Record BuildingDetection := {
  building_count : option Z;
  total_building_area : option Q;
  largest_building_area : option Q;
  buildings : option (list Building)
}.

Definition empty_building_detection : BuildingDetection :=
  {| building_count := None; total_building_area := None;
     largest_building_area := None; buildings := None |}.

(** [visual_features['vehicle_detection']['vehicles'][i]]. *)
Record Vehicle := {
  v_area : Q;
  v_aspect_ratio : Q;
  v_position : Z * Z
}.

Record VehicleDetection := {
  vehicle_count : option Z;
  vehicles : option (list Vehicle)
}.

Definition empty_vehicle_detection : VehicleDetection :=
  {| vehicle_count := None; vehicles := None |}.

Record InfrastructureFeatures := {
  detected_lines : option Z;
  infrastructure_density : option Q
}.

Definition empty_infrastructure_features : InfrastructureFeatures :=
  {| detected_lines := None; infrastructure_density := None |}.

Record AreaCharacteristics := {
  vegetation_percentage : option Q;
  water_percentage : option Q;
  average_brightness : option Q;
  developed_area_percentage : option Q
}.

Definition empty_area_characteristics : AreaCharacteristics :=
  {| vegetation_percentage := None; water_percentage := None;
     average_brightness := None; developed_area_percentage := None |}.

(** [satellite_data['visual_features']], the dictionary returned by
    [_computer_vision_analysis]. *)
Record VisualFeatures := {
  building_detection : option BuildingDetection;
  vehicle_detection : option VehicleDetection;
  infrastructure_features : option InfrastructureFeatures;
  area_characteristics : option AreaCharacteristics;
  vf_error : option string
}.

Definition empty_visual_features : VisualFeatures :=
  {| building_detection := None; vehicle_detection := None;
     infrastructure_features := None; area_characteristics := None;
     vf_error := None |}.

(** [satellite_data['infrastructure_assessment']]. *)
Record InfrastructureAssessment := {
  positive_indicators : option (list string)
}.

Definition empty_infrastructure_assessment : InfrastructureAssessment :=
  {| positive_indicators := None |}.

(** [satellite_data], as produced by [SatelliteAnalyzer.analyze_location]. *)
Record SatelliteData := {
  analysis_completed : option bool;
  visual_features : option VisualFeatures;
  infrastructure_assessment : option InfrastructureAssessment;
  risk_indicators : option (list string);
  confidence_score : option Q
}.

(** The dictionary returned by each of the three scorers.  The rating is
    stored under ['address_quality'], ['infrastructure_quality'] or
    ['compatibility_rating'] according to the scorer.  ['risk_score'] is
    always set, so the default of [.get('risk_score', 0.5)] is never used.
    [sig_confidence_score] is the key ['confidence_score'] that
    [_calculate_overall_risk_score] looks up in the satellite scorer's
    dictionary. *)
Record SignalScore := {
  risk_score : Q;
  risk_factors : list string;
  positive_factors : list string;
  quality_rating : string;
  sig_confidence_score : option Q
}.

(** [d['risk_factors'].append(factor)]. *)
Definition add_risk_factor (factor : string) (d : SignalScore) : SignalScore :=
  {| risk_score := risk_score d;
     risk_factors := risk_factors d ++ [factor];
     positive_factors := positive_factors d;
     quality_rating := quality_rating d;
     sig_confidence_score := sig_confidence_score d |}.

(** [d['risk_score'] += amount; d['risk_factors'].append(factor)]. *)
Definition add_risk (amount : Q) (factor : string) (d : SignalScore) : SignalScore :=
  {| risk_score := risk_score d + amount;
     risk_factors := risk_factors d ++ [factor];
     positive_factors := positive_factors d;
     quality_rating := quality_rating d;
     sig_confidence_score := sig_confidence_score d |}.

(** [d['positive_factors'].append(factor)]. *)
Definition add_positive (factor : string) (d : SignalScore) : SignalScore :=
  {| risk_score := risk_score d;
     risk_factors := risk_factors d;
     positive_factors := positive_factors d ++ [factor];
     quality_rating := quality_rating d;
     sig_confidence_score := sig_confidence_score d |}.

(** [d['risk_score'] += amount; d['risk_factors'].extend(factors)]. *)
Definition add_risks (amount : Q) (factors : list string) (d : SignalScore) : SignalScore :=
  {| risk_score := risk_score d + amount;
     risk_factors := risk_factors d ++ factors;
     positive_factors := positive_factors d;
     quality_rating := quality_rating d;
     sig_confidence_score := sig_confidence_score d |}.

Definition set_quality (q : string) (d : SignalScore) : SignalScore :=
  {| risk_score := risk_score d;
     risk_factors := risk_factors d;
     positive_factors := positive_factors d;
     quality_rating := q;
     sig_confidence_score := sig_confidence_score d |}.

Definition set_risk_score (s : Q) (d : SignalScore) : SignalScore :=
  {| risk_score := s;
     risk_factors := risk_factors d;
     positive_factors := positive_factors d;
     quality_rating := quality_rating d;
     sig_confidence_score := sig_confidence_score d |}.

(** The initial dictionary of every scorer. *)
Definition initial_signal : SignalScore :=
  {| risk_score := 0.0; risk_factors := []; positive_factors := [];
     quality_rating := "UNKNOWN"; sig_confidence_score := None |}.

Inductive RiskLevel := UNKNOWN | LOW | MEDIUM | HIGH.
Inductive Recommendation := AUTO_APPROVE | MANUAL_REVIEW | BLOCK.

(** The dictionary returned by [RiskAnalyzer.analyze_comprehensive_risk]. *)
Module RiskAssessment.

Record BusinessInformation := {
  type : string;
  declared_activity : string
}.

Record t := {
  cnpj : string;
  analysis_timestamp : string;
  address_validation : AddressData;
  satellite_analysis : SatelliteData;
  business_information : BusinessInformation;
  risk_factors : list string;
  positive_factors : list string;
  overall_risk_score : Q;
  risk_level : RiskLevel;
  recommendation : Recommendation;
  detailed_assessment : list (string * SignalScore);
  confidence_level : Q;
  recommendation_text : option string;
  error : option string
}.

End RiskAssessment.

(** ** [class RiskAnalyzer] *)

Module RiskAnalyzer.

(** The instance attributes set by [__init__] from [Config]. *)
Record t := {
  high_risk_threshold : Q;
  medium_risk_threshold : Q
}.

(** [Config.HIGH_RISK_THRESHOLD] and [Config.MEDIUM_RISK_THRESHOLD] when the
    environment does not override them. *)
Definition default : t :=
  {| high_risk_threshold := 0.7; medium_risk_threshold := 0.4 |}.

(** [location_mapping] of [_get_expected_locations]. *)
Definition location_mapping : list (string * list string) :=
  [ ("logistics", ["industrial"; "commercial"]);
    ("manufacturing", ["industrial"]);
    ("technology", ["commercial"; "office"]);
    ("consulting", ["commercial"; "office"]);
    ("retail", ["commercial"]);
    ("restaurant", ["commercial"]) ].

(** [mapping.get(key, default)] on a dictionary literal. *)
Fixpoint dict_get {A : Type} (mapping : list (string * A)) (key : string) (default : A) : A :=
  match mapping with
  | [] => default
  | (k, v) :: rest => if String.eqb k key then v else dict_get rest key default
  end.

Definition _get_expected_locations (business_type : string) : list string :=
  dict_get location_mapping (lower business_type) ["commercial"].

Definition mismatch_factor : string :=
  "Business type may not match commercial location".

Definition _analyze_address_risk (address_data : AddressData) (business_type : string)
  : SignalScore :=
  let risk_analysis := initial_signal in
  if negb (py_get false (is_valid address_data)) then
    set_quality "INVALID"
      (add_risk_factor "Address not found or invalid" (set_risk_score 0.9 risk_analysis))
  else
    let location_type := py_get "unknown" (location_type address_data) in
    let expected_locations := _get_expected_locations business_type in
    let risk_analysis :=
      if String.eqb location_type "residential" then
        add_risk 0.4 "Business registered at residential address" risk_analysis
      else if py_in location_type expected_locations then
        add_positive ("Address in appropriate " ++ location_type ++ " area") risk_analysis
      else if String.eqb location_type "commercial"
              && negb (py_in business_type ["technology"; "consulting"]) then
        add_risk 0.1 mismatch_factor risk_analysis
      else risk_analysis in
    let neighborhood := py_get "unknown" (neighborhood_context address_data) in
    let risk_analysis :=
      if String.eqb neighborhood "remote" || String.eqb neighborhood "rural" then
        if py_in business_type ["technology"; "consulting"] then
          add_risk 0.3 "Tech/consulting business in remote location" risk_analysis
        else risk_analysis
      else risk_analysis in
    let amenities := py_get [] (nearby_amenities address_data) in
    let business_supporting_amenities := ["bank"; "office"; "commercial"; "industrial"] in
    let risk_analysis :=
      if py_any (fun amenity => py_in amenity business_supporting_amenities) amenities then
        add_positive "Business-supporting amenities nearby" risk_analysis
      else risk_analysis in
    if Qlt_bool (risk_score risk_analysis) 0.2 then set_quality "EXCELLENT" risk_analysis
    else if Qlt_bool (risk_score risk_analysis) 0.4 then set_quality "GOOD" risk_analysis
    else set_quality "POOR" risk_analysis.

Definition _analyze_satellite_risk (satellite_data : SatelliteData) (business_type : string)
  : SignalScore :=
  let risk_analysis := initial_signal in
  if negb (py_get false (analysis_completed satellite_data)) then
    add_risk_factor "Satellite analysis unavailable" (set_risk_score 0.3 risk_analysis)
  else
    let visual_features := py_get empty_visual_features (visual_features satellite_data) in
    let building_detection :=
      py_get empty_building_detection (building_detection visual_features) in
    let building_count := py_get 0%Z (building_count building_detection) in
    let largest_building := py_get 0 (largest_building_area building_detection) in
    let risk_analysis :=
      if (building_count =? 0)%Z then
        add_risk 0.5 "No buildings detected at registered address" risk_analysis
      else if (0 <? building_count)%Z && Qgt_bool largest_building 5000 then
        add_positive "Substantial building infrastructure present" risk_analysis
      else risk_analysis in
    let vehicle_detection :=
      py_get empty_vehicle_detection (vehicle_detection visual_features) in
    let vehicle_count := py_get 0%Z (vehicle_count vehicle_detection) in
    let risk_analysis :=
      if (5 <? vehicle_count)%Z then
        add_positive "Multiple vehicles present - signs of activity" risk_analysis
      else if (vehicle_count =? 0)%Z && py_in business_type ["logistics"; "transport"] then
        add_risk 0.3 "No vehicles visible for logistics/transport business" risk_analysis
      else risk_analysis in
    let infrastructure_assessment :=
      py_get empty_infrastructure_assessment (infrastructure_assessment satellite_data) in
    let positive_indicators := py_get [] (positive_indicators infrastructure_assessment) in
    let risk_analysis :=
      if (3 <=? len positive_indicators)%Z then
        add_positive "Strong infrastructure indicators from AI analysis" risk_analysis
      else if (len positive_indicators =? 0)%Z then
        add_risk 0.2 "Limited infrastructure indicators" risk_analysis
      else risk_analysis in
    let ai_risk_indicators := py_get [] (risk_indicators satellite_data) in
    let risk_analysis :=
      match ai_risk_indicators with
      | [] => risk_analysis
      | _ :: _ =>
          add_risks (py_min 0.4 (inject_Z (len ai_risk_indicators) * 0.1))
                    (slice_to 3 ai_risk_indicators) risk_analysis
      end in
    if Qlt_bool (risk_score risk_analysis) 0.2 && (2 <=? len positive_indicators)%Z then
      set_quality "EXCELLENT" risk_analysis
    else if Qlt_bool (risk_score risk_analysis) 0.4 then set_quality "ADEQUATE" risk_analysis
    else set_quality "POOR" risk_analysis.

(** [declared_activity] is accepted and never read; so is the
    [expected_infrastructure] looked up from [business_infrastructure_mapping],
    which is therefore not modelled. *)
Definition _analyze_business_compatibility
    (address_data : AddressData) (satellite_data : SatelliteData)
    (business_type declared_activity : string) : SignalScore :=
  let compatibility_analysis := initial_signal in
  let location_type := py_get "unknown" (location_type address_data) in
  let compatibility_analysis :=
    if py_in (lower business_type) ["logistics"; "manufacturing"]
       && String.eqb location_type "residential" then
      add_risk 0.6 ("Industrial " ++ business_type ++ " business at residential location")
               compatibility_analysis
    else compatibility_analysis in
  let compatibility_analysis :=
    if py_in (lower business_type) ["technology"; "consulting"]
       && String.eqb location_type "industrial" then
      add_risk 0.2 (business_type ++ " business in industrial area (unusual but possible)")
               compatibility_analysis
    else compatibility_analysis in
  let visual_features := py_get empty_visual_features (visual_features satellite_data) in
  let building_detection :=
    py_get empty_building_detection (building_detection visual_features) in
  let total_building_area := py_get 0 (total_building_area building_detection) in
  let compatibility_analysis :=
    if py_in (lower business_type) ["logistics"; "manufacturing"] then
      if Qlt_bool total_building_area 1000 then
        add_risk 0.3 "Small infrastructure for industrial business type" compatibility_analysis
      else
        add_positive "Adequate infrastructure size for business type" compatibility_analysis
    else compatibility_analysis in
  let vehicle_count :=
    py_get 0%Z (vehicle_count
                  (py_get empty_vehicle_detection (vehicle_detection visual_features))) in
  let compatibility_analysis :=
    if py_in (lower business_type) ["logistics"; "transport"] then
      if (vehicle_count <? 2)%Z then
        add_risk 0.2 "Low vehicle activity for transport/logistics business"
                 compatibility_analysis
      else compatibility_analysis
    else compatibility_analysis in
  if Qlt_bool (risk_score compatibility_analysis) 0.15 then
    set_quality "EXCELLENT" compatibility_analysis
  else if Qlt_bool (risk_score compatibility_analysis) 0.35 then
    set_quality "GOOD" compatibility_analysis
  else if Qlt_bool (risk_score compatibility_analysis) 0.55 then
    set_quality "QUESTIONABLE" compatibility_analysis
  else set_quality "POOR" compatibility_analysis.

(** The weighted sum computed by [_calculate_overall_risk_score] before the
    confidence adjustment. *)
Definition weighted_average (address_risk satellite_risk compatibility_risk : SignalScore) : Q :=
  let address_weight := 0.3 in
  let satellite_weight := 0.4 in
  let compatibility_weight := 0.3 in
  let address_score := risk_score address_risk in
  let satellite_score := risk_score satellite_risk in
  let compatibility_score := risk_score compatibility_risk in
  address_score * address_weight
  + satellite_score * satellite_weight
  + compatibility_score * compatibility_weight.

(** [overall_score] just before [return min(1.0, overall_score)]. *)
Definition unclamped_overall_risk_score
    (address_risk satellite_risk compatibility_risk : SignalScore) : Q :=
  let overall_score := weighted_average address_risk satellite_risk compatibility_risk in
  let satellite_data_confidence := py_get 0.5 (sig_confidence_score satellite_risk) in
  if Qlt_bool satellite_data_confidence 0.3 then overall_score + 0.1 else overall_score.

Definition _calculate_overall_risk_score
    (address_risk satellite_risk compatibility_risk : SignalScore) : Q :=
  py_min 1.0 (unclamped_overall_risk_score address_risk satellite_risk compatibility_risk).

(** [round(x)] to the nearest integer, ties to the even one. *)
Definition round_half_even (x : Q) : Z :=
  let f := Qfloor x in
  let r := x - inject_Z f in
  if Qlt_bool r (1 # 2) then f
  else if Qlt_bool (1 # 2) r then (f + 1)%Z
  else if Z.even f then f else (f + 1)%Z.

Definition str_of_nat_Z (n : Z) : string :=
  NilZero.string_of_uint (N.to_uint (Z.to_N n)).

(** [f"{score:.2f}"]: two digits after the point, the exact value rounded to
    the nearest hundredth. *)
Definition format_2f (score : Q) : string :=
  let n := round_half_even (score * 100) in
  let a := Z.abs n in
  let frac := (a mod 100)%Z in
  (if (n <? 0)%Z then "-" else "")
  ++ str_of_nat_Z (a / 100) ++ "."
  ++ (if (frac <? 10)%Z then "0" else "") ++ str_of_nat_Z frac.

(** [str(l)] for a list of strings: the elements between single quotes, as
    [repr] prints a string that holds no quote, no backslash and no
    unprintable character. *)
Definition str_of_list (l : list string) : string :=
  "[" ++ join ", " (map (fun s => "'" ++ s ++ "'") l) ++ "]".

Definition _generate_recommendation_text
    (risk_level : RiskLevel) (score : Q) (risk_factors positive_factors : list string)
  : string :=
  match risk_level with
  | HIGH =>
      let text := "🚨 HIGH RISK (Score: " ++ format_2f score ++ "): " in
      let text :=
        if str_in "residential" (lower (str_of_list risk_factors)) then
          text ++ "ALERT: Registered address is residential. "
        else text in
      let text :=
        if str_in "no buildings" (lower (str_of_list risk_factors)) then
          text ++ "No commercial infrastructure visible. "
        else text in
      text ++ "High probability of shell company. Block registration and forward for manual review."
  | MEDIUM =>
      let text := "⚠️ MEDIUM RISK (Score: " ++ format_2f score ++ "): " in
      let text := text ++ "The company may be legitimate, but shows some risk indicators. " in
      let text :=
        match positive_factors with
        | [] => text
        | _ :: _ => text ++ "Positive points: " ++ join ", " (slice_to 2 positive_factors) ++ ". "
        end in
      text ++ "Additional document verification recommended."
  | _ =>
      let text := "✅ LOW RISK (Score: " ++ format_2f score ++ "): " in
      let text := text ++ "Address validated. " in
      let text :=
        match positive_factors with
        | [] => text
        | _ :: _ =>
            text ++ "Adequate infrastructure identified: "
                 ++ join ", " (slice_to 2 positive_factors) ++ ". "
        end in
      text ++ "Automatic approval recommended."
  end.

Definition _calculate_confidence_level (analysis_result : RiskAssessment.t) : Q :=
  let confidence_factors :=
    [ if py_get false (is_valid (RiskAssessment.address_validation analysis_result))
      then 0.8 else 0.3 ] in
  let satellite_confidence :=
    py_get 0.5 (confidence_score (RiskAssessment.satellite_analysis analysis_result)) in
  let confidence_factors := (confidence_factors ++ [satellite_confidence])%list in
  let confidence_factors :=
    (confidence_factors
     ++ [ if py_get false (analysis_completed (RiskAssessment.satellite_analysis analysis_result))
          then 0.9 else 0.4 ])%list in
  py_sum confidence_factors / inject_Z (len confidence_factors).

(** The dictionary returned by [_generate_final_assessment]. *)
Record FinalAssessment := {
  fa_overall_risk_score : Q;
  fa_risk_level : RiskLevel;
  fa_recommendation : Recommendation;
  fa_recommendation_text : string;
  fa_risk_factors : list string;
  fa_positive_factors : list string;
  fa_confidence_level : Q
}.

(** The pair [(risk_level, recommendation)] chosen by the threshold chain. *)
Definition classify (self : t) (overall_score : Q) : RiskLevel * Recommendation :=
  if Qge_bool overall_score (high_risk_threshold self) then (HIGH, BLOCK)
  else if Qge_bool overall_score (medium_risk_threshold self) then (MEDIUM, MANUAL_REVIEW)
  else (LOW, AUTO_APPROVE).

(** The two lists accumulated by the loop over
    [analysis_result['detailed_assessment'].values()]. *)
Definition collect_factors (assessments : list SignalScore) : list string * list string :=
  fold_left
    (fun acc assessment =>
       ((fst acc ++ risk_factors assessment)%list,
        (snd acc ++ positive_factors assessment)%list))
    assessments ([], []).

Definition _generate_final_assessment
    (self : t) (overall_score : Q) (analysis_result : RiskAssessment.t) : FinalAssessment :=
  let '(all_risk_factors, all_positive_factors) :=
    collect_factors (map snd (RiskAssessment.detailed_assessment analysis_result)) in
  let '(risk_level, recommendation) := classify self overall_score in
  let recommendation_text :=
    _generate_recommendation_text risk_level overall_score
                                  all_risk_factors all_positive_factors in
  let confidence_level := _calculate_confidence_level analysis_result in
  {| fa_overall_risk_score := overall_score;
     fa_risk_level := risk_level;
     fa_recommendation := recommendation;
     fa_recommendation_text := recommendation_text;
     fa_risk_factors := slice_to 5 all_risk_factors;
     fa_positive_factors := slice_to 5 all_positive_factors;
     fa_confidence_level := confidence_level |}.

(** [analysis_result['detailed_assessment'][key] = value]: the key is new at
    each of the three assignments, so it goes last in iteration order. *)
Definition set_detailed (key : string) (value : SignalScore) (r : RiskAssessment.t)
  : RiskAssessment.t :=
  {| RiskAssessment.cnpj := RiskAssessment.cnpj r;
     RiskAssessment.analysis_timestamp := RiskAssessment.analysis_timestamp r;
     RiskAssessment.address_validation := RiskAssessment.address_validation r;
     RiskAssessment.satellite_analysis := RiskAssessment.satellite_analysis r;
     RiskAssessment.business_information := RiskAssessment.business_information r;
     RiskAssessment.risk_factors := RiskAssessment.risk_factors r;
     RiskAssessment.positive_factors := RiskAssessment.positive_factors r;
     RiskAssessment.overall_risk_score := RiskAssessment.overall_risk_score r;
     RiskAssessment.risk_level := RiskAssessment.risk_level r;
     RiskAssessment.recommendation := RiskAssessment.recommendation r;
     RiskAssessment.detailed_assessment :=
       RiskAssessment.detailed_assessment r ++ [(key, value)];
     RiskAssessment.confidence_level := RiskAssessment.confidence_level r;
     RiskAssessment.recommendation_text := RiskAssessment.recommendation_text r;
     RiskAssessment.error := RiskAssessment.error r |}.

(** [analysis_result.update(final_assessment)]. *)
Definition update (r : RiskAssessment.t) (f : FinalAssessment) : RiskAssessment.t :=
  {| RiskAssessment.cnpj := RiskAssessment.cnpj r;
     RiskAssessment.analysis_timestamp := RiskAssessment.analysis_timestamp r;
     RiskAssessment.address_validation := RiskAssessment.address_validation r;
     RiskAssessment.satellite_analysis := RiskAssessment.satellite_analysis r;
     RiskAssessment.business_information := RiskAssessment.business_information r;
     RiskAssessment.risk_factors := fa_risk_factors f;
     RiskAssessment.positive_factors := fa_positive_factors f;
     RiskAssessment.overall_risk_score := fa_overall_risk_score f;
     RiskAssessment.risk_level := fa_risk_level f;
     RiskAssessment.recommendation := fa_recommendation f;
     RiskAssessment.detailed_assessment := RiskAssessment.detailed_assessment r;
     RiskAssessment.confidence_level := fa_confidence_level f;
     RiskAssessment.recommendation_text := Some (fa_recommendation_text f);
     RiskAssessment.error := RiskAssessment.error r |}.

(** The dictionary [analysis_result] as first built; [now] is the value of
    [datetime.now().isoformat()] at the call. *)
Definition initial_result
    (now cnpj : string) (address_data : AddressData) (satellite_data : SatelliteData)
    (business_type declared_activity : string) : RiskAssessment.t :=
  {| RiskAssessment.cnpj := cnpj;
     RiskAssessment.analysis_timestamp := now;
     RiskAssessment.address_validation := address_data;
     RiskAssessment.satellite_analysis := satellite_data;
     RiskAssessment.business_information :=
       {| RiskAssessment.type := business_type;
          RiskAssessment.declared_activity := declared_activity |};
     RiskAssessment.risk_factors := [];
     RiskAssessment.positive_factors := [];
     RiskAssessment.overall_risk_score := 0.0;
     RiskAssessment.risk_level := UNKNOWN;
     RiskAssessment.recommendation := MANUAL_REVIEW;
     RiskAssessment.detailed_assessment := [];
     RiskAssessment.confidence_level := 0.0;
     RiskAssessment.recommendation_text := None;
     RiskAssessment.error := None |}.

(** No operation of the [try] body raises on arguments of these types, so
    the [except] branch is not taken and the key ['error'] stays absent. *)
Definition analyze_comprehensive_risk
    (self : t) (now : string)
    (cnpj : string) (address_data : AddressData) (satellite_data : SatelliteData)
    (business_type declared_activity : string) : RiskAssessment.t :=
  let analysis_result :=
    initial_result now cnpj address_data satellite_data business_type declared_activity in
  let address_risk := _analyze_address_risk address_data business_type in
  let analysis_result := set_detailed "address_risk" address_risk analysis_result in
  let satellite_risk := _analyze_satellite_risk satellite_data business_type in
  let analysis_result := set_detailed "satellite_risk" satellite_risk analysis_result in
  let compatibility_risk :=
    _analyze_business_compatibility address_data satellite_data
                                    business_type declared_activity in
  let analysis_result := set_detailed "compatibility_risk" compatibility_risk analysis_result in
  let overall_score :=
    _calculate_overall_risk_score address_risk satellite_risk compatibility_risk in
  let final_assessment := _generate_final_assessment self overall_score analysis_result in
  update analysis_result final_assessment.

End RiskAnalyzer.

(** ** [class SatelliteAnalyzer]: computer-vision analysis *)

Module SatelliteAnalyzer.

(** The pixel counts behind [_analyze_area_characteristics]:
    [np.sum(vegetation_mask > 0)], [np.sum(water_mask > 0)], the size of the
    masks and [np.mean(gray)]. *)
Record AreaStatistics := {
  vegetation_pixels : Z;
  water_pixels : Z;
  mask_size : Z;
  mean_gray : Q
}.

(** The result of the Hough transform of [_analyze_infrastructure]:
    [len(lines)] when [lines] is not [None], [np.sum(edges > 0)] and
    [edges.size]. *)
Record LineStatistics := {
  line_count : option Z;
  edge_pixels : Z;
  edge_size : Z
}.

(** The part of OpenCV and NumPy the analyzer calls.  An image and a contour
    are opaque; every stage that works on the whole raster may raise. *)
Class CV2 := {
  Image : Type;
  Contour : Type;
  (** [cv2.imdecode(np.frombuffer(image_data, np.uint8), cv2.IMREAD_COLOR)];
      [None] is the answer for a buffer that holds no image. *)
  imdecode : list Byte.byte -> Result (option Image);
  (** [cvtColor], [Canny(gray, 50, 150, apertureSize=3)] and
      [findContours(edges, RETR_EXTERNAL, CHAIN_APPROX_SIMPLE)]. *)
  edge_contours : Image -> Result (list Contour);
  (** [cvtColor], [threshold(gray, 200, 255, THRESH_BINARY)] and
      [findContours(bright_mask, RETR_EXTERNAL, CHAIN_APPROX_SIMPLE)]. *)
  bright_contours : Image -> Result (list Contour);
  contourArea : Contour -> Q;
  arcLength : Contour -> bool -> Q;
  approxPolyDP : Contour -> Q -> bool -> list (Z * Z);
  boundingRect : Contour -> Z * Z * Z * Z;
  (** [morphologyEx(gray, MORPH_OPEN, 3x3)], [Canny(processed, 50, 150)] and
      [HoughLinesP(edges, 1, pi/180, threshold=100, minLineLength=50,
      maxLineGap=10)]. *)
  hough_lines : Image -> Result LineStatistics;
  (** [cvtColor] to HSV, [inRange] with the green bounds [40,50,50] to
      [80,255,255] and the blue bounds [100,50,50] to [130,255,255]. *)
  area_statistics : Image -> Result AreaStatistics
}.

Section Analysis.

Context {cv : CV2}.

(** The dictionary appended for one contour by the loop of
    [_detect_buildings], when the contour passes both tests. *)
Definition building_of (contour : Contour) : option Building :=
  let area := contourArea contour in
  if Qgt_bool area 1000 then
    let epsilon := 0.02 * arcLength contour true in
    let approx := approxPolyDP contour epsilon true in
    if (4 <=? len approx)%Z then
      Some {| b_area := area; b_vertices := len approx;
              b_perimeter := arcLength contour true |}
    else None
  else None.

(** The list [buildings] at the end of the loop. *)
Fixpoint collect_buildings (contours : list Contour) : list Building :=
  match contours with
  | [] => []
  | contour :: rest =>
      match building_of contour with
      | Some b => b :: collect_buildings rest
      | None => collect_buildings rest
      end
  end.

(** The dictionary returned by [_detect_buildings] for the list [buildings]. *)
Definition building_report (buildings : list Building) : BuildingDetection :=
  {| building_count := Some (len buildings);
     total_building_area := Some (py_sum (map b_area buildings));
     largest_building_area := Some (py_max_default (map b_area buildings) 0);
     buildings := Some (slice_to 10 buildings) |}.

Definition _detect_buildings (image : Image) : Result BuildingDetection :=
  contours <- edge_contours image ;;
  Ok (building_report (collect_buildings contours)).

(** The loop of [_detect_vehicles]; [w / float(h)] raises on a zero height. *)
Fixpoint collect_vehicles (contours : list Contour) : Result (list Vehicle) :=
  match contours with
  | [] => Ok []
  | contour :: rest =>
      let area := contourArea contour in
      if Qlt_bool 50 area && Qlt_bool area 500 then
        let '(x, y, w, h) := boundingRect contour in
        if (h =? 0)%Z then Raise "float division by zero"
        else
          let aspect_ratio := inject_Z w / inject_Z h in
          if Qlt_bool 0.5 aspect_ratio && Qlt_bool aspect_ratio 3.0 then
            vehicles <- collect_vehicles rest ;;
            Ok ({| v_area := area; v_aspect_ratio := aspect_ratio;
                   v_position := (x, y) |} :: vehicles)
          else collect_vehicles rest
      else collect_vehicles rest
  end.

Definition _detect_vehicles (image : Image) : Result VehicleDetection :=
  contours <- bright_contours image ;;
  vehicles <- collect_vehicles contours ;;
  Ok {| vehicle_count := Some (len vehicles); vehicles := Some vehicles |}.

(** NumPy divides by a zero size without raising; a decoded image has a
    positive size. *)
Definition _analyze_infrastructure (image : Image) : Result InfrastructureFeatures :=
  stats <- hough_lines image ;;
  Ok {| detected_lines := Some (py_get 0%Z (line_count stats));
        infrastructure_density :=
          Some (inject_Z (edge_pixels stats) / inject_Z (edge_size stats)) |}.

Definition _analyze_area_characteristics (image : Image) : Result AreaCharacteristics :=
  stats <- area_statistics image ;;
  let vegetation_percentage :=
    inject_Z (vegetation_pixels stats) / inject_Z (mask_size stats) * 100 in
  let water_percentage :=
    inject_Z (water_pixels stats) / inject_Z (mask_size stats) * 100 in
  Ok {| vegetation_percentage := Some vegetation_percentage;
        water_percentage := Some water_percentage;
        average_brightness := Some (mean_gray stats);
        developed_area_percentage :=
          Some (py_max 0 (100 - vegetation_percentage - water_percentage)) |}.

(** The dictionary [analysis] as first built by [_computer_vision_analysis]:
    the four keys hold empty dictionaries and there is no ['error'] key. *)
Definition initial_analysis : VisualFeatures :=
  {| building_detection := Some empty_building_detection;
     vehicle_detection := Some empty_vehicle_detection;
     infrastructure_features := Some empty_infrastructure_features;
     area_characteristics := Some empty_area_characteristics;
     vf_error := None |}.

(** [analysis['error'] = str(e)]. *)
Definition set_error (message : string) (analysis : VisualFeatures) : VisualFeatures :=
  {| building_detection := building_detection analysis;
     vehicle_detection := vehicle_detection analysis;
     infrastructure_features := infrastructure_features analysis;
     area_characteristics := area_characteristics analysis;
     vf_error := Some message |}.

Definition set_building_detection (v : BuildingDetection) (analysis : VisualFeatures)
  : VisualFeatures :=
  {| building_detection := Some v;
     vehicle_detection := vehicle_detection analysis;
     infrastructure_features := infrastructure_features analysis;
     area_characteristics := area_characteristics analysis;
     vf_error := vf_error analysis |}.

Definition set_vehicle_detection (v : VehicleDetection) (analysis : VisualFeatures)
  : VisualFeatures :=
  {| building_detection := building_detection analysis;
     vehicle_detection := Some v;
     infrastructure_features := infrastructure_features analysis;
     area_characteristics := area_characteristics analysis;
     vf_error := vf_error analysis |}.

Definition set_infrastructure_features (v : InfrastructureFeatures)
    (analysis : VisualFeatures) : VisualFeatures :=
  {| building_detection := building_detection analysis;
     vehicle_detection := vehicle_detection analysis;
     infrastructure_features := Some v;
     area_characteristics := area_characteristics analysis;
     vf_error := vf_error analysis |}.

Definition set_area_characteristics (v : AreaCharacteristics) (analysis : VisualFeatures)
  : VisualFeatures :=
  {| building_detection := building_detection analysis;
     vehicle_detection := vehicle_detection analysis;
     infrastructure_features := infrastructure_features analysis;
     area_characteristics := Some v;
     vf_error := vf_error analysis |}.

(** The [try] block keeps what was stored in [analysis] before an exception
    and the handler adds the ['error'] key. *)
Definition _computer_vision_analysis (image_data : list Byte.byte) : VisualFeatures :=
  let analysis := initial_analysis in
  match imdecode image_data with
  | Raise e => set_error e analysis
  | Ok None => analysis
  | Ok (Some image) =>
      match _detect_buildings image with
      | Raise e => set_error e analysis
      | Ok buildings =>
          let analysis := set_building_detection buildings analysis in
          match _detect_vehicles image with
          | Raise e => set_error e analysis
          | Ok vehicles =>
              let analysis := set_vehicle_detection vehicles analysis in
              match _analyze_infrastructure image with
              | Raise e => set_error e analysis
              | Ok infrastructure =>
                  let analysis := set_infrastructure_features infrastructure analysis in
                  match _analyze_area_characteristics image with
                  | Raise e => set_error e analysis
                  | Ok characteristics =>
                      set_area_characteristics characteristics analysis
                  end
              end
          end
      end
  end.

End Analysis.

(** *** Python string methods used by the parser of the AI response *)

(** The ASCII characters [str.isspace] accepts: tab, line feed, vertical
    tab, form feed, carriage return, the four separators 28 to 31 and the
    space.  The white space outside ASCII, which Python strips as well, is
    not recognised. *)
Definition is_space (c : ascii) : bool :=
  let n := nat_of_ascii c in
  ((9 <=? n)%nat && (n <=? 13)%nat) || ((28 <=? n)%nat && (n <=? 32)%nat).

(** [s.lstrip()]. *)
Fixpoint lstrip (s : string) : string :=
  match s with
  | EmptyString => EmptyString
  | String c rest => if is_space c then lstrip rest else s
  end.

(** [s.rstrip()]. *)
Fixpoint rstrip (s : string) : string :=
  match s with
  | EmptyString => EmptyString
  | String c rest =>
      match rstrip rest with
      | EmptyString => if is_space c then EmptyString else String c EmptyString
      | kept => String c kept
      end
  end.

(** [s.strip()]. *)
Definition strip (s : string) : string := rstrip (lstrip s).

(** [s.split('\n')]: the pieces between the line feeds, one piece more than
    there are line feeds. *)
Fixpoint split_lines (s : string) : list string :=
  match s with
  | EmptyString => [EmptyString]
  | String c rest =>
      if Ascii.eqb c "010"%char then EmptyString :: split_lines rest
      else match split_lines rest with
           | [] => [String c EmptyString]
           | line :: lines => String c line :: lines
           end
  end.

(** *** The AI contextual analysis *)

(** The dictionary returned by [_ai_contextual_analysis], with the two
    nested dictionaries flattened: [ai_positive_indicators],
    [ai_infrastructure_quality] and [ai_assessment_error] are the keys of
    ['infrastructure_assessment'], [ai_signs_of_activity] and
    [ai_vehicle_presence] those of ['activity_indicators']. *)
Record AIAnalysis := {
  ai_positive_indicators : option (list string);
  ai_infrastructure_quality : option string;
  ai_assessment_error : option string;
  ai_signs_of_activity : option bool;
  ai_vehicle_presence : option bool;
  ai_risk_indicators : list string;
  ai_confidence_score : Q;
  ai_full_analysis : option string
}.

Definition risk_keywords : list string :=
  ["empty"; "residential"; "inappropriate"; "facade"; "shell"; "suspicious"].

Definition positive_keywords : list string :=
  ["warehouse"; "office"; "industrial"; "commercial"; "loading"; "vehicles"].

(** [any(keyword in line for keyword in keywords)]. *)
Definition mentions (keywords : list string) (line : string) : bool :=
  py_any (fun keyword => str_in keyword line) keywords.

(** [[line.strip() for line in lines if any(keyword in line ...)]]. *)
Definition indicators (keywords : list string) (lines : list string) : list string :=
  map strip (filter (mentions keywords) lines).

Definition _parse_ai_response (response_text : string) : AIAnalysis :=
  let lines := split_lines (lower response_text) in
  let risk_indicators := indicators risk_keywords lines in
  let positive_indicators := indicators positive_keywords lines in
  let confidence := py_min 1.0 (inject_Z (len positive_indicators) * 0.2 + 0.5) in
  let confidence :=
    match risk_indicators with
    | [] => confidence
    | _ :: _ => confidence * 0.7
    end in
  {| ai_positive_indicators := Some positive_indicators;
     ai_infrastructure_quality :=
       Some (if (2 <? len positive_indicators)%Z then "good" else "limited");
     ai_assessment_error := None;
     ai_signs_of_activity := Some (1 <? len positive_indicators)%Z;
     ai_vehicle_presence :=
       Some (py_any (fun indicator => str_in "vehicle" indicator) positive_indicators);
     ai_risk_indicators := risk_indicators;
     ai_confidence_score := confidence;
     ai_full_analysis := Some response_text |}.

(** [completion] is the outcome of the statements of the [try] block up to
    [analysis_text = response.choices[0].message.content]: the text, or the
    exception raised by the encoding or by the OpenAI client. *)
Definition _ai_contextual_analysis (completion : Result string) : AIAnalysis :=
  match completion with
  | Ok analysis_text => _parse_ai_response analysis_text
  | Raise e =>
      {| ai_positive_indicators := None;
         ai_infrastructure_quality := None;
         ai_assessment_error := Some e;
         ai_signs_of_activity := None;
         ai_vehicle_presence := None;
         ai_risk_indicators := [];
         ai_confidence_score := 0.0;
         ai_full_analysis := None |}
  end.

(** *** Download of the image *)

(** What the analyzer reads of the response of [requests.get]. *)
Record HttpResponse := {
  status_code : Z;
  content_type : option string;
  content : list Byte.byte
}.

(** An optional string or byte string in a condition: [None] and the empty
    value are false. *)
Definition truthy_string (key : option string) : bool :=
  match key with
  | Some (String _ _) => true
  | _ => false
  end.

Definition truthy_bytes (data : option (list Byte.byte)) : bool :=
  match data with
  | Some (_ :: _) => true
  | _ => false
  end.

(** [response] is the outcome of [requests.get]. *)
Definition _download_from_google (response : Result HttpResponse)
  : option (list Byte.byte) :=
  match response with
  | Ok r =>
      if (status_code r =? 200)%Z && str_in "image" (py_get "" (content_type r))
      then Some (content r) else None
  | Raise _ => None
  end.

Definition _download_from_mapbox (response : Result HttpResponse)
  : option (list Byte.byte) :=
  match response with
  | Ok r => if (status_code r =? 200)%Z then Some (content r) else None
  | Raise _ => None
  end.

(** The two attributes of the analyzer read by the download. *)
Record Providers := {
  google_api_key : option string;
  mapbox_token : option string
}.

Definition _download_satellite_image
    (self : Providers) (google mapbox : Result HttpResponse) : option (list Byte.byte) :=
  let from_google :=
    if truthy_string (google_api_key self) then _download_from_google google else None in
  if truthy_bytes from_google then from_google
  else
    let from_mapbox :=
      if truthy_string (mapbox_token self) then _download_from_mapbox mapbox else None in
    if truthy_bytes from_mapbox then from_mapbox else None.

(** *** [analyze_location] *)

(** The dictionary returned by [analyze_location]: the keys the risk
    analyzer reads, as a [SatelliteData], and the keys that tell how the
    analysis went. *)
Record LocationAnalysis := {
  satellite_data : SatelliteData;
  image_downloaded : bool;
  activity_indicators : option bool * option bool;
  location_error : option string
}.

Section Location.

Context {cv : CV2}.

(** Every callee catches its own exceptions, so the [except] branch of
    [analyze_location] is not taken. *)
Definition analyze_location
    (self : Providers) (google mapbox : Result HttpResponse) (completion : Result string)
  : LocationAnalysis :=
  let image_data := _download_satellite_image self google mapbox in
  if negb (truthy_bytes image_data) then
    {| satellite_data :=
         {| analysis_completed := Some false;
            visual_features := Some empty_visual_features;
            infrastructure_assessment := Some empty_infrastructure_assessment;
            risk_indicators := Some [];
            confidence_score := Some 0.0 |};
       image_downloaded := false;
       activity_indicators := (None, None);
       location_error := Some "Failed to download satellite image" |}
  else
    let cv_analysis := _computer_vision_analysis (py_get [] image_data) in
    let ai_analysis := _ai_contextual_analysis completion in
    {| satellite_data :=
         {| analysis_completed := Some true;
            visual_features := Some cv_analysis;
            infrastructure_assessment :=
              Some {| positive_indicators := ai_positive_indicators ai_analysis |};
            risk_indicators := Some (ai_risk_indicators ai_analysis);
            confidence_score := Some (ai_confidence_score ai_analysis) |};
       image_downloaded := true;
       activity_indicators :=
         (ai_signs_of_activity ai_analysis, ai_vehicle_presence ai_analysis);
       location_error := None |}.

End Location.

End SatelliteAnalyzer.

(** ** [class KYCGeointelligentAPI]: the request handler *)

Module KYCGeointelligentAPI.

(** The keys of the dictionary returned by [process_kyc_request] that carry
    the verdict. *)
Record KYCResult := {
  status : string;
  risk_level : option RiskLevel;
  recommendation : option Recommendation;
  overall_risk_score : option Q;
  recommendation_text : option string;
  error : option string
}.

(** The body of [process_kyc_request] for an initialized API.
    [validated] is the outcome of [address_validator.validate_address] and
    [located] the outcome of reading the coordinates and calling
    [satellite_analyzer.analyze_location] with them; the second call is only
    made for a valid address.  [address_data['is_valid']] raises [KeyError]
    on a missing key. *)
Definition process_kyc_request
    (risk_analyzer : RiskAnalyzer.t) (now : string)
    (validated : Result AddressData) (located : Result SatelliteData)
    (cnpj business_type declared_activity : string) : KYCResult :=
  let outcome :=
    address_data <- validated ;;
    valid <- match is_valid address_data with
             | Some v => Ok v
             | None => Raise "'is_valid'"
             end ;;
    if negb valid then
      Ok {| status := "completed";
            risk_level := Some HIGH;
            recommendation := Some BLOCK;
            overall_risk_score := None;
            recommendation_text :=
              Some ("🚨 HIGH RISK: Invalid or not found address: "
                    ++ py_get "Address not located" (address_error address_data));
            error := None |}
    else
      satellite_data <- located ;;
      let risk_analysis :=
        RiskAnalyzer.analyze_comprehensive_risk
          risk_analyzer now cnpj address_data satellite_data
          business_type declared_activity in
      Ok {| status := "completed";
            risk_level := Some (RiskAssessment.risk_level risk_analysis);
            recommendation := Some (RiskAssessment.recommendation risk_analysis);
            overall_risk_score := Some (RiskAssessment.overall_risk_score risk_analysis);
            recommendation_text :=
              Some (py_get "" (RiskAssessment.recommendation_text risk_analysis));
            error := None |} in
  match outcome with
  | Ok result => result
  | Raise e =>
      {| status := "error";
         risk_level := Some HIGH;
         recommendation := Some MANUAL_REVIEW;
         overall_risk_score := None;
         recommendation_text :=
           Some ("🚨 ANALYSIS ERROR: " ++ e ++ ". Forward for manual review.");
         error := Some e |}
  end.

End KYCGeointelligentAPI.

(** ** [class AddressValidator] *)

Module AddressValidator.

(** What the validator reads of a geopy [Location]. *)
Record Location := {
  latitude : Q;
  longitude : Q;
  address : string
}.

(** The outcome of [self.geocoder.geocode(...)]: a location, [None], one of
    the two geocoder exceptions that [_geocode_address] catches, or another
    exception. *)
Inductive GeocodeOutcome :=
| Found (location : Location)
| NotFound
| GeocoderError (message : string)
| OtherError (message : string).

Definition _geocode_address (outcome : GeocodeOutcome) : Result (option Location) :=
  match outcome with
  | Found location => Ok (Some location)
  | NotFound => Ok None
  | GeocoderError _ => Ok None
  | OtherError e => Raise e
  end.

(** The tags of an element of the Overpass response. *)
Record Tags := {
  landuse : option string;
  amenity : option string;
  building : option string
}.

Definition no_tags : Tags := {| landuse := None; amenity := None; building := None |}.

Record Element := {
  tags : option Tags
}.

(** The JSON document of the Overpass response. *)
Record OverpassData := {
  elements : option (list Element)
}.

(** The response of [requests.post]: the status code and the outcome of
    [response.json()]. *)
Record OverpassResponse := {
  status_code : Z;
  json : Result OverpassData
}.

(** The dictionary [context]. *)
Record Context := {
  ctx_location_type : string;
  ctx_neighborhood_context : string;
  ctx_nearby_amenities : list string;
  ctx_land_use : string
}.

(** [char_counts[char] = char_counts.get(char, 0) + 1] on a dictionary kept
    in insertion order. *)
Fixpoint increment (char : string) (char_counts : list (string * Z)) : list (string * Z) :=
  match char_counts with
  | [] => [(char, 1%Z)]
  | (k, n) :: rest =>
      if String.eqb k char then (k, (n + 1)%Z) :: rest
      else (k, n) :: increment char rest
  end.

(** The dictionary [char_counts] at the end of the loop. *)
Definition count_characteristics (characteristics : list string) : list (string * Z) :=
  fold_left (fun char_counts char => increment char char_counts) characteristics [].

(** [max(items, key=lambda x: x[1])] started from a first item: a later item
    replaces the best one only when its count is greater. *)
Definition max_by_count (first : string * Z) (items : list (string * Z)) : string * Z :=
  fold_left (fun best item => if (snd best <? snd item)%Z then item else best) items first.

Definition _get_dominant_characteristic (characteristics : list string) : string :=
  match characteristics with
  | [] => "unknown"
  | _ :: _ =>
      match count_characteristics characteristics with
      | [] => "unknown"
      | first :: items => fst (max_by_count first items)
      end
  end.

Definition _classify_location_type (land_uses buildings amenities : list string) : string :=
  let industrial_indicators := ["industrial"; "warehouse"; "factory"; "logistics"] in
  if py_any (fun indicator => py_in indicator (land_uses ++ buildings ++ amenities))
            industrial_indicators
  then "industrial"
  else
    let commercial_indicators := ["commercial"; "retail"; "office"; "shop"] in
    if py_any (fun indicator => py_in indicator (land_uses ++ buildings ++ amenities))
              commercial_indicators
    then "commercial"
    else
      let residential_indicators := ["residential"; "house"; "apartment"] in
      if py_any (fun indicator => py_in indicator (land_uses ++ buildings ++ amenities))
                residential_indicators
      then "residential"
      else "mixed".

(** The values appended to one of the three lists of
    [_parse_overpass_response] by the loop over the elements. *)
Definition tag_values (tag : Tags -> option string) (elements : list Element) : list string :=
  flat_map (fun element =>
              match tag (py_get no_tags (tags element)) with
              | Some value => [value]
              | None => []
              end) elements.

Section Parsing.

(** [list(set(l))]: the order in which a set of strings is listed is not
    specified by the language. *)
Variable list_of_set : list string -> list string.

Definition _parse_overpass_response (data : OverpassData) : Context :=
  let elements := py_get [] (elements data) in
  let land_uses := tag_values landuse elements in
  let amenities := tag_values amenity elements in
  let building_types := tag_values building elements in
  {| ctx_location_type := _classify_location_type land_uses building_types amenities;
     ctx_neighborhood_context := "urban";
     ctx_nearby_amenities := list_of_set amenities;
     ctx_land_use := _get_dominant_characteristic land_uses |}.

(** [response] is the outcome of [requests.post]; every exception of the
    [try] block is logged and leaves the initial context. *)
Definition _analyze_location_context (response : Result OverpassResponse) : Context :=
  let context :=
    {| ctx_location_type := "unknown";
       ctx_neighborhood_context := "unknown";
       ctx_nearby_amenities := [];
       ctx_land_use := "unknown" |} in
  match response with
  | Raise _ => context
  | Ok r =>
      if (status_code r =? 200)%Z then
        match json r with
        | Ok data => _parse_overpass_response data
        | Raise _ => context
        end
      else context
  end.

(** The dictionary returned by [validate_address]: the keys the risk
    analyzer and the request handler read, as an [AddressData], and the
    other keys that depend on the outcome. *)
Record Validation := {
  address_data : AddressData;
  coordinates : option (Q * Q);
  formatted_address : option string;
  land_use : option string
}.

Definition validate_address
    (geocoded : GeocodeOutcome) (response : Result OverpassResponse) : Validation :=
  match _geocode_address geocoded with
  | Raise e =>
      {| address_data :=
           {| is_valid := Some false; location_type := None;
              neighborhood_context := None; nearby_amenities := None;
              address_error := Some ("Validation error: " ++ e) |};
         coordinates := None; formatted_address := None; land_use := None |}
  | Ok None =>
      {| address_data :=
           {| is_valid := Some false; location_type := None;
              neighborhood_context := None; nearby_amenities := None;
              address_error := Some "Address not found in OpenStreetMap" |};
         coordinates := None; formatted_address := None; land_use := None |}
  | Ok (Some location) =>
      let context := _analyze_location_context response in
      {| address_data :=
           {| is_valid := Some true;
              location_type := Some (ctx_location_type context);
              neighborhood_context := Some (ctx_neighborhood_context context);
              nearby_amenities := Some (ctx_nearby_amenities context);
              address_error := None |};
         coordinates := Some (latitude location, longitude location);
         formatted_address := Some (address location);
         land_use := Some (ctx_land_use context) |}
  end.

End Parsing.

End AddressValidator.

(** ** Inputs used to evaluate the analyzer *)

Module Scenario.

Definition valid_address (location neighborhood : string) : AddressData :=
  {| is_valid := Some true;
     location_type := Some location;
     neighborhood_context := Some neighborhood;
     nearby_amenities := Some [];
     address_error := None |}.

Definition invalid_address : AddressData :=
  {| is_valid := Some false;
     location_type := None;
     neighborhood_context := None;
     nearby_amenities := None;
     address_error := Some "Address not found in OpenStreetMap" |}.

(** A completed satellite analysis with the given counts, areas, indicator
    lists and confidence. *)
Definition satellite
    (count : Z) (total largest : Q) (vehicle_total : Z)
    (positive risks : list string) (confidence : Q) : SatelliteData :=
  {| analysis_completed := Some true;
     visual_features :=
       Some {| building_detection :=
                 Some {| building_count := Some count;
                         total_building_area := Some total;
                         largest_building_area := Some largest;
                         buildings := Some [] |};
               vehicle_detection :=
                 Some {| vehicle_count := Some vehicle_total; vehicles := Some [] |};
               infrastructure_features := Some empty_infrastructure_features;
               area_characteristics := Some empty_area_characteristics;
               vf_error := None |};
     infrastructure_assessment := Some {| positive_indicators := Some positive |};
     risk_indicators := Some risks;
     confidence_score := Some confidence |}.

(** A technology company registered at a house: one building, no vehicle, no
    positive and no risk indicator. *)
Definition tech_at_house (confidence : Q) : RiskAssessment.t :=
  RiskAnalyzer.analyze_comprehensive_risk
    RiskAnalyzer.default "2024-05-01T10:00:00" "12.345.678/0001-90"
    (valid_address "residential" "urban")
    (satellite 1 1500 1500 0 [] [] confidence)
    "technology" "Software development".

(** An address that was not found, with a clean satellite analysis. *)
Definition clean_site : SatelliteData :=
  satellite 3 8000 6000 6
            ["warehouse visible"; "loading docks"; "office building"; "vehicles parked"]
            [] 1.

Definition invalid_address_clean_site : RiskAssessment.t :=
  RiskAnalyzer.analyze_comprehensive_risk
    RiskAnalyzer.default "2024-05-01T10:00:00" "12.345.678/0001-90"
    invalid_address clean_site "technology" "Software development".

(** A logistics company at a house on an empty plot, with four risk
    indicators of which two are the same line. *)
Definition empty_plot : SatelliteData :=
  satellite 0 0 0 0 []
            ["empty lot"; "residential area"; "empty lot"; "no signs of activity, suspicious"]
            (1 # 2).


(** A technology company at a commercial address whose satellite analysis
    reports the same risk line twice. *)
Definition repeated_indicator : RiskAssessment.t :=
  RiskAnalyzer.analyze_comprehensive_risk
    RiskAnalyzer.default "2024-05-01T10:00:00" "12.345.678/0001-90"
    (valid_address "commercial" "urban")
    (satellite 1 1500 1500 3 ["office building"] ["empty lot"; "empty lot"] (7 # 20))
    "technology" "Software development".

End Scenario.

(** ** Auxiliary definitions of the statements *)

(** The satellite dictionary with another ['confidence_score']. *)
Definition with_confidence (c : option Q) (s : SatelliteData) : SatelliteData :=
  {| analysis_completed := analysis_completed s;
     visual_features := visual_features s;
     infrastructure_assessment := infrastructure_assessment s;
     risk_indicators := risk_indicators s;
     confidence_score := c |}.


(** The values the scorers read from the satellite dictionary. *)
Definition observed_building_count (s : SatelliteData) : Z :=
  py_get 0%Z
    (building_count
       (py_get empty_building_detection
          (building_detection (py_get empty_visual_features (visual_features s))))).

Definition observed_vehicle_count (s : SatelliteData) : Z :=
  py_get 0%Z
    (vehicle_count
       (py_get empty_vehicle_detection
          (vehicle_detection (py_get empty_visual_features (visual_features s))))).

Definition observed_positive_indicators (s : SatelliteData) : list string :=
  py_get [] (positive_indicators
               (py_get empty_infrastructure_assessment (infrastructure_assessment s))).

Definition observed_risk_indicators (s : SatelliteData) : list string :=
  py_get [] (risk_indicators s).

(** The inputs of the technology company at a house: a valid residential
    address and a completed analysis with one building, no vehicle, no
    positive indicator and no risk indicator.  Everything else is free. *)
Definition tech_at_house_inputs (a : AddressData) (s : SatelliteData) : Prop :=
  is_valid a = Some true
  /\ location_type a = Some "residential"
  /\ analysis_completed s = Some true
  /\ observed_building_count s = 1%Z
  /\ observed_vehicle_count s = 0%Z
  /\ observed_positive_indicators s = []
  /\ observed_risk_indicators s = [].


(** *** Statements about the computer-vision analysis *)

Section VisionStatements.

Context {cv : SatelliteAnalyzer.CV2}.

Import SatelliteAnalyzer.

(** The polygon [approxPolyDP] returns for a contour with the tolerance of
    [_detect_buildings]. *)
Definition approximation (contour : Contour) : list (Z * Z) :=
  approxPolyDP contour (0.02 * arcLength contour true) true.

(** The two tests of [_detect_buildings], as one boolean. *)
Definition keeps (contour : Contour) : bool :=
  Qgt_bool (contourArea contour) 1000 && (4 <=? len (approximation contour))%Z.

(** The dictionary stored for a contour that is kept. *)
Definition describe (contour : Contour) : Building :=
  {| b_area := contourArea contour;
     b_vertices := len (approximation contour);
     b_perimeter := arcLength contour true |}.

(** Every stage of the analysis of a decoded image returns. *)
Definition all_stages_return (image : Image) : Prop :=
  exists b v i c,
    _detect_buildings image = Ok b
    /\ _detect_vehicles image = Ok v
    /\ _analyze_infrastructure image = Ok i
    /\ _analyze_area_characteristics image = Ok c.

End VisionStatements.

(** The four keys of the analysis are present. *)
Definition has_feature_keys (v : VisualFeatures) : Prop :=
  building_detection v <> None
  /\ vehicle_detection v <> None
  /\ infrastructure_features v <> None
  /\ area_characteristics v <> None.

(** What the scorers read from a visual-features dictionary, through the
    defaults of their [.get] calls, is zero. *)
Definition reads_as_zero (v : VisualFeatures) : Prop :=
  let b := py_get empty_building_detection (building_detection v) in
  let veh := py_get empty_vehicle_detection (vehicle_detection v) in
  let i := py_get empty_infrastructure_features (infrastructure_features v) in
  py_get 0%Z (building_count b) = 0%Z
  /\ py_get 0 (total_building_area b) = 0
  /\ py_get 0 (largest_building_area b) = 0
  /\ py_get 0%Z (vehicle_count veh) = 0%Z
  /\ py_get 0%Z (detected_lines i) = 0%Z.

(** An instance of the OpenCV interface in which an image is the table of
    the measurements the library returns for it. *)
Module MeasuredCV2.

Import SatelliteAnalyzer.

Record MeasuredContour := {
  m_area : Q;
  m_perimeter : Q;
  m_approximation : list (Z * Z);
  m_bounding_rect : Z * Z * Z * Z
}.

Record MeasuredImage := {
  m_edge_contours : list MeasuredContour;
  m_bright_contours : list MeasuredContour;
  m_lines : LineStatistics;
  m_area_statistics : AreaStatistics
}.

Definition instance (decode : list Byte.byte -> Result (option MeasuredImage)) : CV2 :=
  {| Image := MeasuredImage;
     Contour := MeasuredContour;
     imdecode := decode;
     edge_contours := fun image => Ok (m_edge_contours image);
     bright_contours := fun image => Ok (m_bright_contours image);
     contourArea := m_area;
     arcLength := fun contour _ => m_perimeter contour;
     approxPolyDP := fun contour _ _ => m_approximation contour;
     boundingRect := m_bounding_rect;
     hough_lines := fun image => Ok (m_lines image);
     area_statistics := fun image => Ok (m_area_statistics image) |}.

(** A decoder for which no buffer holds an image. *)
Definition undecodable : CV2 := instance (fun _ => Ok None).

(** A square contour with the given area, approximated by its four
    corners. *)
Definition square (side : Z) : MeasuredContour :=
  {| m_area := inject_Z (side * side);
     m_perimeter := inject_Z (4 * side);
     m_approximation := [(0, 0); (side, 0); (side, side); (0, side)]%Z;
     m_bounding_rect := (0, 0, side + 1, side + 1)%Z |}.

(** A contour of area exactly 1000 with four vertices. *)
Definition plot_1000 : MeasuredContour :=
  {| m_area := 1000;
     m_perimeter := 130;
     m_approximation := [(0, 0); (40, 0); (40, 25); (0, 25)]%Z;
     m_bounding_rect := (0, 0, 41, 26)%Z |}.

(** A bright spot of area 100 whose bounding rectangle has height zero. *)
Definition flat_spot : MeasuredContour :=
  {| m_area := 100;
     m_perimeter := 40;
     m_approximation := [(0, 0); (20, 0)]%Z;
     m_bounding_rect := (0, 0, 20, 0)%Z |}.

(** A decoder that returns the given image for every buffer. *)
Definition decoding (image : MeasuredImage) : CV2 := instance (fun _ => Ok (Some image)).

(** An image with one building-sized edge contour and one flat bright spot. *)
Definition building_and_flat_spot : MeasuredImage :=
  {| m_edge_contours := [square 40];
     m_bright_contours := [flat_spot];
     m_lines := {| line_count := None; edge_pixels := 0; edge_size := 1 |};
     m_area_statistics :=
       {| vegetation_pixels := 0; water_pixels := 0; mask_size := 1; mean_gray := 0 |} |}.

Definition image_of (contours : list MeasuredContour) : MeasuredImage :=
  {| m_edge_contours := contours;
     m_bright_contours := [];
     m_lines := {| line_count := None; edge_pixels := 0; edge_size := 1 |};
     m_area_statistics :=
       {| vegetation_pixels := 0; water_pixels := 0; mask_size := 1; mean_gray := 0 |} |}.

End MeasuredCV2.

(** *** Statements about the scorers *)

(** The address dictionary with another list of ['nearby_amenities']. *)
Definition with_amenities (amenities : option (list string)) (a : AddressData) : AddressData :=
  {| is_valid := is_valid a;
     location_type := location_type a;
     neighborhood_context := neighborhood_context a;
     nearby_amenities := amenities;
     address_error := address_error a |}.

(** The satellite dictionary with another list of ['risk_indicators']. *)
Definition with_risk_indicators (risks : option (list string)) (s : SatelliteData)
  : SatelliteData :=
  {| analysis_completed := analysis_completed s;
     visual_features := visual_features s;
     infrastructure_assessment := infrastructure_assessment s;
     risk_indicators := risks;
     confidence_score := confidence_score s |}.

(** The order of the risk levels. *)
Definition level_rank (level : RiskLevel) : nat :=
  match level with
  | UNKNOWN => 0
  | LOW => 1
  | MEDIUM => 2
  | HIGH => 3
  end.

(** Two scorer dictionaries that differ at most in the wording of their risk
    factors. *)
Definition same_outcome (d d' : SignalScore) : Prop :=
  risk_score d = risk_score d'
  /\ quality_rating d = quality_rating d'
  /\ positive_factors d = positive_factors d'
  /\ List.length (risk_factors d) = List.length (risk_factors d').

(** *** Statements about vehicle detection *)

Section VehicleStatements.

Context {cv : SatelliteAnalyzer.CV2}.

Import SatelliteAnalyzer.

(** The aspect ratio [w / float(h)] of the bounding box of a contour. *)
Definition aspect_ratio (contour : Contour) : Q :=
  let '(_, _, w, h) := boundingRect contour in inject_Z w / inject_Z h.

(** The height of the bounding box of a contour. *)
Definition box_height (contour : Contour) : Z :=
  let '(_, _, _, h) := boundingRect contour in h.

(** The two tests of [_detect_vehicles], as one boolean. *)
Definition vehicle_like (contour : Contour) : bool :=
  (Qlt_bool 50 (contourArea contour) && Qlt_bool (contourArea contour) 500)
  && (Qlt_bool 0.5 (aspect_ratio contour) && Qlt_bool (aspect_ratio contour) 3.0).

(** The dictionary stored for a contour that passes them. *)
Definition describe_vehicle (contour : Contour) : Vehicle :=
  let '(x, y, _, _) := boundingRect contour in
  {| v_area := contourArea contour;
     v_aspect_ratio := aspect_ratio contour;
     v_position := (x, y) |}.

End VehicleStatements.

(** *** Statements about the address validator *)

(** The count stored for a key in a dictionary of counts, 0 when the key is
    absent. *)
Definition stored (char_counts : list (string * Z)) (key : string) : Z :=
  RiskAnalyzer.dict_get char_counts key 0%Z.

(** The number of occurrences of a string in a list. *)
Fixpoint occurrences (key : string) (l : list string) : Z :=
  match l with
  | [] => 0
  | x :: rest => ((if String.eqb key x then 1 else 0) + occurrences key rest)%Z
  end.

(** *** Statements about the stages of the computer-vision analysis *)

Section StageStatements.

Context {cv : SatelliteAnalyzer.CV2}.

Import SatelliteAnalyzer.

(** What the dictionary [r] returned for a decoded image holds when its four
    stages ran in order: the entry of every stage that returned before the
    first exception is that stage's result, whatever the later stages do;
    the entries of the stage that raised and of the stages after it are the
    empty dictionaries; and the error marker is the message of the first
    exception. *)
Definition stored_entries_kept (image : Image) (r : VisualFeatures) : Prop :=
  (forall b, _detect_buildings image = Ok b -> building_detection r = Some b)
  /\ (forall b v,
         _detect_buildings image = Ok b -> _detect_vehicles image = Ok v ->
         vehicle_detection r = Some v)
  /\ (forall b v i,
         _detect_buildings image = Ok b -> _detect_vehicles image = Ok v ->
         _analyze_infrastructure image = Ok i ->
         infrastructure_features r = Some i)
  /\ (forall b v i c,
         _detect_buildings image = Ok b -> _detect_vehicles image = Ok v ->
         _analyze_infrastructure image = Ok i ->
         _analyze_area_characteristics image = Ok c ->
         area_characteristics r = Some c)
  /\ (forall e,
         _detect_buildings image = Raise e ->
         vf_error r = Some e
         /\ building_detection r = Some empty_building_detection
         /\ vehicle_detection r = Some empty_vehicle_detection
         /\ infrastructure_features r = Some empty_infrastructure_features
         /\ area_characteristics r = Some empty_area_characteristics)
  /\ (forall b e,
         _detect_buildings image = Ok b -> _detect_vehicles image = Raise e ->
         vf_error r = Some e
         /\ vehicle_detection r = Some empty_vehicle_detection
         /\ infrastructure_features r = Some empty_infrastructure_features
         /\ area_characteristics r = Some empty_area_characteristics)
  /\ (forall b v e,
         _detect_buildings image = Ok b -> _detect_vehicles image = Ok v ->
         _analyze_infrastructure image = Raise e ->
         vf_error r = Some e
         /\ infrastructure_features r = Some empty_infrastructure_features
         /\ area_characteristics r = Some empty_area_characteristics)
  /\ (forall b v i e,
         _detect_buildings image = Ok b -> _detect_vehicles image = Ok v ->
         _analyze_infrastructure image = Ok i ->
         _analyze_area_characteristics image = Raise e ->
         vf_error r = Some e
         /\ area_characteristics r = Some empty_area_characteristics).

End StageStatements.
(** ** Comparison lemmas *)

Lemma Qlt_bool_iff (a b : Q) : Qlt_bool a b = true <-> a < b.
Proof.
  unfold Qlt_bool. rewrite negb_true_iff.
  split; intro H.
  - apply Qnot_le_lt. intro Hle. apply Qle_bool_iff in Hle. congruence.
  - destruct (Qle_bool b a) eqn:E; [|reflexivity].
    apply Qle_bool_iff in E. exfalso. apply (Qlt_not_le _ _ H E).
Qed.

Lemma Qlt_bool_false_iff (a b : Q) : Qlt_bool a b = false <-> b <= a.
Proof.
  unfold Qlt_bool. rewrite negb_false_iff. apply Qle_bool_iff.
Qed.

Lemma Qge_bool_iff (a b : Q) : Qge_bool a b = true <-> b <= a.
Proof. unfold Qge_bool. apply Qle_bool_iff. Qed.

Lemma Qge_bool_false_iff (a b : Q) : Qge_bool a b = false <-> a < b.
Proof.
  unfold Qge_bool. split; intro H.
  - apply Qnot_le_lt. intro Hle. apply Qle_bool_iff in Hle. congruence.
  - destruct (Qle_bool b a) eqn:E; [|reflexivity].
    apply Qle_bool_iff in E. exfalso. apply (Qlt_not_le _ _ H E).
Qed.

Lemma Qgt_bool_iff (a b : Q) : Qgt_bool a b = true <-> b < a.
Proof. apply (Qlt_bool_iff b a). Qed.

Lemma py_min_spec (a b : Q) :
  (b < a /\ py_min a b = b) \/ (a <= b /\ py_min a b = a).
Proof.
  unfold py_min. destruct (Qlt_bool b a) eqn:E.
  - left. split; [now apply Qlt_bool_iff | reflexivity].
  - right. split; [now apply Qlt_bool_false_iff | reflexivity].
Qed.

Lemma py_min_le_l (a b : Q) : py_min a b <= a.
Proof. destruct (py_min_spec a b) as [[H ->]|[H ->]]; lra. Qed.

Lemma py_min_le_r (a b : Q) : py_min a b <= b.
Proof. destruct (py_min_spec a b) as [[H ->]|[H ->]]; lra. Qed.

Lemma py_min_glb (a b c : Q) : c <= a -> c <= b -> c <= py_min a b.
Proof. intros. destruct (py_min_spec a b) as [[H' ->]|[H' ->]]; assumption. Qed.

Lemma py_in_In (x : string) (l : list string) : py_in x l = true <-> In x l.
Proof.
  unfold py_in. rewrite existsb_exists. split.
  - intros [y [Hy E]]. apply String.eqb_eq in E. now subst.
  - intro H. exists x. split; [assumption | apply String.eqb_refl].
Qed.

(** ** Fusion: [_calculate_overall_risk_score] *)

Import RiskAnalyzer.

(** No scorer stores a ['confidence_score'] key in its dictionary. *)
Lemma address_scorer_sets_no_confidence (a : AddressData) (bt : string) :
  sig_confidence_score (_analyze_address_risk a bt) = None.
Proof.
  unfold _analyze_address_risk.
  repeat match goal with
         | |- context [if ?c then _ else _] => destruct c
         end; reflexivity.
Qed.

Lemma satellite_scorer_sets_no_confidence (s : SatelliteData) (bt : string) :
  sig_confidence_score (_analyze_satellite_risk s bt) = None.
Proof.
  unfold _analyze_satellite_risk.
  repeat match goal with
         | |- context [if ?c then _ else _] => destruct c
         | |- context [match ?l with [] => _ | _ :: _ => _ end] => destruct l
         end; reflexivity.
Qed.

(** On a dictionary that does hold the key, the adjustment adds the penalty
    exactly when the confidence is below 0.3. *)
Lemma penalty_added_when_key_present (a s c : SignalScore) (conf : Q) :
  sig_confidence_score s = Some conf ->
  unclamped_overall_risk_score a s c
  = if Qlt_bool conf 0.3 then weighted_average a s c + 0.1 else weighted_average a s c.
Proof.
  intro H. unfold unclamped_overall_risk_score. rewrite H. reflexivity.
Qed.

(** The dictionary handed to the fusion is the satellite scorer's, which
    holds no such key: the default 0.5 is read and nothing is added. *)
Lemma no_penalty_after_satellite_scorer (a c : SignalScore) (s : SatelliteData) (bt : string) :
  unclamped_overall_risk_score a (_analyze_satellite_risk s bt) c
  = weighted_average a (_analyze_satellite_risk s bt) c.
Proof.
  unfold unclamped_overall_risk_score.
  rewrite satellite_scorer_sets_no_confidence. reflexivity.
Qed.

Lemma satellite_scorer_ignores_confidence (s : SatelliteData) (conf : option Q) (bt : string) :
  _analyze_satellite_risk (with_confidence conf s) bt = _analyze_satellite_risk s bt.
Proof. reflexivity. Qed.

Lemma compatibility_scorer_ignores_confidence
    (a : AddressData) (s : SatelliteData) (conf : option Q) (bt da : string) :
  _analyze_business_compatibility a (with_confidence conf s) bt da
  = _analyze_business_compatibility a s bt da.
Proof. reflexivity. Qed.

(** The overall score of the full analysis does not depend on the
    confidence delivered with the satellite data. *)
Lemma overall_score_ignores_confidence
    (self : t) (now cnpj : string) (a : AddressData) (s : SatelliteData)
    (bt da : string) (conf1 conf2 : option Q) :
  RiskAssessment.overall_risk_score
    (analyze_comprehensive_risk self now cnpj a (with_confidence conf1 s) bt da)
  = RiskAssessment.overall_risk_score
      (analyze_comprehensive_risk self now cnpj a (with_confidence conf2 s) bt da).
Proof.
  unfold analyze_comprehensive_risk, update, _generate_final_assessment.
  repeat match goal with
         | |- context [let '(_, _) := ?p in _] => destruct p
         end.
  cbn [RiskAssessment.overall_risk_score fa_overall_risk_score].
  rewrite !satellite_scorer_ignores_confidence, !compatibility_scorer_ignores_confidence.
  reflexivity.
Qed.

(** C1 (code evaluated at the failing input).  With every rule input fixed,
    the analysis of the technology company at a house gives the same overall
    score for a satellite confidence of 0.2 as for 0.5: the weighted sum 0.2,
    and not that sum plus the penalty 0.1. *)
Theorem low_confidence_penalty_not_applied :
  RiskAssessment.overall_risk_score (Scenario.tech_at_house 0.2)
  = RiskAssessment.overall_risk_score (Scenario.tech_at_house 0.5)
  /\ RiskAssessment.overall_risk_score (Scenario.tech_at_house 0.2) == 0.4 * 0.3 + 0.2 * 0.4
  /\ ~ RiskAssessment.overall_risk_score (Scenario.tech_at_house 0.2)
       == RiskAssessment.overall_risk_score (Scenario.tech_at_house 0.5) + 0.1.
Proof.
  repeat split.
  - vm_compute. discriminate.
Qed.

(** The weighted sum is monotone in each score. *)
Lemma weighted_average_monotone (a a' s s' c c' : SignalScore) :
  risk_score a <= risk_score a' ->
  risk_score s <= risk_score s' ->
  risk_score c <= risk_score c' ->
  weighted_average a s c <= weighted_average a' s' c'.
Proof. unfold weighted_average. cbv zeta. intros. lra. Qed.

Lemma py_min_monotone (a x y : Q) : x <= y -> py_min a x <= py_min a y.
Proof.
  intro H.
  destruct (py_min_spec a x) as [[Hx ->]|[Hx ->]];
    destruct (py_min_spec a y) as [[Hy ->]|[Hy ->]]; lra.
Qed.

(** C8.  Raising any of the three partial risk scores, with the confidence
    key of the satellite dictionary unchanged, never lowers the overall risk
    score; in particular this holds when one score is raised and the other
    two dictionaries are kept. *)
Theorem fusion_monotone (a a' s s' c c' : SignalScore) :
  risk_score a <= risk_score a' ->
  risk_score s <= risk_score s' ->
  risk_score c <= risk_score c' ->
  sig_confidence_score s = sig_confidence_score s' ->
  _calculate_overall_risk_score a s c <= _calculate_overall_risk_score a' s' c'.
Proof.
  intros Ha Hs Hc Hconf.
  unfold _calculate_overall_risk_score. apply py_min_monotone.
  unfold unclamped_overall_risk_score. cbv zeta. rewrite <- Hconf.
  pose proof (weighted_average_monotone a a' s s' c c' Ha Hs Hc).
  destruct (Qlt_bool _ _); lra.
Qed.

Lemma fusion_monotone_witness :
  _calculate_overall_risk_score
    (set_risk_score 0.4 initial_signal) (set_risk_score 0.2 initial_signal) initial_signal
  <= _calculate_overall_risk_score
       (set_risk_score 0.9 initial_signal) (set_risk_score 0.2 initial_signal) initial_signal.
Proof.
  apply fusion_monotone.
  - vm_compute. discriminate.
  - apply Qle_refl.
  - apply Qle_refl.
  - reflexivity.
Defined.

(** ** The three scorers: range of [risk_score] *)

Ltac split_branches :=
  repeat match goal with
         | |- context [if ?c then _ else _] => destruct c
         | |- context [match ?l with [] => _ | _ :: _ => _ end] => destruct l
         end.

Ltac read_score :=
  cbn [risk_score risk_factors positive_factors quality_rating sig_confidence_score
       set_quality add_risk add_risks add_positive add_risk_factor set_risk_score
       initial_signal].

Lemma len_nonneg {A : Type} (l : list A) : (0 <= len l)%Z.
Proof. unfold len. lia. Qed.

(** The amount added for the risk indicators lies between 0 and 0.4. *)
Lemma risk_indicator_amount_bounds (l : list string) :
  0 <= py_min 0.4 (inject_Z (len l) * 0.1) <= 0.4.
Proof.
  split.
  - apply py_min_glb; [lra|].
    assert (0 <= inject_Z (len l)) by (rewrite <- (Zle_Qle 0); apply len_nonneg).
    nra.
  - apply py_min_le_l.
Qed.

Lemma address_score_bounds (a : AddressData) (bt : string) :
  0 <= risk_score (_analyze_address_risk a bt) <= 0.9.
Proof.
  unfold _analyze_address_risk. cbv zeta.
  split_branches; read_score; lra.
Qed.

Lemma satellite_score_bounds (s : SatelliteData) (bt : string) :
  0 <= risk_score (_analyze_satellite_risk s bt) <= 1.4.
Proof.
  unfold _analyze_satellite_risk. cbv zeta.
  split_branches; read_score;
    try match goal with
        | |- context [py_min 0.4 (inject_Z (len ?l) * 0.1)] =>
            pose proof (risk_indicator_amount_bounds l)
        end; lra.
Qed.

(** No business type is both an industrial one and an office one. *)
Lemma industrial_type_not_office_type (x : string) :
  py_in x ["logistics"; "manufacturing"] = true ->
  py_in x ["technology"; "consulting"] = false.
Proof.
  intro H. apply py_in_In in H.
  destruct H as [<-|[<-|[]]]; reflexivity.
Qed.

Lemma compatibility_score_bounds (a : AddressData) (s : SatelliteData) (bt da : string) :
  0 <= risk_score (_analyze_business_compatibility a s bt da) <= 1.1.
Proof.
  unfold _analyze_business_compatibility. cbv zeta.
  destruct (py_in (lower bt) ["logistics"; "manufacturing"]) eqn:E1.
  - rewrite (industrial_type_not_office_type _ E1). cbn [andb].
    split_branches; read_score; lra.
  - cbn [andb]. split_branches; read_score; lra.
Qed.

(** The overall score of the full analysis is the fusion of the three
    scorers' dictionaries. *)
Lemma overall_score_of_analysis
    (self : t) (now cnpj : string) (a : AddressData) (s : SatelliteData) (bt da : string) :
  RiskAssessment.overall_risk_score (analyze_comprehensive_risk self now cnpj a s bt da)
  = _calculate_overall_risk_score
      (_analyze_address_risk a bt) (_analyze_satellite_risk s bt)
      (_analyze_business_compatibility a s bt da).
Proof.
  unfold analyze_comprehensive_risk, update, _generate_final_assessment.
  repeat match goal with
         | |- context [let '(_, _) := ?p in _] => destruct p
         end.
  reflexivity.
Qed.

(** The level and the recommendation of the full analysis are those chosen
    by the threshold chain for its overall score. *)
Lemma verdict_of_analysis
    (self : t) (now cnpj : string) (a : AddressData) (s : SatelliteData) (bt da : string) :
  let r := analyze_comprehensive_risk self now cnpj a s bt da in
  (RiskAssessment.risk_level r, RiskAssessment.recommendation r)
  = classify self (RiskAssessment.overall_risk_score r).
Proof.
  cbv zeta. rewrite overall_score_of_analysis.
  unfold analyze_comprehensive_risk, update, _generate_final_assessment.
  destruct (collect_factors _) as [rf pf].
  destruct (classify _ _) as [lvl rec].
  reflexivity.
Qed.

(** Without a confidence key the fused score is the capped weighted sum. *)
Lemma overall_score_formula
    (self : t) (now cnpj : string) (a : AddressData) (s : SatelliteData) (bt da : string) :
  RiskAssessment.overall_risk_score (analyze_comprehensive_risk self now cnpj a s bt da)
  = py_min 1.0
      (risk_score (_analyze_address_risk a bt) * 0.3
       + risk_score (_analyze_satellite_risk s bt) * 0.4
       + risk_score (_analyze_business_compatibility a s bt da) * 0.3).
Proof.
  rewrite overall_score_of_analysis.
  unfold _calculate_overall_risk_score.
  rewrite no_penalty_after_satellite_scorer. reflexivity.
Qed.

(** C3 (as the code has it).  Every scorer returns a non-negative risk
    score and none clamps it: the address scorer's score is at most 0.9, the
    satellite scorer's at most 1.4 and the compatibility scorer's at most
    1.1; the overall score of the analysis, which is capped, lies in [0,1]. *)
Theorem scorer_score_ranges
    (self : t) (now cnpj : string) (a : AddressData) (s : SatelliteData) (bt da : string) :
  0 <= risk_score (_analyze_address_risk a bt) <= 0.9
  /\ 0 <= risk_score (_analyze_satellite_risk s bt) <= 1.4
  /\ 0 <= risk_score (_analyze_business_compatibility a s bt da) <= 1.1
  /\ 0 <= RiskAssessment.overall_risk_score
            (analyze_comprehensive_risk self now cnpj a s bt da) <= 1.
Proof.
  pose proof (address_score_bounds a bt) as Ha.
  pose proof (satellite_score_bounds s bt) as Hs.
  pose proof (compatibility_score_bounds a s bt da) as Hc.
  repeat split; try tauto.
  - rewrite overall_score_formula. apply py_min_glb; lra.
  - rewrite overall_score_formula.
    eapply Qle_trans; [apply py_min_le_l | lra].
Qed.

(** C3 (the claim fails).  For the logistics company at a house on an empty
    plot the satellite scorer and the compatibility scorer each return a
    score above 1: neither score lies in [0,1]. *)
Lemma scorer_scores_above_one :
  ~ (0 <= risk_score (_analyze_satellite_risk Scenario.empty_plot "logistics") <= 1)
  /\ ~ (0 <= risk_score
              (_analyze_business_compatibility
                 (Scenario.valid_address "residential" "urban") Scenario.empty_plot
                 "logistics" "Freight forwarding") <= 1)
  /\ 1 < risk_score (_analyze_satellite_risk Scenario.empty_plot "logistics")
  /\ 1 < risk_score
           (_analyze_business_compatibility
              (Scenario.valid_address "residential" "urban") Scenario.empty_plot
              "logistics" "Freight forwarding").
Proof.
  assert (Hs : 1 < risk_score (_analyze_satellite_risk Scenario.empty_plot "logistics"))
    by (vm_compute; reflexivity).
  assert (Hc : 1 < risk_score
                     (_analyze_business_compatibility
                        (Scenario.valid_address "residential" "urban") Scenario.empty_plot
                        "logistics" "Freight forwarding"))
    by (vm_compute; reflexivity).
  repeat split; try assumption.
  - intros [_ H]. apply (Qlt_not_le _ _ Hs H).
  - intros [_ H]. apply (Qlt_not_le _ _ Hc H).
Qed.

(** ** Classification against the thresholds *)

Lemma py_min_below (a x : Q) : x < a -> py_min a x = x.
Proof.
  intro H. unfold py_min.
  apply Qlt_bool_iff in H. rewrite H. reflexivity.
Qed.

Lemma classify_high (self : t) (score : Q) :
  classify self score = (HIGH, BLOCK) <-> high_risk_threshold self <= score.
Proof.
  unfold classify. split.
  - destruct (Qge_bool score (high_risk_threshold self)) eqn:E.
    + intros _. now apply Qge_bool_iff.
    + destruct (Qge_bool score (medium_risk_threshold self)); discriminate.
  - intro H. apply Qge_bool_iff in H. rewrite H. reflexivity.
Qed.

Lemma classify_low (self : t) (score : Q) :
  score < high_risk_threshold self ->
  score < medium_risk_threshold self ->
  classify self score = (LOW, AUTO_APPROVE).
Proof.
  intros Hh Hm. unfold classify.
  apply Qge_bool_false_iff in Hh. apply Qge_bool_false_iff in Hm.
  rewrite Hh, Hm. reflexivity.
Qed.

(** Evaluates the closed conditions of a rule chain and splits on the
    others. *)
Ltac step_branch :=
  match goal with
  | |- context [if ?c then _ else _] =>
      first [ let v := eval vm_compute in c in
              match v with
              | true => change c with true
              | false => change c with false
              end; cbv beta iota
            | destruct c eqn:? ]
  end.

(** ** The technology company at a house *)

Section TechAtHouse.

Variables (a : AddressData) (s : SatelliteData).
Hypothesis inputs : tech_at_house_inputs a s.

Lemma tech_at_house_address_score :
  risk_score (_analyze_address_risk a "technology") == 0.4
  \/ risk_score (_analyze_address_risk a "technology") == 0.7.
Proof.
  destruct inputs as (Hv & Hl & _).
  unfold _analyze_address_risk. cbv zeta. rewrite Hv, Hl.
  repeat step_branch; read_score; (left; lra) || (right; lra).
Qed.

Lemma tech_at_house_satellite_score :
  risk_score (_analyze_satellite_risk s "technology") == 0.2.
Proof.
  destruct inputs as (_ & _ & Hc & Hb & Hveh & Hp & Hr).
  unfold observed_building_count, observed_vehicle_count,
    observed_positive_indicators, observed_risk_indicators in *.
  unfold _analyze_satellite_risk. cbv zeta. rewrite Hc, Hb, Hveh, Hp, Hr.
  repeat step_branch; read_score; lra.
Qed.

Lemma tech_at_house_compatibility_score (da : string) :
  risk_score (_analyze_business_compatibility a s "technology" da) == 0.
Proof.
  destruct inputs as (_ & Hl & _).
  unfold _analyze_business_compatibility. cbv zeta. rewrite Hl.
  repeat step_branch; read_score; lra.
Qed.

End TechAtHouse.

(** The address score of the technology company at a house is 0.7 in a
    remote or rural neighbourhood and 0.4 in any other. *)
Lemma tech_at_house_address_score_by_neighbourhood (a : AddressData) (s : SatelliteData) :
  tech_at_house_inputs a s ->
  let neighborhood := py_get "unknown" (neighborhood_context a) in
  (neighborhood = "remote" \/ neighborhood = "rural" ->
   risk_score (_analyze_address_risk a "technology") == 0.7)
  /\ (~ (neighborhood = "remote" \/ neighborhood = "rural") ->
      risk_score (_analyze_address_risk a "technology") == 0.4).
Proof.
  intros (Hv & Hl & _) neighborhood.
  assert (Hvalid : py_get false (is_valid a) = true) by (rewrite Hv; reflexivity).
  assert (Hremote : String.eqb neighborhood "remote" || String.eqb neighborhood "rural" = true
                    <-> neighborhood = "remote" \/ neighborhood = "rural")
    by (rewrite orb_true_iff, !String.eqb_eq; reflexivity).
  unfold _analyze_address_risk. cbv zeta. rewrite Hvalid, Hl. cbn [negb py_get].
  fold neighborhood.
  change (String.eqb "residential" "residential") with true.
  change (py_in "technology" ["technology"; "consulting"]) with true.
  cbv iota.
  destruct (String.eqb neighborhood "remote" || String.eqb neighborhood "rural").
  - split; [intros _ | intro H; exfalso; apply H; now apply Hremote];
      split_branches; read_score; lra.
  - split; [intro H; apply Hremote in H; discriminate | intros _];
      split_branches; read_score; lra.
Qed.

(** C2 (code evaluated at the failing inputs).  For every input of the
    technology company at a house the address score is 0.4, or 0.7 when the
    neighbourhood is remote or rural, the satellite score is 0.2 and the
    compatibility score is 0; with the default thresholds the overall score
    stays below 0.3, hence below the medium threshold 0.4, the risk level is
    LOW and the recommendation is AUTO_APPROVE. *)
Theorem tech_at_house_is_auto_approved
    (now cnpj da : string) (a : AddressData) (s : SatelliteData) :
  tech_at_house_inputs a s ->
  let r := analyze_comprehensive_risk default now cnpj a s "technology" da in
  let neighborhood := py_get "unknown" (neighborhood_context a) in
  (neighborhood = "remote" \/ neighborhood = "rural" ->
   risk_score (_analyze_address_risk a "technology") == 0.7)
  /\ (~ (neighborhood = "remote" \/ neighborhood = "rural") ->
      risk_score (_analyze_address_risk a "technology") == 0.4)
  /\ risk_score (_analyze_satellite_risk s "technology") == 0.2
  /\ risk_score (_analyze_business_compatibility a s "technology" da) == 0
  /\ RiskAssessment.overall_risk_score r < 0.3
  /\ RiskAssessment.overall_risk_score r < medium_risk_threshold default
  /\ RiskAssessment.risk_level r = LOW
  /\ RiskAssessment.recommendation r = AUTO_APPROVE.
Proof.
  intros H r neighborhood.
  pose proof (verdict_of_analysis default now cnpj a s "technology" da) as Hverdict.
  cbv zeta in Hverdict. fold r in Hverdict.
  pose proof (tech_at_house_satellite_score a s H) as Hsat.
  pose proof (tech_at_house_compatibility_score a s H da) as Hcompat.
  pose proof (tech_at_house_address_score_by_neighbourhood a s H) as [Hfar Hnear].
  cbv zeta in Hfar, Hnear. fold neighborhood in Hfar, Hnear.
  assert (Hscore : RiskAssessment.overall_risk_score r
                   = risk_score (_analyze_address_risk a "technology") * 0.3
                     + risk_score (_analyze_satellite_risk s "technology") * 0.4
                     + risk_score (_analyze_business_compatibility a s "technology" da) * 0.3).
  { unfold r. rewrite overall_score_formula. apply py_min_below.
    destruct (tech_at_house_address_score a s H); lra. }
  assert (Hbelow : RiskAssessment.overall_risk_score r < 0.3).
  { rewrite Hscore. destruct (tech_at_house_address_score a s H); lra. }
  assert (Hclass : classify default (RiskAssessment.overall_risk_score r)
                   = (LOW, AUTO_APPROVE)).
  { apply classify_low; unfold default;
      cbn [high_risk_threshold medium_risk_threshold]; lra. }
  rewrite Hclass in Hverdict. inversion Hverdict.
  split; [exact Hfar|]. split; [exact Hnear|]. split; [exact Hsat|].
  split; [exact Hcompat|]. split; [exact Hbelow|].
  split; [unfold default; cbn [medium_risk_threshold]; lra|].
  split; reflexivity.
Qed.

Lemma tech_at_house_is_auto_approved_witness :
  RiskAssessment.recommendation (Scenario.tech_at_house 0.5) = AUTO_APPROVE.
Proof.
  apply (tech_at_house_is_auto_approved
           "2024-05-01T10:00:00" "12.345.678/0001-90" "Software development"
           (Scenario.valid_address "residential" "urban")
           (Scenario.satellite 1 1500 1500 0 [] [] 0.5)).
  repeat split.
Defined.

(** For the technology company at a house in an urban neighbourhood the
    overall score does not reach the medium threshold and the recommendation
    is AUTO_APPROVE. *)
Lemma tech_at_house_below_medium :
  ~ (medium_risk_threshold default
       <= RiskAssessment.overall_risk_score (Scenario.tech_at_house 0.5)
     /\ RiskAssessment.recommendation (Scenario.tech_at_house 0.5) <> AUTO_APPROVE).
Proof.
  intros [_ H]. apply H. vm_compute. reflexivity.
Qed.

(** ** Dependence of the assessment on the clock *)

(** The timestamp of the assessment is the clock reading of the call. *)
Lemma timestamp_of_analysis
    (self : t) (now cnpj : string) (a : AddressData) (s : SatelliteData) (bt da : string) :
  RiskAssessment.analysis_timestamp (analyze_comprehensive_risk self now cnpj a s bt da) = now.
Proof. reflexivity. Qed.




(** ** An address that was not found *)

Lemma invalid_address_score (a : AddressData) (bt : string) :
  is_valid a = Some false ->
  _analyze_address_risk a bt
  = {| risk_score := 0.9;
       risk_factors := ["Address not found or invalid"];
       positive_factors := [];
       quality_rating := "INVALID";
       sig_confidence_score := None |}.
Proof.
  intro H. unfold _analyze_address_risk. rewrite H. reflexivity.
Qed.

(** The request handler answers an invalid address before the satellite
    analysis and the risk analyzer are called. *)
Lemma handler_blocks_invalid_address
    (self : t) (now cnpj bt da : string) (a : AddressData) (located : Result SatelliteData) :
  is_valid a = Some false ->
  let k := KYCGeointelligentAPI.process_kyc_request self now (Ok a) located cnpj bt da in
  KYCGeointelligentAPI.risk_level k = Some HIGH
  /\ KYCGeointelligentAPI.recommendation k = Some BLOCK
  /\ KYCGeointelligentAPI.overall_risk_score k = None.
Proof.
  intro H. unfold KYCGeointelligentAPI.process_kyc_request, bind.
  rewrite H. cbn. repeat split.
Qed.

(** C5 (as the code has it).  For an address with [is_valid = false] the
    address scorer returns 0.9 with the invalid-address factor and applies no
    other rule, and the request handler answers HIGH and BLOCK whatever the
    satellite analysis would return.  The assessment of the risk analyzer
    itself has the overall score min(1, 0.27 + 0.4 satellite + 0.3
    compatibility), and is HIGH and BLOCK exactly when that score reaches the
    high threshold. *)
Theorem invalid_address_assessment
    (self : t) (now cnpj bt da : string) (a : AddressData) (s : SatelliteData)
    (located : Result SatelliteData) :
  is_valid a = Some false ->
  let r := analyze_comprehensive_risk self now cnpj a s bt da in
  let k := KYCGeointelligentAPI.process_kyc_request self now (Ok a) located cnpj bt da in
  _analyze_address_risk a bt
  = {| risk_score := 0.9;
       risk_factors := ["Address not found or invalid"];
       positive_factors := [];
       quality_rating := "INVALID";
       sig_confidence_score := None |}
  /\ (KYCGeointelligentAPI.risk_level k = Some HIGH
      /\ KYCGeointelligentAPI.recommendation k = Some BLOCK)
  /\ RiskAssessment.overall_risk_score r
     = py_min 1.0 (0.9 * 0.3
                   + risk_score (_analyze_satellite_risk s bt) * 0.4
                   + risk_score (_analyze_business_compatibility a s bt da) * 0.3)
  /\ ((RiskAssessment.risk_level r = HIGH /\ RiskAssessment.recommendation r = BLOCK)
      <-> high_risk_threshold self <= RiskAssessment.overall_risk_score r).
Proof.
  intros H r k.
  split; [now apply invalid_address_score|].
  split.
  { pose proof (handler_blocks_invalid_address self now cnpj bt da a located H) as Hk.
    cbv zeta in Hk. fold k in Hk. tauto. }
  split.
  - unfold r. rewrite overall_score_formula.
    rewrite (invalid_address_score a bt H). reflexivity.
  - pose proof (verdict_of_analysis self now cnpj a s bt da) as Hv.
    cbv zeta in Hv. fold r in Hv.
    rewrite <- classify_high, <- Hv.
    split.
    + intros [-> ->]. reflexivity.
    + intro E. inversion E. split; reflexivity.
Qed.

Lemma invalid_address_assessment_witness :
  KYCGeointelligentAPI.risk_level
    (KYCGeointelligentAPI.process_kyc_request
       default "2024-05-01T10:00:00" (Ok Scenario.invalid_address) (Ok Scenario.clean_site)
       "12.345.678/0001-90" "technology" "Software development") = Some HIGH
  /\ KYCGeointelligentAPI.recommendation
       (KYCGeointelligentAPI.process_kyc_request
          default "2024-05-01T10:00:00" (Ok Scenario.invalid_address) (Ok Scenario.clean_site)
          "12.345.678/0001-90" "technology" "Software development") = Some BLOCK.
Proof.
  apply (invalid_address_assessment
           default "2024-05-01T10:00:00" "12.345.678/0001-90" "technology"
           "Software development" Scenario.invalid_address Scenario.clean_site
           (Ok Scenario.clean_site)).
  reflexivity.
Defined.

(** C5 (the claim fails).  For the address that was not found and a clean
    satellite analysis the risk analyzer returns the overall score 0.27, the
    level LOW and the recommendation AUTO_APPROVE. *)
Lemma invalid_address_not_blocked :
  ~ (RiskAssessment.risk_level Scenario.invalid_address_clean_site = HIGH
     /\ RiskAssessment.recommendation Scenario.invalid_address_clean_site = BLOCK).
Proof.
  intros [H _]. vm_compute in H. discriminate.
Qed.

(** ** Aggregation of the factor lists *)

Lemma collect_factors_three (x y z : SignalScore) :
  collect_factors [x; y; z]
  = (risk_factors x ++ risk_factors y ++ risk_factors z,
     positive_factors x ++ positive_factors y ++ positive_factors z)%list.
Proof.
  unfold collect_factors. cbn [fold_left fst snd app].
  rewrite <- !app_assoc. reflexivity.
Qed.

Lemma final_assessment_factors (self : t) (score : Q) (r : RiskAssessment.t) :
  fa_risk_factors (_generate_final_assessment self score r)
  = slice_to 5 (fst (collect_factors (map snd (RiskAssessment.detailed_assessment r)))).
Proof.
  unfold _generate_final_assessment.
  destruct (collect_factors _) as [rf pf].
  destruct (classify self score) as [level advice]. reflexivity.
Qed.

Lemma final_assessment_positive_factors (self : t) (score : Q) (r : RiskAssessment.t) :
  fa_positive_factors (_generate_final_assessment self score r)
  = slice_to 5 (snd (collect_factors (map snd (RiskAssessment.detailed_assessment r)))).
Proof.
  unfold _generate_final_assessment.
  destruct (collect_factors _) as [rf pf].
  destruct (classify self score) as [level advice]. reflexivity.
Qed.

(** C6 (as the code has it).  In the final assessment each of the two factor
    lists is the concatenation of the three scorers' lists in the order
    address, satellite, compatibility, cut to its first five entries; nothing
    is removed from it otherwise, and its length is at most 5. *)
Theorem factor_lists_concatenated_and_truncated
    (self : t) (now cnpj : string) (a : AddressData) (s : SatelliteData) (bt da : string) :
  let r := analyze_comprehensive_risk self now cnpj a s bt da in
  let address_risk := _analyze_address_risk a bt in
  let satellite_risk := _analyze_satellite_risk s bt in
  let compatibility_risk := _analyze_business_compatibility a s bt da in
  RiskAssessment.risk_factors r
  = firstn 5 (risk_factors address_risk ++ risk_factors satellite_risk
              ++ risk_factors compatibility_risk)
  /\ RiskAssessment.positive_factors r
     = firstn 5 (positive_factors address_risk ++ positive_factors satellite_risk
                 ++ positive_factors compatibility_risk)
  /\ (List.length (RiskAssessment.risk_factors r) <= 5)%nat
  /\ (List.length (RiskAssessment.positive_factors r) <= 5)%nat.
Proof.
  cbv zeta.
  assert (E : RiskAssessment.risk_factors (analyze_comprehensive_risk self now cnpj a s bt da)
              = firstn 5 (risk_factors (_analyze_address_risk a bt)
                          ++ risk_factors (_analyze_satellite_risk s bt)
                          ++ risk_factors (_analyze_business_compatibility a s bt da))
              /\ RiskAssessment.positive_factors
                   (analyze_comprehensive_risk self now cnpj a s bt da)
                 = firstn 5 (positive_factors (_analyze_address_risk a bt)
                             ++ positive_factors (_analyze_satellite_risk s bt)
                             ++ positive_factors (_analyze_business_compatibility a s bt da))).
  { unfold analyze_comprehensive_risk.
    generalize (_analyze_business_compatibility a s bt da).
    generalize (_analyze_satellite_risk s bt).
    generalize (_analyze_address_risk a bt).
    intros x y z. cbv zeta.
    generalize (_calculate_overall_risk_score x y z). intro score.
    unfold update.
    cbn [RiskAssessment.risk_factors RiskAssessment.positive_factors].
    rewrite final_assessment_factors, final_assessment_positive_factors.
    unfold set_detailed, initial_result.
    cbn [RiskAssessment.detailed_assessment app map snd].
    rewrite collect_factors_three. cbn [fst snd].
    split; reflexivity. }
  destruct E as [-> ->].
  repeat split; apply firstn_le_length.
Qed.

(** C6 (the claim fails).  When the satellite analysis reports the same risk
    line twice, the line is listed twice in the final risk factors. *)
Lemma repeated_factor_is_kept :
  ~ NoDup (RiskAssessment.risk_factors Scenario.repeated_indicator).
Proof.
  intro H. vm_compute in H.
  inversion H as [|x l Hnotin _]. apply Hnotin. left. reflexivity.
Qed.

(** ** The commercial type-mismatch rule of the address scorer *)

(** Every expected-location list but the one of manufacturing holds
    ['commercial']. *)
Lemma expected_locations_commercial (bt : string) :
  In "commercial" (_get_expected_locations bt) <-> lower bt <> "manufacturing".
Proof.
  unfold _get_expected_locations, location_mapping.
  generalize (lower bt). intro key. cbn [dict_get].
  repeat match goal with
         | |- context [String.eqb ?k key] => destruct (String.eqb_spec k key) as [<-|?]
         end;
    cbn [In]; split; intro H; try discriminate; try congruence;
    intuition (try discriminate; try congruence).
Qed.

Lemma manufacturing_not_office_type (bt : string) :
  lower bt = "manufacturing" -> py_in bt ["technology"; "consulting"] = false.
Proof.
  intro H. destruct (py_in bt ["technology"; "consulting"]) eqn:E; [|reflexivity].
  apply py_in_In in E.
  destruct E as [<-|[<-|[]]]; vm_compute in H; discriminate.
Qed.

(** The third branch of the location chain is reached and taken exactly for
    a commercial location and a manufacturing business. *)
Lemma mismatch_branch_condition (loc bt : string) :
  negb (String.eqb loc "residential")
  && negb (py_in loc (_get_expected_locations bt))
  && (String.eqb loc "commercial" && negb (py_in bt ["technology"; "consulting"]))
  = String.eqb loc "commercial" && String.eqb (lower bt) "manufacturing".
Proof.
  destruct (String.eqb_spec loc "commercial") as [->|Hloc].
  - change (String.eqb "commercial" "residential") with false. cbn [negb andb].
    destruct (String.eqb_spec (lower bt) "manufacturing") as [Hm|Hm].
    + rewrite (manufacturing_not_office_type bt Hm).
      destruct (py_in "commercial" (_get_expected_locations bt)) eqn:E; [|reflexivity].
      apply py_in_In, expected_locations_commercial in E. contradiction.
    + apply expected_locations_commercial, py_in_In in Hm. rewrite Hm. reflexivity.
  - cbn [andb]. rewrite andb_false_r. reflexivity.
Qed.

(** C10.  For a valid address the risk factor of the commercial
    type-mismatch rule is present, and 0.1 is added for the location, exactly
    when the location type is ['commercial'] and the lowercased business type
    is ['manufacturing']; the expected-location list of every other business
    type holds ['commercial'], so that the earlier branch is taken for it. *)
Theorem mismatch_penalty_only_for_manufacturing (a : AddressData) (bt : string) :
  py_get false (is_valid a) = true ->
  let loc := py_get "unknown" (location_type a) in
  let neighborhood := py_get "unknown" (neighborhood_context a) in
  (In mismatch_factor (risk_factors (_analyze_address_risk a bt))
   <-> loc = "commercial" /\ lower bt = "manufacturing")
  /\ risk_score (_analyze_address_risk a bt)
     == (if String.eqb loc "residential" then 0.4
         else if String.eqb loc "commercial" && String.eqb (lower bt) "manufacturing"
              then 0.1 else 0)
        + (if (String.eqb neighborhood "remote" || String.eqb neighborhood "rural")
              && py_in bt ["technology"; "consulting"]
           then 0.3 else 0)
  /\ (lower bt <> "manufacturing" -> In "commercial" (_get_expected_locations bt)).
Proof.
  intros Hvalid loc neighborhood.
  pose proof (mismatch_branch_condition loc bt) as Hcond.
  assert (Hiff : String.eqb loc "commercial" && String.eqb (lower bt) "manufacturing" = true
                 <-> loc = "commercial" /\ lower bt = "manufacturing")
    by (rewrite andb_true_iff, !String.eqb_eq; reflexivity).
  split; [|split].
  - rewrite <- Hiff, <- Hcond.
    unfold _analyze_address_risk. cbv zeta. rewrite Hvalid. cbn [negb].
    fold loc. fold neighborhood.
    destruct (String.eqb loc "residential");
      destruct (py_in loc (_get_expected_locations bt));
      destruct (String.eqb loc "commercial" && negb (py_in bt ["technology"; "consulting"]));
      cbn [negb andb]; split_branches; read_score; cbn [app In]; unfold mismatch_factor;
      split; intro H; try reflexivity; try discriminate;
      intuition (try discriminate).
  - rewrite <- Hcond.
    unfold _analyze_address_risk. cbv zeta. rewrite Hvalid. cbn [negb].
    fold loc. fold neighborhood.
    destruct (String.eqb loc "residential");
      destruct (py_in loc (_get_expected_locations bt));
      destruct (String.eqb loc "commercial" && negb (py_in bt ["technology"; "consulting"]));
      destruct (String.eqb neighborhood "remote" || String.eqb neighborhood "rural");
      destruct (py_in bt ["technology"; "consulting"]);
      cbn [negb andb]; split_branches; read_score; lra.
  - apply expected_locations_commercial.
Qed.

Lemma mismatch_penalty_only_for_manufacturing_witness :
  In mismatch_factor
     (risk_factors (_analyze_address_risk (Scenario.valid_address "commercial" "urban")
                                          "Manufacturing"))
  <-> "commercial" = "commercial" /\ lower "Manufacturing" = "manufacturing".
Proof.
  apply (mismatch_penalty_only_for_manufacturing
           (Scenario.valid_address "commercial" "urban") "Manufacturing").
  reflexivity.
Defined.

(** ** Building detection *)

Section BuildingDetection.

Context {cv : SatelliteAnalyzer.CV2}.

Import SatelliteAnalyzer.

Lemma keeps_iff (contour : Contour) :
  keeps contour = true
  <-> 1000 < contourArea contour /\ (4 <= len (approximation contour))%Z.
Proof.
  unfold keeps. rewrite andb_true_iff, Qgt_bool_iff, Z.leb_le. reflexivity.
Qed.

Lemma building_of_keeps (contour : Contour) :
  building_of contour = if keeps contour then Some (describe contour) else None.
Proof.
  unfold building_of, keeps, describe, approximation. cbv zeta.
  destruct (Qgt_bool (contourArea contour) 1000); [|reflexivity].
  cbn [andb]. destruct (4 <=? _)%Z; reflexivity.
Qed.

(** The loop keeps the contours that pass the two tests, in the order of
    detection. *)
Lemma collect_buildings_filter (contours : list Contour) :
  collect_buildings contours = map describe (filter keeps contours).
Proof.
  induction contours as [|c rest IH]; [reflexivity|].
  cbn [collect_buildings filter]. rewrite building_of_keeps.
  destruct (keeps c); cbn [map]; rewrite IH; reflexivity.
Qed.

Lemma py_max_ge_l (x y : Q) : x <= py_max x y.
Proof.
  unfold py_max. destruct (Qgt_bool y x) eqn:E; [|apply Qle_refl].
  apply Qgt_bool_iff in E. apply Qlt_le_weak. exact E.
Qed.

Lemma py_max_ge_r (x y : Q) : y <= py_max x y.
Proof.
  unfold py_max. destruct (Qgt_bool y x) eqn:E; [apply Qle_refl|].
  unfold Qgt_bool in E. apply negb_false_iff, Qle_bool_iff in E. exact E.
Qed.

Lemma fold_py_max_ge_init (l : list Q) (x : Q) : x <= fold_left py_max l x.
Proof.
  revert x. induction l as [|y l IH]; intro x; cbn [fold_left]; [apply Qle_refl|].
  eapply Qle_trans; [apply (py_max_ge_l x y) | apply IH].
Qed.

Lemma fold_py_max_upper (l : list Q) (x y : Q) : In y l -> y <= fold_left py_max l x.
Proof.
  revert x. induction l as [|z l IH]; intros x H; [destruct H|].
  cbn [fold_left]. destruct H as [->|H].
  - eapply Qle_trans; [apply (py_max_ge_r x y) | apply fold_py_max_ge_init].
  - now apply IH.
Qed.

Lemma fold_py_max_attained (l : list Q) (x : Q) :
  fold_left py_max l x = x \/ In (fold_left py_max l x) l.
Proof.
  revert x. induction l as [|y l IH]; intro x; cbn [fold_left]; [now left|].
  destruct (IH (py_max x y)) as [E|H].
  - rewrite E. unfold py_max. destruct (Qgt_bool y x); [right; now left | now left].
  - right. now right.
Qed.

(** [max(l, default=0)] bounds every element and is one of them. *)
Lemma py_max_default_spec (l : list Q) :
  (forall y, In y l -> y <= py_max_default l 0)
  /\ (l = [] -> py_max_default l 0 = 0)
  /\ (l <> [] -> In (py_max_default l 0) l).
Proof.
  destruct l as [|x l]; cbn [py_max_default].
  - repeat split; try tauto. intros y [].
  - repeat split.
    + intros y [->|H]; [apply fold_py_max_ge_init | now apply fold_py_max_upper].
    + discriminate.
    + intros _. destruct (fold_py_max_attained l x) as [->|H]; [now left | now right].
Qed.

(** The key ['buildings'] holds the first ten of the kept buildings, in the
    order of detection. *)
Lemma listed_buildings_first_ten (contours : list Contour) :
  buildings (building_report (collect_buildings contours))
  = Some (firstn 10 (map describe (filter keeps contours))).
Proof. rewrite collect_buildings_filter. reflexivity. Qed.

(** C9 (as the code has it).  Building detection keeps exactly the contours
    whose area is greater than 1000 and whose polygon approximation has at
    least 4 vertices; a contour of area 1000 or less is discarded.  The
    report holds the number of kept contours, the sum of their areas, the
    largest of their areas (0 when none is kept) and a list of at most ten of
    the kept buildings. *)
Theorem building_detection_report (image : Image) (contours : list Contour) :
  edge_contours image = Ok contours ->
  let kept := filter keeps contours in
  (forall c, keeps c = true <-> 1000 < contourArea c /\ (4 <= len (approximation c))%Z)
  /\ exists report,
      _detect_buildings image = Ok report
      /\ building_count report = Some (len kept)
      /\ total_building_area report = Some (py_sum (map contourArea kept))
      /\ (exists largest,
             largest_building_area report = Some largest
             /\ (forall c, In c kept -> contourArea c <= largest)
             /\ (kept = [] -> largest = 0)
             /\ (kept <> [] -> exists c, In c kept /\ largest = contourArea c))
      /\ (exists listed,
             buildings report = Some listed
             /\ (List.length listed <= 10)%nat
             /\ incl listed (map describe kept)).
Proof.
  intros Hcontours kept.
  split; [exact keeps_iff|].
  exists (building_report (collect_buildings contours)).
  unfold _detect_buildings. rewrite Hcontours. cbn [bind].
  rewrite collect_buildings_filter. fold kept.
  assert (Hareas : map b_area (map describe kept) = map contourArea kept)
    by (rewrite map_map; reflexivity).
  split; [reflexivity|].
  split; [cbn [building_report building_count]; unfold len; now rewrite length_map|].
  split; [cbn [building_report total_building_area]; now rewrite Hareas|].
  split.
  - exists (py_max_default (map contourArea kept) 0).
    cbn [building_report largest_building_area]. rewrite Hareas.
    destruct (py_max_default_spec (map contourArea kept)) as (Hub & Hnil & Hin).
    split; [reflexivity|]. split; [|split].
    + intros c Hc. apply Hub. now apply in_map.
    + intros ->. reflexivity.
    + intro Hne.
      assert (Hne' : map contourArea kept <> []) by (destruct kept; [tauto | discriminate]).
      apply Hin, in_map_iff in Hne'. destruct Hne' as (c & Hc & Hk).
      exists c. split; [assumption | now symmetry].
  - exists (slice_to 10 (map describe kept)).
    split; [reflexivity|]. split.
    + apply firstn_le_length.
    + intros b Hb. unfold slice_to in Hb.
      rewrite <- (firstn_skipn 10 (map describe kept)). apply in_or_app. now left.
Qed.

End BuildingDetection.

Lemma building_detection_report_witness :
  exists report,
    @SatelliteAnalyzer._detect_buildings MeasuredCV2.undecodable
      (MeasuredCV2.image_of
         [MeasuredCV2.square 40; MeasuredCV2.plot_1000; MeasuredCV2.square 10])
    = Ok report
    /\ building_count report = Some 1%Z.
Proof.
  destruct (@building_detection_report MeasuredCV2.undecodable
              (MeasuredCV2.image_of
                 [MeasuredCV2.square 40; MeasuredCV2.plot_1000; MeasuredCV2.square 10])
              [MeasuredCV2.square 40; MeasuredCV2.plot_1000; MeasuredCV2.square 10]
              eq_refl) as (_ & report & Hreport & Hcount & _).
  exists report. split; [exact Hreport | exact Hcount].
Defined.

(** C9 (the claim fails).  A contour of area exactly 1000 whose
    approximation has four vertices has an area of at least 1000 and is not
    kept. *)
Lemma contour_of_area_1000_discarded :
  ~ (forall c : @SatelliteAnalyzer.Contour MeasuredCV2.undecodable,
        In c [MeasuredCV2.plot_1000] ->
        1000 <= SatelliteAnalyzer.contourArea c ->
        (4 <= len (approximation c))%Z ->
        In (describe c)
           (@SatelliteAnalyzer.collect_buildings MeasuredCV2.undecodable
              [MeasuredCV2.plot_1000])).
Proof.
  intro H.
  specialize (H MeasuredCV2.plot_1000 (or_introl eq_refl)).
  apply H.
  - vm_compute. discriminate.
  - vm_compute. discriminate.
Qed.

(** ** Totality of the computer-vision analysis *)

Section ComputerVisionAnalysis.

Context {cv : SatelliteAnalyzer.CV2}.

Import SatelliteAnalyzer.

Lemma initial_analysis_reads_as_zero : reads_as_zero initial_analysis.
Proof. repeat split. Qed.

Lemma initial_analysis_has_keys : has_feature_keys initial_analysis.
Proof. repeat split; discriminate. Qed.

(** Whatever the decoder and the detectors do, the four keys are present in
    the returned dictionary. *)
Lemma analysis_has_feature_keys (image_data : list Byte.byte) :
  has_feature_keys (_computer_vision_analysis image_data).
Proof.
  unfold _computer_vision_analysis.
  destruct (imdecode image_data) as [[image|]|e];
    [|repeat split; discriminate..].
  destruct (_detect_buildings image); [|repeat split; discriminate].
  destruct (_detect_vehicles image); [|repeat split; discriminate].
  destruct (_analyze_infrastructure image); [|repeat split; discriminate].
  destruct (_analyze_area_characteristics image); repeat split; discriminate.
Qed.

(** For a decoded image the error marker is absent exactly when every stage
    returned. *)
Lemma decoded_image_error_marker (image_data : list Byte.byte) (image : Image) :
  imdecode image_data = Ok (Some image) ->
  vf_error (_computer_vision_analysis image_data) = None <-> all_stages_return image.
Proof.
  intro Hdecode. unfold _computer_vision_analysis, all_stages_return. rewrite Hdecode.
  destruct (_detect_buildings image) as [b|e].
  2:{ split; [discriminate | intros (? & ? & ? & ? & H & _); discriminate]. }
  destruct (_detect_vehicles image) as [v|e].
  2:{ split; [discriminate | intros (? & ? & ? & ? & _ & H & _); discriminate]. }
  destruct (_analyze_infrastructure image) as [i|e].
  2:{ split; [discriminate | intros (? & ? & ? & ? & _ & _ & H & _); discriminate]. }
  destruct (_analyze_area_characteristics image) as [c|e].
  2:{ split; [discriminate | intros (? & ? & ? & ? & _ & _ & _ & H); discriminate]. }
  split; [|reflexivity].
  intros _. exists b, v, i, c. repeat split.
Qed.

(** For a decoded image every entry stored before an exception is kept. *)
Lemma decoded_image_entries_kept (image_data : list Byte.byte) (image : Image) :
  imdecode image_data = Ok (Some image) ->
  stored_entries_kept image (_computer_vision_analysis image_data).
Proof.
  intro Hdecode. unfold _computer_vision_analysis, stored_entries_kept. rewrite Hdecode.
  destruct (_detect_buildings image) as [b|eb];
    [destruct (_detect_vehicles image) as [v|ev];
     [destruct (_analyze_infrastructure image) as [i|ei];
      [destruct (_analyze_area_characteristics image) as [c|ec]|]|]|];
    repeat split; intros;
    repeat match goal with
           | H : Ok _ = Ok _ |- _ => injection H as H; subst
           | H : Raise _ = Raise _ |- _ => injection H as H; subst
           | H : Ok _ = Raise _ |- _ => discriminate H
           | H : Raise _ = Ok _ |- _ => discriminate H
           end; reflexivity.
Qed.

(** C7 (as the code has it).  The computer-vision analysis returns for every
    byte buffer, and the dictionary it returns holds the four feature keys.
    For a buffer the decoder finds no image in, the four entries are empty
    dictionaries, which the scorers read as zero counts and areas, and no
    error marker is set.  The error marker is set when the decoder or a
    detector raises: if it is the decoder, the four entries are empty as
    well; if it is a detector, the entries stored by the stages before it are
    kept, the later ones stay empty, and the marker is absent exactly when
    every stage returned. *)
Theorem computer_vision_analysis_total (image_data : list Byte.byte) :
  let r := _computer_vision_analysis image_data in
  has_feature_keys r
  /\ match imdecode image_data with
     | Ok None => r = initial_analysis /\ reads_as_zero r /\ vf_error r = None
     | Raise e => r = set_error e initial_analysis /\ reads_as_zero r
                  /\ vf_error r = Some e
     | Ok (Some image) =>
         (vf_error r = None <-> all_stages_return image)
         /\ stored_entries_kept image r
     end.
Proof.
  cbv zeta. split; [apply analysis_has_feature_keys|].
  destruct (imdecode image_data) as [[image|]|e] eqn:Hdecode.
  - split; [now apply decoded_image_error_marker | now apply decoded_image_entries_kept].
  - unfold _computer_vision_analysis. rewrite Hdecode.
    repeat split.
  - unfold _computer_vision_analysis. rewrite Hdecode.
    repeat split.
Qed.

End ComputerVisionAnalysis.

Lemma computer_vision_analysis_total_witness :
  @SatelliteAnalyzer._computer_vision_analysis MeasuredCV2.undecodable [Byte.x00; Byte.x01]
  = SatelliteAnalyzer.initial_analysis.
Proof.
  apply (@computer_vision_analysis_total MeasuredCV2.undecodable [Byte.x00; Byte.x01]).
Defined.

(** C7 (the claim fails).  For a buffer that holds no image the returned
    dictionary carries no error marker. *)
Lemma undecodable_image_not_marked :
  @SatelliteAnalyzer.imdecode MeasuredCV2.undecodable [Byte.x00; Byte.x01] = Ok None
  /\ ~ (exists e,
          vf_error (@SatelliteAnalyzer._computer_vision_analysis
                      MeasuredCV2.undecodable [Byte.x00; Byte.x01]) = Some e).
Proof.
  split; [reflexivity|].
  intros [e H]. vm_compute in H. discriminate.
Qed.

(** An image on which the building detector returns one building and the
    vehicle detector divides by a zero height: the dictionary keeps the
    buildings, carries the message of the exception, and its three later
    entries are still empty. *)
Lemma failed_vehicle_detector_keeps_buildings :
  let cv := MeasuredCV2.decoding MeasuredCV2.building_and_flat_spot in
  let r := @SatelliteAnalyzer._computer_vision_analysis cv [Byte.x00] in
  @SatelliteAnalyzer._detect_buildings cv MeasuredCV2.building_and_flat_spot
    = Ok (py_get empty_building_detection (building_detection r))
  /\ py_get None (option_map building_count (building_detection r)) = Some 1%Z
  /\ vf_error r = Some "float division by zero"
  /\ vehicle_detection r = Some empty_vehicle_detection
  /\ infrastructure_features r = Some empty_infrastructure_features
  /\ area_characteristics r = Some empty_area_characteristics.
Proof. vm_compute. repeat split. Qed.

(** ** Further properties of the address scorer *)

(** The Boolean comparisons respect the equality of rationals. *)
Lemma Qlt_bool_compat (x y z : Q) : x == y -> Qlt_bool x z = Qlt_bool y z.
Proof. intro H. unfold Qlt_bool. now rewrite H. Qed.

(** The band of a score in the rating of the address scorer. *)
Lemma address_quality_bands (a : AddressData) (bt : string) :
  py_get false (is_valid a) = true ->
  let r := _analyze_address_risk a bt in
  quality_rating r
  = if Qlt_bool (risk_score r) 0.2 then "EXCELLENT"
    else if Qlt_bool (risk_score r) 0.4 then "GOOD" else "POOR".
Proof.
  intro Hvalid. unfold _analyze_address_risk. cbv zeta. rewrite Hvalid. cbn [negb].
  match goal with
  | |- context [set_quality "EXCELLENT" ?d] => generalize d
  end.
  intro pre.
  destruct (Qlt_bool (risk_score pre) 0.2) eqn:E1; read_score.
  - rewrite E1. reflexivity.
  - destruct (Qlt_bool (risk_score pre) 0.4) eqn:E2; read_score; rewrite E1, E2; reflexivity.
Qed.

(** The score of a valid address: 0.4 for a residential location, 0.1 for
    the commercial mismatch, 0.3 for the remote office. *)
Lemma address_score_formula (a : AddressData) (bt : string) :
  py_get false (is_valid a) = true ->
  let loc := py_get "unknown" (location_type a) in
  let neighborhood := py_get "unknown" (neighborhood_context a) in
  risk_score (_analyze_address_risk a bt)
  == (if String.eqb loc "residential" then 0.4
      else if String.eqb loc "commercial" && String.eqb (lower bt) "manufacturing"
           then 0.1 else 0)
     + (if (String.eqb neighborhood "remote" || String.eqb neighborhood "rural")
           && py_in bt ["technology"; "consulting"]
        then 0.3 else 0).
Proof.
  intros Hvalid loc neighborhood.
  rewrite <- (mismatch_branch_condition loc bt).
  unfold _analyze_address_risk. cbv zeta. rewrite Hvalid. cbn [negb].
  fold loc. fold neighborhood.
  match goal with
  | |- context [py_any ?p ?l] => generalize (py_any p l)
  end.
  intro amenity.
  destruct (String.eqb loc "residential");
    destruct (py_in loc (_get_expected_locations bt));
    destruct (String.eqb loc "commercial" && negb (py_in bt ["technology"; "consulting"]));
    destruct (String.eqb neighborhood "remote" || String.eqb neighborhood "rural");
    destruct (py_in bt ["technology"; "consulting"]);
    destruct amenity;
    cbn [negb andb]; read_score;
    repeat match goal with
           | |- context [Qlt_bool ?x ?y] => destruct (Qlt_bool x y)
           end; read_score; lra.
Qed.

(** X1.  The rating of a valid address is POOR exactly for a residential
    location, GOOD exactly for a technology or consulting business at a
    remote or rural location that is not residential, and EXCELLENT
    otherwise. *)
Theorem address_quality_of_valid_address (a : AddressData) (bt : string) :
  py_get false (is_valid a) = true ->
  let loc := py_get "unknown" (location_type a) in
  let neighborhood := py_get "unknown" (neighborhood_context a) in
  let remote_office :=
    (neighborhood = "remote" \/ neighborhood = "rural")
    /\ In bt ["technology"; "consulting"] in
  let q := quality_rating (_analyze_address_risk a bt) in
  (q = "POOR" <-> loc = "residential")
  /\ (q = "GOOD" <-> loc <> "residential" /\ remote_office)
  /\ (q = "EXCELLENT" <-> loc <> "residential" /\ ~ remote_office).
Proof.
  intros Hvalid loc neighborhood remote_office q.
  pose proof (address_quality_bands a bt Hvalid) as Hq.
  pose proof (address_score_formula a bt Hvalid) as Hs.
  cbv zeta in Hq, Hs. fold loc neighborhood in Hs. fold q in Hq.
  rewrite !(Qlt_bool_compat _ _ _ Hs) in Hq. clear Hs. clearbody q.
  assert (Hoffice : (String.eqb neighborhood "remote" || String.eqb neighborhood "rural")
                    && py_in bt ["technology"; "consulting"] = true <-> remote_office).
  { unfold remote_office.
    rewrite andb_true_iff, orb_true_iff, !String.eqb_eq, py_in_In. reflexivity. }
  clearbody remote_office.
  assert (Hexcl : String.eqb loc "commercial" && String.eqb (lower bt) "manufacturing" = true ->
                  py_in bt ["technology"; "consulting"] = false).
  { rewrite andb_true_iff, !String.eqb_eq. intros [_ H].
    now apply manufacturing_not_office_type. }
  assert (Hdecide : forall b : bool, (b = true <-> remote_office) ->
                    (b = true /\ remote_office) \/ (b = false /\ ~ remote_office)).
  { intros [|] Hb; [left | right]; split; try reflexivity; try tauto.
    intro H'. apply Hb in H'. discriminate. }
  destruct (String.eqb loc "residential") eqn:Hloc;
    [apply String.eqb_eq in Hloc | apply String.eqb_neq in Hloc].
  - destruct (Hdecide _ Hoffice) as [[Hb Hro]|[Hb Hro]]; rewrite Hb in Hq;
      vm_compute in Hq; rewrite Hq;
      repeat split; intros; try discriminate; try assumption; tauto.
  - destruct (String.eqb loc "commercial" && String.eqb (lower bt) "manufacturing").
    + rewrite (Hexcl eq_refl) in Hq, Hoffice. rewrite andb_false_r in Hq, Hoffice.
      destruct (Hdecide _ Hoffice) as [[Hb Hro]|[Hb Hro]]; [discriminate|].
      vm_compute in Hq. rewrite Hq.
      repeat split; intros; try discriminate; try assumption; tauto.
    + destruct (Hdecide _ Hoffice) as [[Hb Hro]|[Hb Hro]]; rewrite Hb in Hq;
        vm_compute in Hq; rewrite Hq;
        repeat split; intros; try discriminate; try assumption; tauto.
Qed.

Lemma address_quality_of_valid_address_witness :
  quality_rating (_analyze_address_risk (Scenario.valid_address "residential" "urban")
                                        "technology") = "POOR"
  <-> "residential" = "residential".
Proof.
  apply (address_quality_of_valid_address
           (Scenario.valid_address "residential" "urban") "technology").
  reflexivity.
Defined.

(** X2.  The amenities around a valid or invalid address change neither the
    risk score, nor the risk factors, nor the rating of the address scorer;
    they add the positive factor exactly when the address is valid and one
    of them is a bank, an office, commercial or industrial. *)
Theorem amenities_only_add_positive_factor
    (a : AddressData) (amenities : option (list string)) (bt : string) :
  let r := _analyze_address_risk a bt in
  let r' := _analyze_address_risk (with_amenities amenities a) bt in
  risk_score r' = risk_score r
  /\ risk_factors r' = risk_factors r
  /\ quality_rating r' = quality_rating r
  /\ (In "Business-supporting amenities nearby" (positive_factors r')
      <-> py_get false (is_valid a) = true
          /\ exists amenity, In amenity (py_get [] amenities)
                             /\ In amenity ["bank"; "office"; "commercial"; "industrial"]).
Proof.
  cbv zeta.
  assert (Hany : forall l,
             py_any (fun amenity => py_in amenity ["bank"; "office"; "commercial"; "industrial"]) l
             = true
             <-> exists amenity, In amenity l
                                 /\ In amenity ["bank"; "office"; "commercial"; "industrial"]).
  { intro l. unfold py_any. rewrite existsb_exists.
    split; intros (x & Hx & Hin); exists x; (split; [assumption|]); now apply py_in_In. }
  rewrite <- Hany. clear Hany.
  unfold _analyze_address_risk. cbv zeta.
  cbn [with_amenities is_valid location_type neighborhood_context nearby_amenities].
  destruct (py_get false (is_valid a)); cbn [negb].
  2:{ split; [reflexivity|]. split; [reflexivity|]. split; [reflexivity|].
      split; [intros [] | intros [E _]; discriminate E]. }
  generalize (py_any (fun amenity => py_in amenity ["bank"; "office"; "commercial"; "industrial"])
                     (py_get [] (nearby_amenities a))).
  generalize (py_any (fun amenity => py_in amenity ["bank"; "office"; "commercial"; "industrial"])
                     (py_get [] amenities)).
  intros new old.
  assert (Hpre : forall pre : SignalScore,
             let finish d :=
               if Qlt_bool (risk_score d) 0.2 then set_quality "EXCELLENT" d
               else if Qlt_bool (risk_score d) 0.4 then set_quality "GOOD" d
               else set_quality "POOR" d in
             let step (b : bool) :=
               finish (if b then add_positive "Business-supporting amenities nearby" pre
                       else pre) in
             risk_score (step new) = risk_score (step old)
             /\ risk_factors (step new) = risk_factors (step old)
             /\ quality_rating (step new) = quality_rating (step old)
             /\ (~ In "Business-supporting amenities nearby" (positive_factors pre) ->
                 (In "Business-supporting amenities nearby" (positive_factors (step new))
                  <-> new = true))).
  { intro pre. cbv zeta.
    destruct new, old; read_score;
      destruct (Qlt_bool (risk_score pre) 0.2); read_score;
      try destruct (Qlt_bool (risk_score pre) 0.4); read_score;
      (repeat split; try reflexivity; intros; try tauto; try discriminate;
       try (apply in_or_app; right; left; reflexivity)). }
  match goal with
  | |- context [add_positive "Business-supporting amenities nearby" ?d] =>
      specialize (Hpre d); cbv zeta in Hpre;
      destruct Hpre as (H1 & H2 & H3 & H4)
  end.
  split; [assumption|]. split; [assumption|]. split; [assumption|].
  rewrite H4; [tauto|]. clear.
  split_branches; read_score; cbn [app In]; intuition discriminate.
Qed.

(** ** Further properties of the satellite scorer *)

(** The score of a completed analysis is the score without risk indicators
    plus the amount of the indicators. *)
Lemma satellite_score_split (s : SatelliteData) (risks : list string) (bt : string) :
  py_get false (analysis_completed s) = true ->
  risk_score (_analyze_satellite_risk (with_risk_indicators (Some risks) s) bt)
  == risk_score (_analyze_satellite_risk (with_risk_indicators (Some []) s) bt)
     + match risks with
       | [] => 0
       | _ :: _ => py_min 0.4 (inject_Z (len risks) * 0.1)
       end.
Proof.
  intro Hdone. unfold _analyze_satellite_risk. cbv zeta.
  cbn [with_risk_indicators analysis_completed visual_features infrastructure_assessment
       risk_indicators py_get].
  destruct (analysis_completed s) as [[|]|]; try discriminate. cbn [py_get negb].
  match goal with
  | |- context [add_risks _ _ ?d] => generalize d
  end.
  intro pre.
  destruct risks as [|x risks]; read_score;
    repeat match goal with
           | |- context [if ?c then _ else _] => destruct c
           end; read_score; lra.
Qed.

Lemma risk_amount_monotone (r1 r2 : list string) :
  (List.length r1 <= List.length r2)%nat ->
  match r1 with [] => 0 | _ :: _ => py_min 0.4 (inject_Z (len r1) * 0.1) end
  <= match r2 with [] => 0 | _ :: _ => py_min 0.4 (inject_Z (len r2) * 0.1) end.
Proof.
  intro H.
  destruct r1 as [|x r1].
  - destruct r2; [lra | apply risk_indicator_amount_bounds].
  - destruct r2 as [|y r2]; [cbn in H; lia|].
    apply py_min_monotone.
    assert (inject_Z (len (x :: r1)) <= inject_Z (len (y :: r2))).
    { rewrite <- Zle_Qle. unfold len. lia. }
    lra.
Qed.

Lemma risk_amount_saturated (r : list string) :
  (4 <= List.length r)%nat ->
  match r with [] => 0 | _ :: _ => py_min 0.4 (inject_Z (len r) * 0.1) end == 0.4.
Proof.
  intro H. destruct r as [|x r]; [cbn in H; lia|].
  assert (4 <= inject_Z (len (x :: r))).
  { rewrite <- (Zle_Qle 4). unfold len. lia. }
  destruct (py_min_spec 0.4 (inject_Z (len (x :: r)) * 0.1)) as [[Hlt ->]|[Hle ->]]; lra.
Qed.

(** X3.  For a completed satellite analysis, a longer list of risk
    indicators never gives a lower satellite score, each indicator up to the
    fourth adds 0.1, and from four indicators on the score does not change. *)
Theorem satellite_score_in_risk_indicators
    (s : SatelliteData) (r1 r2 : list string) (bt : string) :
  py_get false (analysis_completed s) = true ->
  (List.length r1 <= List.length r2)%nat ->
  let score risks :=
    risk_score (_analyze_satellite_risk (with_risk_indicators (Some risks) s) bt) in
  score r1 <= score r2
  /\ ((List.length r1 <= 4)%nat ->
      score r1 == score [] + inject_Z (len r1) * 0.1)
  /\ ((4 <= List.length r1)%nat -> score r1 == score r2).
Proof.
  intros Hdone Hlen score. unfold score.
  rewrite (satellite_score_split s r1 bt Hdone), (satellite_score_split s r2 bt Hdone).
  pose proof (risk_amount_monotone r1 r2 Hlen).
  split; [lra|]. split.
  - intro H4. apply Qplus_inj_l.
    destruct r1 as [|x r1]; [reflexivity|].
    assert (inject_Z (len (x :: r1)) <= 4).
    { rewrite <- (Zle_Qle _ 4). unfold len. cbn [List.length] in *. lia. }
    destruct (py_min_spec 0.4 (inject_Z (len (x :: r1)) * 0.1)) as [[Hlt ->]|[Hle ->]]; lra.
  - intro H4.
    rewrite (risk_amount_saturated r1 H4), (risk_amount_saturated r2) by lia.
    reflexivity.
Qed.

Lemma satellite_score_in_risk_indicators_witness :
  risk_score (_analyze_satellite_risk
                (with_risk_indicators (Some ["empty lot"]) Scenario.clean_site) "retail")
  <= risk_score (_analyze_satellite_risk
                   (with_risk_indicators (Some ["empty lot"; "facade"]) Scenario.clean_site)
                   "retail").
Proof.
  apply (satellite_score_in_risk_indicators
           Scenario.clean_site ["empty lot"] ["empty lot"; "facade"] "retail").
  - reflexivity.
  - cbn. lia.
Defined.

(** X4.  The satellite scorer lists at most three of the risk indicators:
    its risk factors are at most six and its positive factors at most
    three. *)
Theorem satellite_factor_counts (s : SatelliteData) (bt : string) :
  (List.length (risk_factors (_analyze_satellite_risk s bt)) <= 6)%nat
  /\ (List.length (positive_factors (_analyze_satellite_risk s bt)) <= 3)%nat.
Proof.
  unfold _analyze_satellite_risk. cbv zeta.
  pose proof (firstn_le_length 3 (py_get [] (risk_indicators s))) as Hcut.
  destruct (py_get [] (risk_indicators s)) as [|x l] eqn:E.
  - split_branches; read_score; cbn [app List.length]; split; lia.
  - unfold slice_to.
    split_branches; read_score; rewrite ?length_app; cbn [app List.length] in *; split; lia.
Qed.

(** ** Further properties of the compatibility scorer *)

Lemma lower_ascii_idempotent (c : ascii) : lower_ascii (lower_ascii c) = lower_ascii c.
Proof. destruct c as [[] [] [] [] [] [] [] []]; reflexivity. Qed.

Lemma lower_idempotent (s : string) : lower (lower s) = lower s.
Proof.
  induction s as [|c s IH]; [reflexivity|].
  cbn [lower]. now rewrite lower_ascii_idempotent, IH.
Qed.

Section SameOutcome.

Variables (d d' : SignalScore).
Hypothesis same : same_outcome d d'.

Lemma same_outcome_add_risk (c : bool) (amount : Q) (f f' : string) :
  same_outcome (if c then add_risk amount f d else d)
               (if c then add_risk amount f' d' else d').
Proof.
  destruct same as (Hs & Hq & Hp & Hl).
  destruct c; [|assumption].
  unfold same_outcome. read_score. rewrite !length_app, Hs, Hl. tauto.
Qed.

Lemma same_outcome_size_rule (c1 c2 : bool) (amount : Q) (f p : string) :
  same_outcome (if c1 then if c2 then add_risk amount f d else add_positive p d else d)
               (if c1 then if c2 then add_risk amount f d' else add_positive p d' else d').
Proof.
  destruct same as (Hs & Hq & Hp & Hl).
  destruct c1; [|assumption].
  destruct c2; unfold same_outcome; read_score; rewrite ?length_app, Hs, Hl, ?Hp; tauto.
Qed.

Lemma same_outcome_vehicle_rule (c1 c2 : bool) (amount : Q) (f : string) :
  same_outcome (if c1 then if c2 then add_risk amount f d else d else d)
               (if c1 then if c2 then add_risk amount f d' else d' else d').
Proof.
  destruct same as (Hs & Hq & Hp & Hl).
  destruct c1; [|assumption].
  destruct c2; [|assumption].
  unfold same_outcome; read_score; rewrite ?length_app, Hs, Hl; tauto.
Qed.

Lemma same_outcome_rating :
  same_outcome
    (if Qlt_bool (risk_score d) 0.15 then set_quality "EXCELLENT" d
     else if Qlt_bool (risk_score d) 0.35 then set_quality "GOOD" d
     else if Qlt_bool (risk_score d) 0.55 then set_quality "QUESTIONABLE" d
     else set_quality "POOR" d)
    (if Qlt_bool (risk_score d') 0.15 then set_quality "EXCELLENT" d'
     else if Qlt_bool (risk_score d') 0.35 then set_quality "GOOD" d'
     else if Qlt_bool (risk_score d') 0.55 then set_quality "QUESTIONABLE" d'
     else set_quality "POOR" d').
Proof.
  destruct same as (Hs & Hq & Hp & Hl). rewrite <- Hs.
  destruct (Qlt_bool (risk_score d) 0.15);
    [|destruct (Qlt_bool (risk_score d) 0.35);
      [|destruct (Qlt_bool (risk_score d) 0.55)]];
    unfold same_outcome; read_score; tauto.
Qed.

End SameOutcome.

(** X5.  The compatibility scorer reads the business type through
    [lower()] only: the score, the rating, the positive factors and the
    number of risk factors are the same for a business type and for its
    lowercased form. *)
Theorem compatibility_ignores_case
    (a : AddressData) (s : SatelliteData) (bt da : string) :
  same_outcome (_analyze_business_compatibility a s (lower bt) da)
               (_analyze_business_compatibility a s bt da).
Proof.
  unfold _analyze_business_compatibility. cbv zeta.
  rewrite lower_idempotent.
  apply same_outcome_rating.
  apply same_outcome_vehicle_rule.
  apply same_outcome_size_rule.
  apply same_outcome_add_risk.
  apply same_outcome_add_risk.
  repeat split.
Qed.

Lemma py_in_false (x : string) (l : list string) : ~ In x l -> py_in x l = false.
Proof.
  intro H. destruct (py_in x l) eqn:E; [|reflexivity].
  apply py_in_In in E. contradiction.
Qed.

(** X6.  For a business type that is, lowercased, none of logistics,
    manufacturing, transport, technology and consulting, the compatibility
    scorer applies no rule: the score is 0, both factor lists are empty and
    the rating is EXCELLENT, whatever the address and the imagery. *)
Theorem compatibility_of_other_types
    (a : AddressData) (s : SatelliteData) (bt da : string) :
  ~ In (lower bt) ["logistics"; "manufacturing"; "transport"; "technology"; "consulting"] ->
  _analyze_business_compatibility a s bt da
  = {| risk_score := 0.0; risk_factors := []; positive_factors := [];
       quality_rating := "EXCELLENT"; sig_confidence_score := None |}.
Proof.
  intro H.
  assert (H1 : py_in (lower bt) ["logistics"; "manufacturing"] = false)
    by (apply py_in_false; intro Hin; apply H; cbn [In] in *; tauto).
  assert (H2 : py_in (lower bt) ["technology"; "consulting"] = false)
    by (apply py_in_false; intro Hin; apply H; cbn [In] in *; tauto).
  assert (H3 : py_in (lower bt) ["logistics"; "transport"] = false)
    by (apply py_in_false; intro Hin; apply H; cbn [In] in *; tauto).
  unfold _analyze_business_compatibility. cbv zeta.
  rewrite H1, H2, H3. reflexivity.
Qed.

Lemma compatibility_of_other_types_witness :
  risk_score (_analyze_business_compatibility
                (Scenario.valid_address "residential" "urban") Scenario.empty_plot
                "Construction" "Civil works") = 0.0.
Proof.
  rewrite (compatibility_of_other_types
             (Scenario.valid_address "residential" "urban") Scenario.empty_plot
             "Construction" "Civil works").
  - reflexivity.
  - cbn. intuition discriminate.
Defined.

(** ** Further properties of the fusion and of the classification *)

(** X7.  The verdict of the full analysis is one of three pairs, chosen by
    the overall score: HIGH with BLOCK when the score reaches the high
    threshold, MEDIUM with MANUAL_REVIEW when it is below the high threshold
    and reaches the medium one, LOW with AUTO_APPROVE when it is below both.
    The level is never UNKNOWN. *)
Theorem verdict_partition
    (self : t) (now cnpj : string) (a : AddressData) (s : SatelliteData) (bt da : string) :
  let r := analyze_comprehensive_risk self now cnpj a s bt da in
  let score := RiskAssessment.overall_risk_score r in
  let level := RiskAssessment.risk_level r in
  let advice := RiskAssessment.recommendation r in
  (level = HIGH /\ advice = BLOCK /\ high_risk_threshold self <= score)
  \/ (level = MEDIUM /\ advice = MANUAL_REVIEW
      /\ score < high_risk_threshold self /\ medium_risk_threshold self <= score)
  \/ (level = LOW /\ advice = AUTO_APPROVE
      /\ score < high_risk_threshold self /\ score < medium_risk_threshold self).
Proof.
  cbv zeta.
  pose proof (verdict_of_analysis self now cnpj a s bt da) as Hv. cbv zeta in Hv.
  revert Hv.
  generalize (RiskAssessment.overall_risk_score
                (analyze_comprehensive_risk self now cnpj a s bt da)).
  generalize (RiskAssessment.risk_level (analyze_comprehensive_risk self now cnpj a s bt da)).
  generalize (RiskAssessment.recommendation
                (analyze_comprehensive_risk self now cnpj a s bt da)).
  intros advice level score. unfold classify.
  destruct (Qge_bool score (high_risk_threshold self)) eqn:Eh.
  - intro Hv. inversion Hv. left. apply Qge_bool_iff in Eh. tauto.
  - apply Qge_bool_false_iff in Eh.
    destruct (Qge_bool score (medium_risk_threshold self)) eqn:Em; intro Hv; inversion Hv.
    + right; left. apply Qge_bool_iff in Em. tauto.
    + right; right. apply Qge_bool_false_iff in Em. tauto.
Qed.

(** X8.  Fusion followed by classification is monotone, for any pair of
    thresholds: raising partial risk scores, with the confidence key
    unchanged, never gives a lower risk level. *)
Theorem risk_level_monotone (self : t) (a a' s s' c c' : SignalScore) :
  risk_score a <= risk_score a' ->
  risk_score s <= risk_score s' ->
  risk_score c <= risk_score c' ->
  sig_confidence_score s = sig_confidence_score s' ->
  (level_rank (fst (classify self (_calculate_overall_risk_score a s c)))
   <= level_rank (fst (classify self (_calculate_overall_risk_score a' s' c'))))%nat.
Proof.
  intros Ha Hs Hc Hconf.
  assert (Hle : _calculate_overall_risk_score a s c <= _calculate_overall_risk_score a' s' c').
  { unfold _calculate_overall_risk_score. apply py_min_monotone.
    unfold unclamped_overall_risk_score. cbv zeta. rewrite <- Hconf.
    pose proof (weighted_average_monotone a a' s s' c c' Ha Hs Hc).
    destruct (Qlt_bool _ _); lra. }
  revert Hle.
  generalize (_calculate_overall_risk_score a s c).
  generalize (_calculate_overall_risk_score a' s' c').
  intros y x Hle. unfold classify.
  destruct (Qge_bool x (high_risk_threshold self)) eqn:Exh;
    destruct (Qge_bool y (high_risk_threshold self)) eqn:Eyh;
    destruct (Qge_bool x (medium_risk_threshold self)) eqn:Exm;
    destruct (Qge_bool y (medium_risk_threshold self)) eqn:Eym;
    cbn [fst level_rank]; try lia;
    repeat match goal with
           | H : Qge_bool _ _ = true |- _ => apply Qge_bool_iff in H
           | H : Qge_bool _ _ = false |- _ => apply Qge_bool_false_iff in H
           end; exfalso; lra.
Qed.

Lemma risk_level_monotone_witness :
  (level_rank (fst (classify default
                      (_calculate_overall_risk_score
                         (set_risk_score 0.4 initial_signal)
                         (set_risk_score 0.2 initial_signal) initial_signal)))
   <= level_rank (fst (classify default
                         (_calculate_overall_risk_score
                            (set_risk_score 0.9 initial_signal)
                            (set_risk_score 1.4 initial_signal) initial_signal))))%nat.
Proof.
  apply risk_level_monotone.
  - vm_compute. discriminate.
  - vm_compute. discriminate.
  - apply Qle_refl.
  - reflexivity.
Defined.

(** The confidence level of the analysis is the mean of three terms. *)
Lemma confidence_level_of_analysis
    (self : t) (now cnpj : string) (a : AddressData) (s : SatelliteData) (bt da : string) :
  RiskAssessment.confidence_level (analyze_comprehensive_risk self now cnpj a s bt da)
  == ((if py_get false (is_valid a) then 0.8 else 0.3)
      + py_get 0.5 (confidence_score s)
      + (if py_get false (analysis_completed s) then 0.9 else 0.4)) / 3.
Proof.
  unfold analyze_comprehensive_risk.
  generalize (_analyze_business_compatibility a s bt da).
  generalize (_analyze_satellite_risk s bt).
  generalize (_analyze_address_risk a bt).
  intros x y z. cbv zeta.
  generalize (_calculate_overall_risk_score x y z). intro score.
  unfold update. cbn [RiskAssessment.confidence_level].
  unfold _generate_final_assessment.
  destruct (collect_factors _) as [rf pf]. destruct (classify self score) as [lvl adv].
  cbn [fa_confidence_level].
  unfold _calculate_confidence_level, set_detailed, initial_result.
  cbn [RiskAssessment.address_validation RiskAssessment.satellite_analysis].
  unfold py_sum, len. cbn [app fold_left List.length Z.of_nat Pos.of_succ_nat Pos.succ].
  change (inject_Z 3) with 3.
  field.
Qed.

(** X10.  For a satellite confidence between 0 and 1, or absent, the
    confidence level of the assessment stays strictly between 0.23 and 0.91;
    it stays below 0.74 for an invalid address, below 0.74 when the satellite
    analysis was not completed, and below 0.57 when both hold. *)
Theorem confidence_level_bounds
    (self : t) (now cnpj : string) (a : AddressData) (s : SatelliteData) (bt da : string) :
  0 <= py_get 0.5 (confidence_score s) <= 1 ->
  let level :=
    RiskAssessment.confidence_level (analyze_comprehensive_risk self now cnpj a s bt da) in
  (0.23 < level /\ level < 0.91)
  /\ (py_get false (is_valid a) = false -> level < 0.74)
  /\ (py_get false (analysis_completed s) = false -> level < 0.74)
  /\ (py_get false (is_valid a) = false ->
      py_get false (analysis_completed s) = false -> level < 0.57).
Proof.
  intros Hc level. unfold level. rewrite confidence_level_of_analysis.
  assert (Hthird : forall x : Q, x / 3 == x * (1 # 3)) by (intro x; field).
  rewrite Hthird. clear Hthird.
  destruct (py_get false (is_valid a)); destruct (py_get false (analysis_completed s));
    repeat split; intros; try discriminate; lra.
Qed.

Lemma confidence_level_bounds_witness :
  0.23 < RiskAssessment.confidence_level Scenario.invalid_address_clean_site
  /\ RiskAssessment.confidence_level Scenario.invalid_address_clean_site < 0.91.
Proof.
  apply (confidence_level_bounds
           default "2024-05-01T10:00:00" "12.345.678/0001-90"
           Scenario.invalid_address Scenario.clean_site "technology" "Software development").
  vm_compute. split; discriminate.
Defined.

(** ** Vehicle detection *)

Section VehicleDetection.

Context {cv : SatelliteAnalyzer.CV2}.

Import SatelliteAnalyzer.

Lemma vehicle_like_iff (contour : Contour) :
  vehicle_like contour = true
  <-> (50 < contourArea contour /\ contourArea contour < 500)
      /\ (0.5 < aspect_ratio contour /\ aspect_ratio contour < 3.0).
Proof.
  unfold vehicle_like. rewrite !andb_true_iff, !Qlt_bool_iff. reflexivity.
Qed.

(** One turn of the loop, for a contour whose bounding box has a height. *)
Lemma collect_vehicles_cons (c : Contour) (rest : list Contour) :
  (50 < contourArea c -> contourArea c < 500 -> box_height c <> 0%Z) ->
  collect_vehicles (c :: rest)
  = if vehicle_like c
    then vehicles <- collect_vehicles rest ;; Ok (describe_vehicle c :: vehicles)
    else collect_vehicles rest.
Proof.
  intro Hheight. cbn [collect_vehicles]. cbv zeta.
  unfold vehicle_like, describe_vehicle, aspect_ratio, box_height in *.
  destruct (boundingRect c) as [[[x y] w] h].
  destruct (Qlt_bool 50 (contourArea c)) eqn:Elo; cbn [andb]; [|reflexivity].
  destruct (Qlt_bool (contourArea c) 500) eqn:Ehi; cbn [andb]; [|reflexivity].
  apply Qlt_bool_iff in Elo. apply Qlt_bool_iff in Ehi.
  specialize (Hheight Elo Ehi).
  destruct (Z.eqb_spec h 0) as [E|_]; [contradiction|].
  reflexivity.
Qed.

(** When every contour of vehicle size has a bounding box of non-zero
    height, the loop returns the contours that pass the two tests, in the
    order of detection. *)
Lemma collect_vehicles_filter (contours : list Contour) :
  (forall c, In c contours ->
             50 < contourArea c -> contourArea c < 500 -> box_height c <> 0%Z) ->
  collect_vehicles contours = Ok (map describe_vehicle (filter vehicle_like contours)).
Proof.
  induction contours as [|c rest IH]; intro Hheight; [reflexivity|].
  rewrite collect_vehicles_cons by (apply Hheight; now left).
  rewrite IH by (intros c' Hin; apply Hheight; now right).
  cbn [filter bind]. destruct (vehicle_like c); reflexivity.
Qed.

(** A contour of vehicle size whose bounding box has no height makes the
    loop raise, whatever follows it. *)
Lemma collect_vehicles_zero_height (c : Contour) (rest : list Contour) :
  50 < contourArea c -> contourArea c < 500 -> box_height c = 0%Z ->
  collect_vehicles (c :: rest) = Raise "float division by zero".
Proof.
  intros Hlo Hhi Hh. cbn [collect_vehicles]. cbv zeta.
  unfold box_height in Hh. destruct (boundingRect c) as [[[x y] w] h].
  apply Qlt_bool_iff in Hlo. apply Qlt_bool_iff in Hhi. rewrite Hlo, Hhi. cbn [andb].
  subst h. reflexivity.
Qed.

(** X11.  When the bright contours of the image are found and every contour
    of vehicle size has a bounding box of non-zero height, vehicle detection
    returns; the vehicles are the contours with an area strictly between 50
    and 500 and an aspect ratio strictly between 0.5 and 3.0, in the order of
    detection, all of them listed, and the count is their number. *)
Theorem vehicle_detection_report (image : Image) (contours : list Contour) :
  bright_contours image = Ok contours ->
  (forall c, In c contours ->
             50 < contourArea c -> contourArea c < 500 -> box_height c <> 0%Z) ->
  let kept := filter vehicle_like contours in
  _detect_vehicles image
  = Ok {| vehicle_count := Some (len kept);
          vehicles := Some (map describe_vehicle kept) |}
  /\ (forall c, In c kept <->
                In c contours
                /\ (50 < contourArea c /\ contourArea c < 500)
                /\ (0.5 < aspect_ratio c /\ aspect_ratio c < 3.0))
  /\ (len kept <= len contours)%Z.
Proof.
  intros Hcontours Hheight kept.
  split; [|split].
  - unfold _detect_vehicles. rewrite Hcontours. cbn [bind].
    rewrite (collect_vehicles_filter contours Hheight). cbn [bind]. fold kept.
    unfold len. rewrite length_map. reflexivity.
  - intro c. unfold kept. rewrite filter_In, vehicle_like_iff. reflexivity.
  - unfold len, kept. pose proof (filter_length_le vehicle_like contours). lia.
Qed.

End VehicleDetection.

Lemma vehicle_detection_report_witness :
  @SatelliteAnalyzer._detect_vehicles MeasuredCV2.undecodable
    {| MeasuredCV2.m_edge_contours := [];
       MeasuredCV2.m_bright_contours := [MeasuredCV2.square 10; MeasuredCV2.square 40];
       MeasuredCV2.m_lines :=
         {| SatelliteAnalyzer.line_count := None;
            SatelliteAnalyzer.edge_pixels := 0; SatelliteAnalyzer.edge_size := 1 |};
       MeasuredCV2.m_area_statistics :=
         {| SatelliteAnalyzer.vegetation_pixels := 0; SatelliteAnalyzer.water_pixels := 0;
            SatelliteAnalyzer.mask_size := 1; SatelliteAnalyzer.mean_gray := 0 |} |}
  = Ok {| vehicle_count := Some 1%Z;
          vehicles := Some [{| v_area := inject_Z (10 * 10);
                               v_aspect_ratio := inject_Z (10 + 1) / inject_Z (10 + 1);
                               v_position := (0, 0)%Z |}] |}.
Proof.
  apply (@vehicle_detection_report MeasuredCV2.undecodable
           {| MeasuredCV2.m_edge_contours := [];
              MeasuredCV2.m_bright_contours := [MeasuredCV2.square 10; MeasuredCV2.square 40];
              MeasuredCV2.m_lines :=
                {| SatelliteAnalyzer.line_count := None;
                   SatelliteAnalyzer.edge_pixels := 0; SatelliteAnalyzer.edge_size := 1 |};
              MeasuredCV2.m_area_statistics :=
                {| SatelliteAnalyzer.vegetation_pixels := 0;
                   SatelliteAnalyzer.water_pixels := 0;
                   SatelliteAnalyzer.mask_size := 1; SatelliteAnalyzer.mean_gray := 0 |} |}
           [MeasuredCV2.square 10; MeasuredCV2.square 40] eq_refl).
  intros c [<-|[<-|[]]] _ _; vm_compute; discriminate.
Defined.

(** ** Area characteristics and infrastructure density *)

Section AreaCharacteristics.

Context {cv : SatelliteAnalyzer.CV2}.

Import SatelliteAnalyzer.

Lemma py_max_zero_nonneg (x : Q) : 0 <= py_max 0 x.
Proof. apply py_max_ge_l. Qed.

Lemma percentage_bounds (part size : Z) :
  (0 <= part <= size)%Z -> (0 < size)%Z ->
  0 <= inject_Z part / inject_Z size * 100 <= 100.
Proof.
  intros [Hlo Hhi] Hsize.
  assert (Hs : 0 < inject_Z size) by (rewrite <- (Zlt_Qlt 0); assumption).
  assert (Hp : 0 <= inject_Z part) by (rewrite <- (Zle_Qle 0); assumption).
  assert (Hps : inject_Z part <= inject_Z size) by (rewrite <- Zle_Qle; assumption).
  assert (H0 : 0 <= inject_Z part / inject_Z size)
    by (apply Qle_shift_div_l; [assumption | lra]).
  assert (H1 : inject_Z part / inject_Z size <= 1)
    by (apply Qle_shift_div_r; [assumption | lra]).
  lra.
Qed.

(** X12.  The developed share is never negative.  For a non-empty image
    whose vegetation and water pixels are counted among its pixels, the
    vegetation, water and developed percentages all lie between 0 and 100. *)
Theorem area_percentages_in_range (image : Image) (stats : AreaStatistics) :
  area_statistics image = Ok stats ->
  exists r vegetation water developed,
    _analyze_area_characteristics image = Ok r
    /\ vegetation_percentage r = Some vegetation
    /\ water_percentage r = Some water
    /\ developed_area_percentage r = Some developed
    /\ average_brightness r = Some (mean_gray stats)
    /\ 0 <= developed
    /\ ((0 < mask_size stats)%Z ->
        (0 <= vegetation_pixels stats <= mask_size stats)%Z ->
        (0 <= water_pixels stats <= mask_size stats)%Z ->
        (0 <= vegetation <= 100) /\ (0 <= water <= 100) /\ (0 <= developed <= 100)).
Proof.
  intro Hstats. unfold _analyze_area_characteristics. rewrite Hstats. cbn [bind]. cbv zeta.
  eexists. eexists. eexists. eexists.
  split; [reflexivity|]. cbn [vegetation_percentage water_percentage
                                developed_area_percentage average_brightness].
  split; [reflexivity|]. split; [reflexivity|]. split; [reflexivity|].
  split; [reflexivity|]. split; [apply py_max_zero_nonneg|].
  intros Hsize Hveg Hwater.
  pose proof (percentage_bounds _ _ Hveg Hsize) as Hv.
  pose proof (percentage_bounds _ _ Hwater Hsize) as Hw.
  set (v := inject_Z (vegetation_pixels stats) / inject_Z (mask_size stats) * 100) in *.
  set (w := inject_Z (water_pixels stats) / inject_Z (mask_size stats) * 100) in *.
  split; [exact Hv|]. split; [exact Hw|]. split; [apply py_max_zero_nonneg|].
  unfold py_max. destruct (Qgt_bool (100 - v - w) 0); lra.
Qed.

(** X13.  The infrastructure analysis reports no line when the Hough
    transform returns [None], and an edge density between 0 and 1 whenever
    the edge pixels are counted among the pixels of a non-empty image. *)
Theorem infrastructure_density_bounds (image : Image) (stats : LineStatistics) :
  hough_lines image = Ok stats ->
  exists r density,
    _analyze_infrastructure image = Ok r
    /\ infrastructure_density r = Some density
    /\ detected_lines r = Some (py_get 0%Z (line_count stats))
    /\ (line_count stats = None -> detected_lines r = Some 0%Z)
    /\ ((0 <= edge_pixels stats <= edge_size stats)%Z -> (0 < edge_size stats)%Z ->
        0 <= density <= 1).
Proof.
  intro Hstats. unfold _analyze_infrastructure. rewrite Hstats. cbn [bind].
  eexists. eexists. split; [reflexivity|].
  cbn [infrastructure_density detected_lines].
  split; [reflexivity|]. split; [reflexivity|]. split.
  - intros ->. reflexivity.
  - intros Hedge Hsize.
    pose proof (percentage_bounds _ _ Hedge Hsize). lra.
Qed.

End AreaCharacteristics.

Lemma area_percentages_in_range_witness :
  exists r,
    @SatelliteAnalyzer._analyze_area_characteristics MeasuredCV2.undecodable
      (MeasuredCV2.image_of []) = Ok r.
Proof.
  destruct (@area_percentages_in_range MeasuredCV2.undecodable
              (MeasuredCV2.image_of [])
              {| SatelliteAnalyzer.vegetation_pixels := 0; SatelliteAnalyzer.water_pixels := 0;
                 SatelliteAnalyzer.mask_size := 1; SatelliteAnalyzer.mean_gray := 0 |}
              eq_refl) as (r & _ & _ & _ & Hr & _).
  exists r. exact Hr.
Defined.

Lemma infrastructure_density_bounds_witness :
  exists r,
    @SatelliteAnalyzer._analyze_infrastructure MeasuredCV2.undecodable
      (MeasuredCV2.image_of []) = Ok r.
Proof.
  destruct (@infrastructure_density_bounds MeasuredCV2.undecodable
              (MeasuredCV2.image_of [])
              {| SatelliteAnalyzer.line_count := None;
                 SatelliteAnalyzer.edge_pixels := 0; SatelliteAnalyzer.edge_size := 1 |}
              eq_refl) as (r & _ & Hr & _).
  exists r. exact Hr.
Defined.

(** ** The AI contextual analysis *)

Section AIResponse.

Import SatelliteAnalyzer.

Lemma positive_share_bounds (n : Z) :
  (0 <= n)%Z ->
  0.5 <= py_min 1.0 (inject_Z n * 0.2 + 0.5) <= 1
  /\ (py_min 1.0 (inject_Z n * 0.2 + 0.5) == 1 <-> (3 <= n)%Z).
Proof.
  intro Hn.
  assert (H0 : 0 <= inject_Z n) by (rewrite <- (Zle_Qle 0); assumption).
  destruct (py_min_spec 1.0 (inject_Z n * 0.2 + 0.5)) as [[Hlt ->]|[Hge ->]].
  - split; [lra|]. split.
    + intro E. exfalso. lra.
    + intro H3. exfalso.
      assert (3 <= inject_Z n) by (rewrite <- (Zle_Qle 3); assumption). lra.
  - split; [lra|]. split; [|intros _; reflexivity].
    intros _. destruct (Z_lt_le_dec n 3) as [Hsmall|]; [|assumption].
    exfalso. assert (inject_Z n <= 2) by (rewrite <- (Zle_Qle _ 2); lia). lra.
Qed.

(** X14.  The confidence parsed from an AI response lies between 0.35 and 1:
    it is at least 0.5 when no line mentions a risk keyword and at most 0.7
    when one does, and it is 1 exactly when no line mentions a risk keyword
    and at least three lines mention a positive keyword.  It is never below
    the 0.3 under which the fusion looks for a low confidence. *)
Theorem parsed_confidence_bounds (response_text : string) :
  let r := _parse_ai_response response_text in
  let positive := py_get [] (ai_positive_indicators r) in
  0.35 <= ai_confidence_score r <= 1
  /\ Qlt_bool (ai_confidence_score r) 0.3 = false
  /\ (ai_risk_indicators r = [] -> 0.5 <= ai_confidence_score r)
  /\ (ai_risk_indicators r <> [] -> ai_confidence_score r <= 0.7)
  /\ (ai_confidence_score r == 1
      <-> ai_risk_indicators r = [] /\ (3 <= len positive)%Z).
Proof.
  cbv zeta. unfold _parse_ai_response. cbv zeta.
  cbn [ai_confidence_score ai_risk_indicators ai_positive_indicators py_get].
  generalize (indicators risk_keywords (split_lines (lower response_text))).
  generalize (indicators positive_keywords (split_lines (lower response_text))).
  intros positive risks.
  destruct (positive_share_bounds (len positive) (len_nonneg positive)) as [Hb Hone].
  set (share := py_min 1.0 (inject_Z (len positive) * 0.2 + 0.5)) in *.
  destruct risks as [|x risks].
  - split; [lra|]. split; [apply Qlt_bool_false_iff; lra|].
    split; [intros _; lra|]. split; [intro H; contradiction|].
    rewrite Hone. tauto.
  - split; [lra|]. split; [apply Qlt_bool_false_iff; lra|].
    split; [discriminate|]. split; [intros _; lra|].
    split; [intro E; exfalso; lra | intros [E _]; discriminate].
Qed.

(** The lines that come out of [strip] hold no line feed and the parser
    keeps a line once for each list whose keywords it mentions. *)
Lemma indicators_of_line (keywords : list string) (lines : list string) (line : string) :
  In line lines -> mentions keywords line = true -> In (strip line) (indicators keywords lines).
Proof.
  intros Hin Hm. unfold indicators. apply in_map. apply filter_In. tauto.
Qed.

(** X15.  The two lists of the parser overlap: a line of the lowercased
    response that mentions a risk keyword and a positive keyword is reported,
    stripped, both as a risk indicator and as a positive indicator; and every
    reported indicator is such a stripped line. *)
Theorem parsed_indicators (response_text : string) :
  let r := _parse_ai_response response_text in
  let lines := split_lines (lower response_text) in
  (forall line,
      In line lines -> mentions risk_keywords line = true ->
      mentions positive_keywords line = true ->
      In (strip line) (ai_risk_indicators r)
      /\ In (strip line) (py_get [] (ai_positive_indicators r)))
  /\ (forall x, In x (ai_risk_indicators r) ->
                exists line, In line lines /\ mentions risk_keywords line = true
                             /\ x = strip line)
  /\ (forall x, In x (py_get [] (ai_positive_indicators r)) ->
                exists line, In line lines /\ mentions positive_keywords line = true
                             /\ x = strip line)
  /\ (List.length (ai_risk_indicators r) <= List.length lines)%nat
  /\ (List.length (py_get [] (ai_positive_indicators r)) <= List.length lines)%nat.
Proof.
  cbv zeta. unfold _parse_ai_response. cbv zeta.
  cbn [ai_risk_indicators ai_positive_indicators py_get].
  generalize (split_lines (lower response_text)). intro lines.
  split; [|split; [|split; [|split]]].
  - intros line Hin Hr Hp. split; now apply indicators_of_line.
  - intros x Hx. unfold indicators in Hx. apply in_map_iff in Hx.
    destruct Hx as (line & <- & Hl). apply filter_In in Hl. exists line. tauto.
  - intros x Hx. unfold indicators in Hx. apply in_map_iff in Hx.
    destruct Hx as (line & <- & Hl). apply filter_In in Hl. exists line. tauto.
  - unfold indicators. rewrite length_map. apply filter_length_le.
  - unfold indicators. rewrite length_map. apply filter_length_le.
Qed.

End AIResponse.

(** ** Download of the image and [analyze_location] *)

Section Download.

Import SatelliteAnalyzer.

Lemma truthy_bytes_some (data : option (list Byte.byte)) :
  truthy_bytes data = true <-> exists b rest, data = Some (b :: rest).
Proof.
  destruct data as [[|b rest]|]; cbn; split; try discriminate.
  - intros (? & ? & ?). discriminate.
  - intros _. now exists b, rest.
  - reflexivity.
  - intros (? & ? & ?). discriminate.
Qed.

(** X16.  The download tries Google first and Mapbox second, each only when
    its key is set.  It returns Google's image when Google is configured and
    delivers a non-empty one; otherwise Mapbox's image when Mapbox is
    configured and delivers a non-empty one; otherwise nothing.  It never
    returns an empty image. *)
Theorem download_provider_order
    (self : Providers) (google mapbox : Result HttpResponse) :
  let from_google :=
    if truthy_string (google_api_key self) then _download_from_google google else None in
  let from_mapbox :=
    if truthy_string (mapbox_token self) then _download_from_mapbox mapbox else None in
  let image := _download_satellite_image self google mapbox in
  (truthy_bytes from_google = true -> image = from_google)
  /\ (truthy_bytes from_google = false -> truthy_bytes from_mapbox = true ->
      image = from_mapbox)
  /\ (truthy_bytes from_google = false -> truthy_bytes from_mapbox = false -> image = None)
  /\ image <> Some [].
Proof.
  cbv zeta. unfold _download_satellite_image. cbv zeta.
  generalize (if truthy_string (google_api_key self)
              then _download_from_google google else None).
  generalize (if truthy_string (mapbox_token self)
              then _download_from_mapbox mapbox else None).
  intros m g.
  destruct (truthy_bytes g) eqn:Eg.
  - repeat split; intros; try discriminate.
    intro E. rewrite E in Eg. discriminate.
  - destruct (truthy_bytes m) eqn:Em.
    + repeat split; intros; try discriminate.
      intro E. rewrite E in Em. discriminate.
    + repeat split; intros; discriminate.
Qed.

(** Google's answer is used only with status 200 and an image content type;
    Mapbox's with status 200 alone. *)
Lemma download_acceptance (r : HttpResponse) :
  (_download_from_google (Ok r) = Some (content r)
   <-> status_code r = 200%Z /\ str_in "image" (py_get "" (content_type r)) = true)
  /\ (_download_from_mapbox (Ok r) = Some (content r) <-> status_code r = 200%Z).
Proof.
  unfold _download_from_google, _download_from_mapbox.
  destruct (Z.eqb_spec (status_code r) 200) as [E|E]; cbn [andb].
  - destruct (str_in "image" (py_get "" (content_type r))); split; split;
      intros; try discriminate; try tauto; try reflexivity.
    destruct H. discriminate.
  - split; split; intros; try discriminate; tauto.
Qed.

End Download.

Section LocationAnalysis.

Context {cv : SatelliteAnalyzer.CV2}.

Import SatelliteAnalyzer.

(** X17.  [analyze_location] reports the analysis as completed exactly when
    an image was downloaded, whatever the computer vision and the AI call
    do.  Without an image it records the download error, and the satellite
    scorer then returns 0.3 with the only factor that the analysis is
    unavailable, for every business type. *)
Theorem location_analysis_completion
    (self : Providers) (google mapbox : Result HttpResponse) (completion : Result string) :
  let r := analyze_location self google mapbox completion in
  analysis_completed (satellite_data r) = Some (image_downloaded r)
  /\ (image_downloaded r = true
      <-> truthy_bytes (_download_satellite_image self google mapbox) = true)
  /\ (image_downloaded r = true -> location_error r = None)
  /\ (image_downloaded r = false ->
      location_error r = Some "Failed to download satellite image"
      /\ forall bt,
          _analyze_satellite_risk (satellite_data r) bt
          = {| risk_score := 0.3;
               risk_factors := ["Satellite analysis unavailable"];
               positive_factors := [];
               quality_rating := "UNKNOWN";
               sig_confidence_score := None |}).
Proof.
  cbv zeta. unfold analyze_location. cbv zeta.
  destruct (truthy_bytes (_download_satellite_image self google mapbox));
    cbn [negb satellite_data image_downloaded location_error analysis_completed];
    repeat split; intros; try discriminate; reflexivity.
Qed.

(** X18.  When the image is downloaded and the AI call fails, the analysis
    still counts as completed, with confidence 0 and no indicator.  The
    satellite scorer then adds 0.2 for limited infrastructure indicators, so
    its score is at least 0.2, and lists no AI risk indicator. *)
Theorem failed_ai_call_counts_as_completed
    (self : Providers) (google mapbox : Result HttpResponse) (e bt : string) :
  truthy_bytes (_download_satellite_image self google mapbox) = true ->
  let r := analyze_location self google mapbox (Raise e) in
  let score := _analyze_satellite_risk (satellite_data r) bt in
  analysis_completed (satellite_data r) = Some true
  /\ confidence_score (satellite_data r) = Some 0.0
  /\ risk_indicators (satellite_data r) = Some []
  /\ In "Limited infrastructure indicators" (risk_factors score)
  /\ ~ In "Strong infrastructure indicators from AI analysis" (positive_factors score)
  /\ 0.2 <= risk_score score.
Proof.
  intros Himage. cbv zeta. unfold analyze_location. cbv zeta. rewrite Himage.
  cbn [negb satellite_data analysis_completed confidence_score risk_indicators
       _ai_contextual_analysis ai_confidence_score ai_risk_indicators
       ai_positive_indicators].
  split; [reflexivity|]. split; [reflexivity|]. split; [reflexivity|].
  unfold _analyze_satellite_risk. cbv zeta.
  cbn [analysis_completed visual_features infrastructure_assessment risk_indicators
       positive_indicators py_get negb].
  change (3 <=? len (@nil string))%Z with false.
  change (len (@nil string) =? 0)%Z with true.
  change (2 <=? len (@nil string))%Z with false.
  cbv iota.
  generalize (_computer_vision_analysis
                (match _download_satellite_image self google mapbox with
                 | Some v => v
                 | None => []
                 end)).
  intro features.
  match goal with
  | |- context [add_risk 0.2 "Limited infrastructure indicators" ?d] =>
      assert (Hd : ~ In "Strong infrastructure indicators from AI analysis"
                        (positive_factors d)
                   /\ 0 <= risk_score d)
        by (split_branches; read_score; cbn [app In];
            (split; [intuition discriminate | lra]));
      revert Hd; generalize d
  end.
  intros pre [Hpos Hscore].
  split_branches; read_score;
    (split; [apply in_or_app; right; left; reflexivity|]);
    (split; [assumption | lra]).
Qed.

End LocationAnalysis.

Lemma failed_ai_call_counts_as_completed_witness :
  analysis_completed
    (SatelliteAnalyzer.satellite_data
       (@SatelliteAnalyzer.analyze_location MeasuredCV2.undecodable
          {| SatelliteAnalyzer.google_api_key := None;
             SatelliteAnalyzer.mapbox_token := Some "pk.token" |}
          (Raise "no key")
          (Ok {| SatelliteAnalyzer.status_code := 200;
                 SatelliteAnalyzer.content_type := None;
                 SatelliteAnalyzer.content := [Byte.x89; Byte.x50] |})
          (Raise "rate limit"))) = Some true.
Proof.
  exact (proj1 (@failed_ai_call_counts_as_completed MeasuredCV2.undecodable
                  {| SatelliteAnalyzer.google_api_key := None;
                     SatelliteAnalyzer.mapbox_token := Some "pk.token" |}
                  (Raise "no key")
                  (Ok {| SatelliteAnalyzer.status_code := 200;
                         SatelliteAnalyzer.content_type := None;
                         SatelliteAnalyzer.content := [Byte.x89; Byte.x50] |})
                  "rate limit" "retail" eq_refl)).
Defined.

(** ** The address validator *)

Section LocationType.

Import AddressValidator.

Lemma any_indicator_iff (indicators all : list string) :
  py_any (fun indicator => py_in indicator all) indicators = true
  <-> exists x, In x all /\ In x indicators.
Proof.
  unfold py_any. rewrite existsb_exists. split.
  - intros (x & Hx & Hin). apply py_in_In in Hin. now exists x.
  - intros (x & Hall & Hx). exists x. split; [assumption | now apply py_in_In].
Qed.

(** X19.  The location type is decided by priority: industrial when a land
    use, building or amenity tag around the address is industrial,
    warehouse, factory or logistics; otherwise commercial when one is
    commercial, retail, office or shop; otherwise residential when one is
    residential, house or apartment; otherwise mixed. *)
Theorem location_type_priority (land_uses buildings amenities : list string) :
  let all := (land_uses ++ buildings ++ amenities)%list in
  let among indicators := exists x, In x all /\ In x indicators in
  let industrial := among ["industrial"; "warehouse"; "factory"; "logistics"] in
  let commercial := among ["commercial"; "retail"; "office"; "shop"] in
  let residential := among ["residential"; "house"; "apartment"] in
  let t := _classify_location_type land_uses buildings amenities in
  (t = "industrial" <-> industrial)
  /\ (t = "commercial" <-> ~ industrial /\ commercial)
  /\ (t = "residential" <-> ~ industrial /\ ~ commercial /\ residential)
  /\ (t = "mixed" <-> ~ industrial /\ ~ commercial /\ ~ residential).
Proof.
  cbv zeta. unfold _classify_location_type. cbv zeta.
  rewrite <- !any_indicator_iff.
  destruct (py_any _ ["industrial"; "warehouse"; "factory"; "logistics"]);
    destruct (py_any _ ["commercial"; "retail"; "office"; "shop"]);
    destruct (py_any _ ["residential"; "house"; "apartment"]);
    repeat split; intros; try discriminate; try reflexivity; try tauto;
    intuition discriminate.
Qed.

End LocationType.

Section DominantCharacteristic.

Import AddressValidator.

Lemma stored_increment (char key : string) (m : list (string * Z)) :
  stored (increment char m) key
  = if String.eqb key char then (stored m key + 1)%Z else stored m key.
Proof.
  unfold stored. induction m as [|[k n] m IH]; cbn [increment RiskAnalyzer.dict_get].
  - rewrite (String.eqb_sym char key). destruct (String.eqb key char); reflexivity.
  - destruct (String.eqb_spec k char) as [->|Hk]; cbn [RiskAnalyzer.dict_get].
    + rewrite (String.eqb_sym char key). destruct (String.eqb key char); reflexivity.
    + destruct (String.eqb_spec k key) as [->|Hkey].
      * destruct (String.eqb_spec key char) as [->|_]; [contradiction | reflexivity].
      * exact IH.
Qed.

Lemma keys_increment (char key : string) (m : list (string * Z)) :
  In key (map fst (increment char m)) <-> key = char \/ In key (map fst m).
Proof.
  induction m as [|[k n] m IH]; cbn [increment map fst In].
  - intuition.
  - destruct (String.eqb_spec k char) as [->|Hk]; cbn [map fst In]; intuition.
Qed.

Lemma nodup_keys_increment (char : string) (m : list (string * Z)) :
  NoDup (map fst m) -> NoDup (map fst (increment char m)).
Proof.
  induction m as [|[k n] m IH]; cbn [increment map fst]; intro H.
  - constructor; [intros [] | constructor].
  - inversion H as [|? ? Hnotin Hrest]; subst.
    destruct (String.eqb_spec k char) as [->|Hk]; cbn [map fst].
    + constructor; assumption.
    + constructor; [|now apply IH].
      rewrite keys_increment. intros [->|Hin]; [now apply Hk | contradiction].
Qed.

Lemma occurrences_nonneg (key : string) (l : list string) : (0 <= occurrences key l)%Z.
Proof. induction l as [|x l IH]; cbn [occurrences]; [lia|]. destruct (String.eqb key x); lia. Qed.

Lemma occurrences_positive (key : string) (l : list string) :
  In key l -> (0 < occurrences key l)%Z.
Proof.
  induction l as [|x l IH]; cbn [occurrences In]; [tauto|].
  intros [->|H].
  - rewrite String.eqb_refl. pose proof (occurrences_nonneg key l). lia.
  - specialize (IH H). destruct (String.eqb key x); lia.
Qed.

Lemma fold_increment (l : list string) (m : list (string * Z)) :
  let m' := fold_left (fun char_counts char => increment char char_counts) l m in
  (forall key, stored m' key = (stored m key + occurrences key l)%Z)
  /\ (forall key, In key (map fst m') <-> In key l \/ In key (map fst m))
  /\ (NoDup (map fst m) -> NoDup (map fst m')).
Proof.
  revert m. induction l as [|x l IH]; intro m; cbn [fold_left occurrences].
  - cbv zeta. repeat split; intros; try lia; try tauto. cbn [In] in *. tauto.
  - specialize (IH (increment x m)). cbv zeta in *.
    destruct IH as (Hstored & Hkeys & Hnodup).
    split; [|split].
    + intro key. rewrite Hstored, stored_increment.
      destruct (String.eqb key x); lia.
    + intro key. rewrite Hkeys, keys_increment. cbn [In]. intuition.
    + intro H. apply Hnodup. now apply nodup_keys_increment.
Qed.

Lemma stored_of_item (m : list (string * Z)) (k : string) (n : Z) :
  NoDup (map fst m) -> In (k, n) m -> stored m k = n.
Proof.
  unfold stored. induction m as [|[k' n'] m IH]; cbn [map fst In RiskAnalyzer.dict_get].
  - tauto.
  - intros Hnodup [E|Hin].
    + inversion E; subst. now rewrite String.eqb_refl.
    + inversion Hnodup as [|? ? Hnotin Hrest]; subst.
      destruct (String.eqb_spec k' k) as [->|_].
      * exfalso. apply Hnotin. now apply (in_map fst _ (k, n)).
      * now apply IH.
Qed.

Lemma max_by_count_spec (items : list (string * Z)) (first : string * Z) :
  let best := max_by_count first items in
  In best (first :: items)
  /\ forall item, In item (first :: items) -> (snd item <= snd best)%Z.
Proof.
  unfold max_by_count. revert first.
  induction items as [|item items IH]; intro first; cbn [fold_left].
  - split; [now left|]. intros item [<-|[]]. lia.
  - destruct (Z.ltb_spec (snd first) (snd item)) as [Hlt|Hge].
    + destruct (IH item) as [Hin Hmax]. split.
      * right. exact Hin.
      * intros x [<-|Hx]; [|now apply Hmax].
        specialize (Hmax item (or_introl eq_refl)). lia.
    + destruct (IH first) as [Hin Hmax]. split.
      * destruct Hin as [<-|Hin]; [now left | right; now right].
      * intros x [<-|[<-|Hx]].
        -- apply Hmax. now left.
        -- specialize (Hmax first (or_introl eq_refl)). lia.
        -- apply Hmax. now right.
Qed.

(** X20.  The dominant characteristic of a non-empty list is one of its
    elements and no element occurs more often; for the empty list it is
    ['unknown']. *)
Theorem dominant_characteristic_is_mode (characteristics : list string) :
  characteristics <> [] ->
  let dominant := _get_dominant_characteristic characteristics in
  In dominant characteristics
  /\ forall x, (occurrences x characteristics <= occurrences dominant characteristics)%Z.
Proof.
  intros Hne. cbv zeta. unfold _get_dominant_characteristic.
  destruct characteristics as [|c rest]; [contradiction|].
  destruct (fold_increment (c :: rest) []) as (Hstored & Hkeys & Hnodup).
  cbv zeta in *. fold (count_characteristics (c :: rest)) in *.
  specialize (Hnodup (NoDup_nil _)).
  destruct (count_characteristics (c :: rest)) as [|first items] eqn:Ecounts.
  - exfalso. apply (proj2 (Hkeys c)). left. now left.
  - destruct (max_by_count_spec items first) as [Hin Hmax]. cbv zeta in *.
    set (best := max_by_count first items) in *.
    assert (Hbest : stored (first :: items) (fst best) = snd best).
    { apply stored_of_item; [assumption|]. now destruct best. }
    rewrite Hstored in Hbest. unfold stored in Hbest at 1. cbn [RiskAnalyzer.dict_get] in Hbest.
    split.
    + destruct (proj1 (Hkeys (fst best))) as [H|[]]; [|assumption].
      now apply in_map.
    + intro x.
      destruct (in_dec string_dec x (c :: rest)) as [Hx|Hx].
      * assert (Hkey : In x (map fst (first :: items))) by (apply Hkeys; now left).
        apply in_map_iff in Hkey. destruct Hkey as ([k n] & Hk & Hitem).
        cbn [fst] in Hk. subst k.
        pose proof (stored_of_item _ _ _ Hnodup Hitem) as Hn.
        rewrite Hstored in Hn. unfold stored in Hn at 1. cbn [RiskAnalyzer.dict_get] in Hn.
        specialize (Hmax _ Hitem). cbn [snd] in Hmax. lia.
      * assert (occurrences x (c :: rest) = 0%Z).
        { clear -Hx. induction (c :: rest) as [|y l IH]; [reflexivity|].
          cbn [occurrences]. destruct (String.eqb_spec x y) as [->|_].
          - exfalso. apply Hx. now left.
          - rewrite IH; [reflexivity|]. intro H. apply Hx. now right. }
        pose proof (occurrences_nonneg (fst best) (c :: rest)). lia.
Qed.

End DominantCharacteristic.

Lemma dominant_characteristic_is_mode_witness :
  In (AddressValidator._get_dominant_characteristic
        ["residential"; "industrial"; "industrial"])
     ["residential"; "industrial"; "industrial"].
Proof.
  exact (proj1 (dominant_characteristic_is_mode
                  ["residential"; "industrial"; "industrial"]
                  ltac:(discriminate))).
Defined.

Section Validation.

Import AddressValidator.

Variable list_of_set : list string -> list string.

(** The context of a location is the parsed one or the initial one: its
    neighbourhood is urban or unknown and its location type one of five. *)
Lemma location_context_range (response : Result OverpassResponse) :
  let context := _analyze_location_context list_of_set response in
  In (ctx_neighborhood_context context) ["urban"; "unknown"]
  /\ In (ctx_location_type context)
        ["industrial"; "commercial"; "residential"; "mixed"; "unknown"].
Proof.
  cbv zeta. unfold _analyze_location_context. cbv zeta.
  assert (Hparsed : forall data,
             In (ctx_neighborhood_context (_parse_overpass_response list_of_set data))
                ["urban"; "unknown"]
             /\ In (ctx_location_type (_parse_overpass_response list_of_set data))
                   ["industrial"; "commercial"; "residential"; "mixed"; "unknown"]).
  { intro data. unfold _parse_overpass_response. cbv zeta.
    cbn [ctx_neighborhood_context ctx_location_type].
    split; [now left|].
    unfold _classify_location_type. cbv zeta.
    repeat match goal with
           | |- context [if ?c then _ else _] => destruct c
           end; cbn [In]; tauto. }
  destruct response as [r|e]; [|cbn; tauto].
  destruct (status_code r =? 200)%Z; [|cbn; tauto].
  destruct (json r) as [data|e]; [apply Hparsed | cbn; tauto].
Qed.

(** X21.  An address is valid exactly when the geocoder found a location,
    and exactly then it has coordinates.  An invalid address carries an
    error message and no location type; a valid one carries no error, a
    neighbourhood that is urban or unknown and one of five location types,
    whatever the Overpass service answers. *)
Theorem validation_outcomes (geocoded : GeocodeOutcome) (response : Result OverpassResponse) :
  let v := validate_address list_of_set geocoded response in
  let a := address_data v in
  (is_valid a = Some true <-> exists location, geocoded = Found location)
  /\ (is_valid a = Some true \/ is_valid a = Some false)
  /\ (coordinates v <> None <-> is_valid a = Some true)
  /\ (is_valid a = Some false ->
      address_error a <> None /\ location_type a = None /\ nearby_amenities a = None)
  /\ (is_valid a = Some true ->
      address_error a = None
      /\ (exists n, neighborhood_context a = Some n /\ In n ["urban"; "unknown"])
      /\ (exists t, location_type a = Some t
                    /\ In t ["industrial"; "commercial"; "residential"; "mixed"; "unknown"])).
Proof.
  cbv zeta. unfold validate_address.
  destruct geocoded as [location| |e|e]; cbn [_geocode_address address_data coordinates
                                              is_valid address_error location_type
                                              nearby_amenities neighborhood_context].
  - pose proof (location_context_range response) as [Hn Ht]. cbv zeta in Hn, Ht.
    split; [split; [intros _; now exists location | reflexivity]|].
    split; [now left|].
    split; [split; [reflexivity | discriminate]|].
    split; [discriminate|].
    intros _. split; [reflexivity|]. split; eexists; (split; [reflexivity|]); assumption.
  - split; [split; [discriminate | intros [? H]; discriminate]|].
    split; [now right|].
    split; [split; [intro H; now contradiction H | discriminate]|].
    split; [|discriminate].
    intros _. repeat split. discriminate.
  - split; [split; [discriminate | intros [? H]; discriminate]|].
    split; [now right|].
    split; [split; [intro H; now contradiction H | discriminate]|].
    split; [|discriminate].
    intros _. repeat split. discriminate.
  - split; [split; [discriminate | intros [? H]; discriminate]|].
    split; [now right|].
    split; [split; [intro H; now contradiction H | discriminate]|].
    split; [|discriminate].
    intros _. repeat split. discriminate.
Qed.

(** A validation is invalid, or valid with an urban or unknown
    neighbourhood. *)
Lemma validation_facts (geocoded : GeocodeOutcome) (response : Result OverpassResponse) :
  let a := address_data (validate_address list_of_set geocoded response) in
  (is_valid a = Some false /\ True)
  \/ (is_valid a = Some true
      /\ exists n, neighborhood_context a = Some n /\ In n ["urban"; "unknown"]).
Proof.
  cbv zeta. unfold validate_address.
  destruct geocoded as [location| |e|e]; cbn [_geocode_address address_data is_valid
                                              neighborhood_context];
    try (left; split; [reflexivity | exact I]).
  right. split; [reflexivity|].
  eexists. split; [reflexivity|]. apply location_context_range.
Qed.

(** X22.  For every address the validator returns, the address scorer never
    applies the remote-office rule, because the validator never reports a
    remote or rural neighbourhood: the score is 0, 0.1, 0.4 or 0.9 and the
    rating is never GOOD. *)
Theorem validated_address_score
    (geocoded : GeocodeOutcome) (response : Result OverpassResponse) (bt : string) :
  let a := address_data (validate_address list_of_set geocoded response) in
  let r := RiskAnalyzer._analyze_address_risk a bt in
  ~ In "Tech/consulting business in remote location" (risk_factors r)
  /\ (risk_score r == 0 \/ risk_score r == 0.1 \/ risk_score r == 0.4 \/ risk_score r == 0.9)
  /\ quality_rating r <> "GOOD".
Proof.
  cbv zeta.
  destruct (validation_facts geocoded response) as [Hinvalid|Hvalid].
  - destruct Hinvalid as [Hv _].
    rewrite (invalid_address_score _ bt Hv).
    cbn [risk_factors risk_score quality_rating In].
    split; [intuition discriminate|]. split; [|discriminate].
    right; right; right. reflexivity.
  - destruct Hvalid as (Hv & n & Hn & Hurban).
    set (a := address_data (validate_address list_of_set geocoded response)) in *.
    assert (Hvalid : py_get false (is_valid a) = true) by (rewrite Hv; reflexivity).
    assert (Hno : (String.eqb (py_get "unknown" (neighborhood_context a)) "remote"
                   || String.eqb (py_get "unknown" (neighborhood_context a)) "rural")
                  = false).
    { rewrite Hn. cbn [py_get]. destruct Hurban as [<-|[<-|[]]]; reflexivity. }
    pose proof (address_quality_bands a bt Hvalid) as Hq.
    pose proof (address_score_formula a bt Hvalid) as Hs.
    cbv zeta in Hq, Hs. rewrite Hno in Hs. cbn [andb] in Hs.
    rewrite !(Qlt_bool_compat _ _ _ Hs) in Hq.
    split; [|split].
    + unfold RiskAnalyzer._analyze_address_risk. cbv zeta. rewrite Hvalid, Hno.
      cbn [negb].
      split_branches; read_score; cbn [app In]; unfold RiskAnalyzer.mismatch_factor;
        intuition discriminate.
    + rewrite Hs.
      destruct (String.eqb _ "residential"); [right; right; left; lra|].
      destruct (String.eqb _ "commercial" && String.eqb _ "manufacturing");
        [right; left; lra | left; lra].
    + rewrite Hq.
      destruct (String.eqb _ "residential"); [vm_compute; discriminate|].
      destruct (String.eqb _ "commercial" && String.eqb _ "manufacturing");
        vm_compute; discriminate.
Qed.

End Validation.

(** ** The request handler *)

Section RequestHandler.

Import KYCGeointelligentAPI.

(** The verdict of the analyzer is never UNKNOWN, and it is AUTO_APPROVE
    only below both thresholds. *)
Lemma analysis_verdict_facts
    (self : RiskAnalyzer.t) (now cnpj : string) (a : AddressData) (s : SatelliteData)
    (bt da : string) :
  let r := analyze_comprehensive_risk self now cnpj a s bt da in
  RiskAssessment.risk_level r <> UNKNOWN
  /\ (RiskAssessment.recommendation r = AUTO_APPROVE ->
      RiskAssessment.overall_risk_score r < high_risk_threshold self
      /\ RiskAssessment.overall_risk_score r < medium_risk_threshold self).
Proof.
  cbv zeta.
  pose proof (verdict_of_analysis self now cnpj a s bt da) as Hv. cbv zeta in Hv.
  revert Hv.
  generalize (RiskAssessment.overall_risk_score
                (analyze_comprehensive_risk self now cnpj a s bt da)).
  generalize (RiskAssessment.risk_level (analyze_comprehensive_risk self now cnpj a s bt da)).
  generalize (RiskAssessment.recommendation
                (analyze_comprehensive_risk self now cnpj a s bt da)).
  intros advice level score. unfold classify.
  destruct (Qge_bool score (high_risk_threshold self)) eqn:Eh;
    [|destruct (Qge_bool score (medium_risk_threshold self)) eqn:Em];
    intro Hv; inversion Hv; subst;
    (split; [discriminate|]); intro H; try discriminate.
  apply Qge_bool_false_iff in Eh. apply Qge_bool_false_iff in Em. tauto.
Qed.

(** X23.  The request handler recommends AUTO_APPROVE only when the
    validation returned a valid address, the call of the satellite analysis
    returned without raising, and the risk analyzer scored the request below
    both thresholds; an exception raised by the validator or by the
    satellite analysis never ends in AUTO_APPROVE.  A failure the satellite
    analysis catches itself, such as a failed download, is not excluded. *)
Theorem auto_approve_needs_full_analysis
    (self : RiskAnalyzer.t) (now cnpj bt da : string)
    (validated : Result AddressData) (located : Result SatelliteData) :
  recommendation (process_kyc_request self now validated located cnpj bt da)
  = Some AUTO_APPROVE ->
  exists a s,
    validated = Ok a /\ is_valid a = Some true /\ located = Ok s
    /\ status (process_kyc_request self now validated located cnpj bt da) = "completed"
    /\ RiskAssessment.overall_risk_score (analyze_comprehensive_risk self now cnpj a s bt da)
       < medium_risk_threshold self
    /\ RiskAssessment.overall_risk_score (analyze_comprehensive_risk self now cnpj a s bt da)
       < high_risk_threshold self.
Proof.
  unfold process_kyc_request, bind.
  destruct validated as [a|e]; [|discriminate].
  destruct (is_valid a) as [[|]|] eqn:Hvalid; cbn [negb]; try discriminate.
  destruct located as [s|e]; [|discriminate].
  cbn [recommendation status]. intro H. injection H as H.
  exists a, s.
  destruct (analysis_verdict_facts self now cnpj a s bt da) as [_ Hlow].
  cbv zeta in Hlow. specialize (Hlow H). tauto.
Qed.

Lemma auto_approve_needs_full_analysis_witness :
  exists a s,
    Ok (Scenario.valid_address "residential" "urban") = Ok a
    /\ is_valid a = Some true
    /\ Ok (Scenario.satellite 1 1500 1500 0 [] [] 0.5) = Ok s.
Proof.
  destruct (auto_approve_needs_full_analysis
              RiskAnalyzer.default "2024-05-01T10:00:00" "12.345.678/0001-90"
              "technology" "Software development"
              (Ok (Scenario.valid_address "residential" "urban"))
              (Ok (Scenario.satellite 1 1500 1500 0 [] [] 0.5))
              eq_refl) as (a & s & H1 & H2 & H3 & _).
  exists a, s. repeat split; assumption.
Defined.


(** X25.  An address the geocoder does not find, or on which it fails, is
    blocked by the request handler: the validator returns, the handler
    answers HIGH and BLOCK with status ['completed'], and the text carries
    the validator's error message, whatever the satellite analysis would
    give. *)
Theorem unfound_address_is_blocked
    (list_of_set : list string -> list string)
    (self : RiskAnalyzer.t) (now cnpj bt da : string)
    (geocoded : AddressValidator.GeocodeOutcome)
    (response : Result AddressValidator.OverpassResponse)
    (located : Result SatelliteData) :
  (forall location, geocoded <> AddressValidator.Found location) ->
  let v := AddressValidator.validate_address list_of_set geocoded response in
  let k := process_kyc_request self now (Ok (AddressValidator.address_data v)) located
                               cnpj bt da in
  status k = "completed"
  /\ risk_level k = Some HIGH
  /\ recommendation k = Some BLOCK
  /\ exists message,
      address_error (AddressValidator.address_data v) = Some message
      /\ recommendation_text k
         = Some ("🚨 HIGH RISK: Invalid or not found address: " ++ message).
Proof.
  intros Hnot. cbv zeta.
  unfold AddressValidator.validate_address.
  destruct geocoded as [location| |e|e];
    [exfalso; now apply (Hnot location)|..];
    cbn [AddressValidator._geocode_address AddressValidator.address_data];
    unfold process_kyc_request, bind; cbn [is_valid negb status risk_level recommendation
                                           recommendation_text address_error py_get];
    (repeat split; eexists; split; reflexivity).
Qed.

End RequestHandler.

Lemma unfound_address_is_blocked_witness :
  KYCGeointelligentAPI.recommendation
    (KYCGeointelligentAPI.process_kyc_request
       RiskAnalyzer.default "2024-05-01T10:00:00"
       (Ok (AddressValidator.address_data
              (AddressValidator.validate_address
                 (fun l => l) AddressValidator.NotFound (Raise "timeout"))))
       (Ok Scenario.clean_site) "12.345.678/0001-90" "technology" "Software development")
  = Some BLOCK.
Proof.
  exact (proj1 (proj2 (proj2
           (unfound_address_is_blocked
              (fun l => l) RiskAnalyzer.default "2024-05-01T10:00:00" "12.345.678/0001-90"
              "technology" "Software development"
              AddressValidator.NotFound (Raise "timeout") (Ok Scenario.clean_site)
              ltac:(discriminate))))).
Defined.

(** ** Business types the rules do not name *)

(** Without the no-vehicle rule the satellite score is at most 1.1. *)
Lemma satellite_score_without_vehicle_rule (s : SatelliteData) (bt : string) :
  py_in bt ["logistics"; "transport"] = false ->
  risk_score (_analyze_satellite_risk s bt) <= 1.1.
Proof.
  intro H. unfold _analyze_satellite_risk. cbv zeta. rewrite H. rewrite andb_false_r.
  split_branches; read_score;
    try match goal with
        | |- context [py_min 0.4 (inject_Z (len ?l) * 0.1)] =>
            pose proof (risk_indicator_amount_bounds l)
        end; lra.
Qed.

Lemma lower_fixes_keys (bt key : string) :
  In key ["logistics"; "manufacturing"; "transport"; "technology"; "consulting"] ->
  bt = key -> lower bt = key.
Proof.
  intros Hkey ->. cbn [In] in Hkey.
  destruct Hkey as [<-|[<-|[<-|[<-|[<-|[]]]]]]; reflexivity.
Qed.

(** X26.  For a business type that is, lowercased, none of logistics,
    manufacturing, transport, technology and consulting, and a valid
    address, the overall score is at most 0.56: with the default thresholds
    the analyzer never answers HIGH or BLOCK for such a business, whatever
    the address context and the imagery show. *)
Theorem unnamed_business_type_never_blocked
    (now cnpj bt da : string) (a : AddressData) (s : SatelliteData) :
  ~ In (lower bt) ["logistics"; "manufacturing"; "transport"; "technology"; "consulting"] ->
  py_get false (is_valid a) = true ->
  let r := analyze_comprehensive_risk default now cnpj a s bt da in
  RiskAssessment.overall_risk_score r <= 0.56
  /\ RiskAssessment.risk_level r <> HIGH
  /\ RiskAssessment.recommendation r <> BLOCK.
Proof.
  intros Hother Hvalid r.
  assert (Hraw : forall key,
             In key ["logistics"; "manufacturing"; "transport"; "technology"; "consulting"] ->
             bt <> key).
  { intros key Hkey E. apply Hother. rewrite (lower_fixes_keys bt key Hkey E). exact Hkey. }
  assert (Hvehicle : py_in bt ["logistics"; "transport"] = false).
  { apply py_in_false. intros [E|[E|[]]]; symmetry in E; revert E; apply Hraw;
      cbn [In]; tauto. }
  assert (Hoffice : py_in bt ["technology"; "consulting"] = false).
  { apply py_in_false. intros [E|[E|[]]]; symmetry in E; revert E; apply Hraw;
      cbn [In]; tauto. }
  assert (H1 : py_in (lower bt) ["logistics"; "manufacturing"] = false)
    by (apply py_in_false; intro Hin; apply Hother; cbn [In] in *; tauto).
  assert (H2 : py_in (lower bt) ["technology"; "consulting"] = false)
    by (apply py_in_false; intro Hin; apply Hother; cbn [In] in *; tauto).
  assert (H3 : py_in (lower bt) ["logistics"; "transport"] = false)
    by (apply py_in_false; intro Hin; apply Hother; cbn [In] in *; tauto).
  assert (Hc : risk_score (_analyze_business_compatibility a s bt da) == 0).
  { unfold _analyze_business_compatibility. cbv zeta. rewrite H1, H2, H3. reflexivity. }
  pose proof (satellite_score_without_vehicle_rule s bt Hvehicle) as Hs.
  pose proof (address_score_formula a bt Hvalid) as Ha. cbv zeta in Ha.
  rewrite Hoffice, andb_false_r in Ha.
  assert (Ha' : risk_score (_analyze_address_risk a bt) <= 0.4).
  { rewrite Ha. destruct (String.eqb _ "residential"); [lra|].
    destruct (String.eqb _ "commercial" && String.eqb _ "manufacturing"); lra. }
  assert (Hscore : RiskAssessment.overall_risk_score r <= 0.56).
  { unfold r. rewrite overall_score_formula.
    eapply Qle_trans; [apply py_min_le_r | lra]. }
  pose proof (verdict_of_analysis default now cnpj a s bt da) as Hv.
  cbv zeta in Hv. fold r in Hv.
  assert (Hnot : classify default (RiskAssessment.overall_risk_score r) <> (HIGH, BLOCK)).
  { rewrite classify_high. unfold default. cbn [high_risk_threshold]. lra. }
  split; [assumption|].
  clearbody r. revert Hv Hnot.
  generalize (RiskAssessment.risk_level r), (RiskAssessment.recommendation r).
  intros level advice. unfold classify.
  destruct (Qge_bool _ (high_risk_threshold default));
    [|destruct (Qge_bool _ (medium_risk_threshold default))];
    intros Hv Hnot; inversion Hv; subst;
    try (exfalso; now apply Hnot); split; discriminate.
Qed.

Lemma unnamed_business_type_never_blocked_witness :
  RiskAssessment.risk_level
    (analyze_comprehensive_risk default "2024-05-01T10:00:00" "12.345.678/0001-90"
       (Scenario.valid_address "residential" "urban") Scenario.empty_plot
       "retail" "Corner shop") <> HIGH.
Proof.
  exact (proj1 (proj2
           (unnamed_business_type_never_blocked
              "2024-05-01T10:00:00" "12.345.678/0001-90" "retail" "Corner shop"
              (Scenario.valid_address "residential" "urban") Scenario.empty_plot
              ltac:(cbn; intuition discriminate) eq_refl))).
Defined.
